(** * The GitHub platform adapter of the dependency-update bot

    A shallow embedding of the per-repository platform session of the
    GitHub adapter: the cached session state [config],
    the remote REST / graph API seen as an external collaborator, and the
    operations that reconcile the two.  Asynchronous functions become
    computations in a state-and-exception monad over a [World] made of
    the session state, the state of the remote service, the journal of
    the requests issued so far and the wall clock. *)

From Stdlib Require Import String Ascii ZArith List Bool Lia DecimalString.
From stdpp Require Import base option list gmap strings.

Local Open Scope string_scope.
Local Open Scope Z_scope.

(** ** JavaScript strings *)

Module Js.

Definition LF : string := String (ascii_of_nat 10) EmptyString.

(** [s.startsWith(p)] *)
Definition startsWith (s p : string) : bool := String.prefix p s.

(** [s.endsWith(p)] *)
Definition endsWith (s p : string) : bool :=
  let n := String.length s in
  let m := String.length p in
  if (m <=? n)%nat then String.eqb (String.substring (n - m) m s) p else false.

(** [s.substring(1)] *)
Definition substring1 (s : string) : string :=
  match s with
  | EmptyString => EmptyString
  | String _ r => r
  end.

Definition lower_ascii (c : ascii) : ascii :=
  let n := nat_of_ascii c in
  if ((65 <=? n) && (n <=? 90))%nat then ascii_of_nat (n + 32) else c.

(** [s.toLowerCase()] on the ASCII range *)
Fixpoint toLowerCase (s : string) : string :=
  match s with
  | EmptyString => EmptyString
  | String c r => String (lower_ascii c) (toLowerCase r)
  end.

(** A string is truthy when it is not empty. *)
Definition truthy (s : string) : bool :=
  match s with
  | EmptyString => false
  | String _ _ => true
  end.

(** An optional string is truthy when present and not empty. *)
Definition truthy_opt (o : option string) : bool :=
  match o with
  | Some s => truthy s
  | None => false
  end.

(** [a || b] on optional strings *)
Definition or_else (a b : option string) : option string :=
  if truthy_opt a then a else b.

(** [a === b] where [a] may be [null] and [b] may be [undefined]:
    [null] and [undefined] are never strictly equal. *)
Definition strict_eq_opt (a b : option string) : bool :=
  match a, b with
  | Some x, Some y => String.eqb x y
  | _, _ => false
  end.

(** [`${n}`] for an integral number *)
Definition of_Z (n : Z) : string := NilZero.string_of_int (Z.to_int n).

(** [`${b}`] for a boolean that may be null *)
Definition of_tribool (b : option bool) : string :=
  match b with
  | Some true => "true"
  | Some false => "false"
  | None => "null"
  end.

(** [`${s}`] for a string that may be undefined *)
Definition of_opt (s : option string) : string :=
  match s with
  | Some x => x
  | None => "undefined"
  end.

(** [list.includes(s)] *)
Definition includes (l : list string) (s : string) : bool :=
  existsb (String.eqb s) l.

End Js.

(** [escapeHash]: every [#] becomes [%23]; a falsy input is returned as is. *)
Fixpoint escapeHash (input : string) : string :=
  match input with
  | EmptyString => EmptyString
  | String c r =>
      if Ascii.eqb c "#"%char then "%23" +:+ escapeHash r
      else String c (escapeHash r)
  end.

(** ** Exceptions

    An exception is either an ordinary error object, of which the adapter
    reads [message], [statusCode] and [body.message], or an
    [ExternalHostError] wrapping another one. *)

Inductive JsError : Type :=
| Err (message : string) (statusCode : option Z) (bodyMessage : option string)
| ExternalHostError (err : JsError).

(** [new Error(message)] *)
Definition new_Error (message : string) : JsError := Err message None None.

Definition statusCode (e : JsError) : option Z :=
  match e with
  | Err _ c _ => c
  | ExternalHostError _ => None
  end.

Definition bodyMessage (e : JsError) : option string :=
  match e with
  | Err _ _ b => b
  | ExternalHostError _ => None
  end.

Definition instanceof_ExternalHostError (e : JsError) : bool :=
  match e with
  | Err _ _ _ => false
  | ExternalHostError _ => true
  end.

(** [err.statusCode === n] *)
Definition statusCode_is (e : JsError) (n : Z) : bool :=
  match statusCode e with
  | Some c => c =? n
  | None => false
  end.

(** ** Remote data shapes *)

Inductive BranchStatus : Type := green | yellow | red.

Record Comment : Type := mkComment {
  comment_id : Z;
  comment_body : string
}.

Record Issue : Type := mkIssue {
  issue_number : Z;
  issue_state : string;
  issue_title : string
}.

Record GhBranchRef : Type := mkGhBranchRef {
  ref_name : string;
  ref_target_oid : string
}.

Record GhRepo : Type := mkGhRepo {
  gh_isFork : bool;
  gh_isArchived : bool;
  gh_nameWithOwner : option string;
  gh_autoMergeAllowed : option bool;
  gh_hasIssuesEnabled : option bool;
  gh_mergeCommitAllowed : bool;
  gh_rebaseMergeAllowed : bool;
  gh_squashMergeAllowed : bool;
  gh_defaultBranchRef : option GhBranchRef
}.

Record GhRestHead : Type := mkGhRestHead {
  head_ref : string;
  head_sha : string;
  head_repo_full_name : option string
}.

Record GhRestPr : Type := mkGhRestPr {
  rest_number : Z;
  rest_state : string;
  rest_title : string;
  rest_body : option string;
  rest_head : GhRestHead;
  rest_user_login : option string;
  rest_merged_at : option string;
  rest_created_at : option string;
  rest_closed_at : option string;
  rest_mergeable : option bool;
  rest_mergeable_state : option string
}.

Record GhGraphQlPr : Type := mkGhGraphQlPr {
  gql_number : Z;
  gql_state : string;
  gql_title : string;
  gql_body : option string;
  gql_headRefName : string;
  gql_baseRefName : option string;
  gql_mergeStateStatus : option string;
  gql_reviews_nodes : option (list string);
  gql_labels_nodes : option (list string);
  gql_assignees_totalCount : option Z;
  gql_reviewRequests_totalCount : option Z;
  gql_comments_nodes : list Comment
}.

Record CombinedBranchStatus : Type := mkCombinedBranchStatus {
  cbs_state : string;
  cbs_statuses : list string
}.

Record CheckRun : Type := mkCheckRun {
  run_name : string;
  run_status : string;
  run_conclusion : string
}.

(** The normalized pull-request record ([Pr] of lib/platform/types.ts,
    with the comments the closed-PR query carries along). *)
Record Pr : Type := mkPr {
  pr_number : Z;
  pr_displayNumber : option string;
  pr_sourceBranch : option string;
  pr_targetBranch : option string;
  pr_sha : option string;
  pr_title : string;
  pr_body : option string;
  pr_state : string;
  pr_canMerge : option bool;
  pr_canMergeReason : option string;
  pr_isConflicted : option bool;
  pr_labels : option (list string);
  pr_hasAssignees : option bool;
  pr_hasReviewers : option bool;
  pr_createdAt : option string;
  pr_closedAt : option string;
  pr_sourceRepo : option string;
  pr_comments : option (list Comment)
}.

(** ** The remote service

    Every request the adapter sends is a value of [Req]: the verb, the
    path components and the payload, as the source builds them.  [Resp]
    gives the shape of the body that comes back for each request. *)

Inductive Req : Type :=
| GraphqlRepoInfo (owner : string) (name : option string)
| GraphqlClosedPrs (owner : string) (name : option string)
| GraphqlOpenPrs (owner : string) (name : option string)
| GraphqlIssues (owner : string) (name user : option string)
| GetPull (repo : option string) (prNo : Z)
| GetPullsAll (repo : option string)
| PostGitRef (repo : option string) (ref : string) (sha : option string)
| PatchPull (repo : option string) (number : Z) (state title : string)
| GetCommitStatus (repo : option string) (branch : string) (useCache : bool)
| GetCheckRuns (repo : option string) (branch : string)
| GetIssue (repo : option string) (number : Z)
| PatchIssue (repo : option string) (number : Z) (body : option string)
    (state : string) (title : option string) (labels : option (list string))
| PostIssue (repo : option string) (title body : string) (labels : list string)
| GetIssueComments (repo : option string) (number : Z)
| PostIssueComment (repo : option string) (number : Z) (body : string)
| PatchIssueComment (repo : option string) (commentId : Z) (body : string)
| GetPullReviews (repo : option string) (prNo : Z)
| PutPullMerge (repo : option string) (prNo : Z) (merge_method : string)
    (token : option string).

Definition Resp (r : Req) : Type :=
  match r with
  | GraphqlRepoInfo _ _ => option GhRepo
  | GraphqlClosedPrs _ _ => option (list GhGraphQlPr)
  | GraphqlOpenPrs _ _ => option (list GhGraphQlPr)
  | GraphqlIssues _ _ _ => list Issue
  | GetPull _ _ => option GhRestPr
  | GetPullsAll _ => list GhRestPr
  | GetCommitStatus _ _ _ => CombinedBranchStatus
  | GetCheckRuns _ _ => option (list CheckRun)
  | GetIssue _ _ => string
  | GetIssueComments _ _ => list Comment
  | GetPullReviews _ _ => list string
  | PostGitRef _ _ _ => unit
  | PatchPull _ _ _ _ => unit
  | PatchIssue _ _ _ _ _ _ => unit
  | PostIssue _ _ _ _ => unit
  | PostIssueComment _ _ _ => unit
  | PatchIssueComment _ _ _ => unit
  | PutPullMerge _ _ _ _ => unit
  end.

(** A request that creates or updates an issue. *)
Definition is_issue_write (r : Req) : bool :=
  match r with
  | PostIssue _ _ _ _ => true
  | PatchIssue _ _ _ _ _ _ => true
  | _ => false
  end.

(** A request that creates or edits a comment. *)
Definition is_comment_write (r : Req) : bool :=
  match r with
  | PostIssueComment _ _ _ => true
  | PatchIssueComment _ _ _ => true
  | _ => false
  end.

(** A merge attempt, with the method it asks for. *)
Definition merge_method_of (r : Req) : option string :=
  match r with
  | PutPullMerge _ _ m _ => Some m
  | _ => None
  end.

(** ** What the adapter imports

    The constants of lib/constants/error-messages and the [PrState]
    enumeration of lib/types, the [sanitize] helper, the ISO date parser
    and the remote service itself are imported by the adapter and are
    not part of it: they are the fields of the environment. *)

Class Env : Type := {
  PLATFORM_INTEGRATION_UNAUTHORIZED : string;
  REPOSITORY_ACCESS_FORBIDDEN : string;
  REPOSITORY_ARCHIVED : string;
  REPOSITORY_BLOCKED : string;
  REPOSITORY_CHANGED : string;
  REPOSITORY_DISABLED : string;
  REPOSITORY_EMPTY : string;
  REPOSITORY_FORKED : string;
  REPOSITORY_NOT_FOUND : string;
  REPOSITORY_RENAMED : string;
  EXTERNAL_HOST_ERROR : string;
  PrState_Merged : string;
  PrState_Open : string;
  PrState_Closed : string;
  PrState_All : string;
  sanitize : string -> string;
  (** [DateTime.fromISO(s).toMillis()]; [None] for an invalid date *)
  fromISO : string -> option Z;
  Remote : Type;
  http : forall r : Req, Remote -> (JsError + Resp r) * Remote
}.

(** ** Session state: [config] *)

Record LocalRepoConfig : Type := mkConfig {
  repository : option string;
  repositoryOwner : string;
  repositoryName : option string;
  parentRepo : option string;
  forkMode : bool;
  forkToken : option string;
  renovateUsername : option string;
  ignorePrAuthor : bool;
  cloneSubmodules : bool;
  defaultBranch : option string;
  mergeMethod : option string;
  autoMergeAllowed : option bool;
  hasIssuesEnabled : option bool;
  prReviewsRequired : bool;
  issueList : option (list Issue);
  prList : option (list Pr);
  openPrList : option (gmap Z Pr);
  closedPrList : option (gmap Z Pr);
  branchPrs : gmap string (option Pr)
}.

Definition set_issueList (v : option (list Issue)) (c : LocalRepoConfig) :=
  mkConfig (repository c) (repositoryOwner c) (repositoryName c) (parentRepo c)
    (forkMode c) (forkToken c) (renovateUsername c) (ignorePrAuthor c)
    (cloneSubmodules c) (defaultBranch c) (mergeMethod c) (autoMergeAllowed c)
    (hasIssuesEnabled c) (prReviewsRequired c)
    v (prList c) (openPrList c) (closedPrList c) (branchPrs c).

Definition set_prList (v : option (list Pr)) (c : LocalRepoConfig) :=
  mkConfig (repository c) (repositoryOwner c) (repositoryName c) (parentRepo c)
    (forkMode c) (forkToken c) (renovateUsername c) (ignorePrAuthor c)
    (cloneSubmodules c) (defaultBranch c) (mergeMethod c) (autoMergeAllowed c)
    (hasIssuesEnabled c) (prReviewsRequired c)
    (issueList c) v (openPrList c) (closedPrList c) (branchPrs c).

Definition set_openPrList (v : option (gmap Z Pr)) (c : LocalRepoConfig) :=
  mkConfig (repository c) (repositoryOwner c) (repositoryName c) (parentRepo c)
    (forkMode c) (forkToken c) (renovateUsername c) (ignorePrAuthor c)
    (cloneSubmodules c) (defaultBranch c) (mergeMethod c) (autoMergeAllowed c)
    (hasIssuesEnabled c) (prReviewsRequired c)
    (issueList c) (prList c) v (closedPrList c) (branchPrs c).

Definition set_closedPrList (v : option (gmap Z Pr)) (c : LocalRepoConfig) :=
  mkConfig (repository c) (repositoryOwner c) (repositoryName c) (parentRepo c)
    (forkMode c) (forkToken c) (renovateUsername c) (ignorePrAuthor c)
    (cloneSubmodules c) (defaultBranch c) (mergeMethod c) (autoMergeAllowed c)
    (hasIssuesEnabled c) (prReviewsRequired c)
    (issueList c) (prList c) (openPrList c) v (branchPrs c).

Definition set_branchPrs (v : gmap string (option Pr)) (c : LocalRepoConfig) :=
  mkConfig (repository c) (repositoryOwner c) (repositoryName c) (parentRepo c)
    (forkMode c) (forkToken c) (renovateUsername c) (ignorePrAuthor c)
    (cloneSubmodules c) (defaultBranch c) (mergeMethod c) (autoMergeAllowed c)
    (hasIssuesEnabled c) (prReviewsRequired c)
    (issueList c) (prList c) (openPrList c) (closedPrList c) v.

(** [config.parentRepo || config.repository] *)
Definition parentOrRepository (c : LocalRepoConfig) : option string :=
  Js.or_else (parentRepo c) (repository c).

(** The arguments and the result of [initRepo]. *)
Record RepoParams : Type := mkRepoParams {
  rp_repository : string;
  rp_forkMode : option string;
  rp_forkToken : option string;
  rp_renovateUsername : option string;
  rp_cloneSubmodules : bool;
  rp_ignorePrAuthor : bool
}.

Record RepoResult : Type := mkRepoResult {
  rr_defaultBranch : option string;
  rr_isFork : bool
}.

(** [repository.split('/')] *)
Fixpoint split_slash (s : string) : list string :=
  match s with
  | EmptyString => [EmptyString]
  | String c r =>
      if Ascii.eqb c "/"%char then EmptyString :: split_slash r
      else match split_slash r with
           | [] => [String c EmptyString]
           | x :: l => String c x :: l
           end
  end.

(** ** The monad of asynchronous computations *)

Inductive Result (A : Type) : Type :=
| Ok (a : A)
| Throw (e : JsError).

Arguments Ok {A} a.
Arguments Throw {A} e.

Section Adapter.

Context `{E : Env}.

Record World : Type := mkWorld {
  config : LocalRepoConfig;
  remote : Remote;
  journal : list Req;
  now : Z
}.

Definition M (A : Type) : Type := World -> Result A * World.

#[export] Instance M_ret : MRet M := fun A a w => (Ok a, w).

#[export] Instance M_bind : MBind M := fun A B f m w =>
  match m w with
  | (Ok a, w') => f a w'
  | (Throw e, w') => (Throw e, w')
  end.

Definition throw {A : Type} (e : JsError) : M A := fun w => (Throw e, w).

(** [try { m } catch (err) { h err }] *)
Definition try_catch {A : Type} (m : M A) (h : JsError -> M A) : M A := fun w =>
  match m w with
  | (Ok a, w') => (Ok a, w')
  | (Throw e, w') => h e w'
  end.

Definition get_config : M LocalRepoConfig := fun w => (Ok (config w), w).

Definition modify_config (f : LocalRepoConfig -> LocalRepoConfig) : M unit :=
  fun w => (Ok tt, mkWorld (f (config w)) (remote w) (journal w) (now w)).

Definition get_now : M Z := fun w => (Ok (now w), w).

(** One request to the remote service: the request is appended to the
    journal, the service moves on, and the answer is either a body or an
    exception. *)
Definition request (r : Req) : M (Resp r) := fun w =>
  let '(o, rem') := http r (remote w) in
  (match o with inl e => Throw e | inr a => Ok a end,
   mkWorld (config w) rem' (journal w ++ [r]) (now w)).

(** [err.message] *)
Definition message (e : JsError) : string :=
  match e with
  | Err m _ _ => m
  | ExternalHostError _ => EXTERNAL_HOST_ERROR
  end.

(** [for (const x of l) { await f(x) }] *)
Fixpoint forEachM {A : Type} (f : A -> M unit) (l : list A) : M unit :=
  match l with
  | [] => mret tt
  | x :: r => f x ;; forEachM f r
  end.

(** ** Pull-request caches *)

(** One node of the closed-PR query, harmonised. *)
Definition closedPr_of_node (pr : GhGraphQlPr) : Pr :=
  {| pr_number := gql_number pr;
     pr_displayNumber := Some ("Pull Request #" +:+ Js.of_Z (gql_number pr));
     pr_sourceBranch := Some (gql_headRefName pr);
     pr_targetBranch := None;
     pr_sha := None;
     pr_title := gql_title pr;
     pr_body := Some "dummy body";
     pr_state := Js.toLowerCase (gql_state pr);
     pr_canMerge := None;
     pr_canMergeReason := None;
     pr_isConflicted := None;
     pr_labels := None;
     pr_hasAssignees := None;
     pr_hasReviewers := None;
     pr_createdAt := None;
     pr_closedAt := None;
     pr_sourceRepo := None;
     pr_comments := Some (gql_comments_nodes pr) |}.

(** The loop [config.xPrList[pr.number] = pr] over the nodes. *)
Definition index_by_number (conv : GhGraphQlPr -> Pr) (nodes : list GhGraphQlPr)
  : gmap Z Pr :=
  fold_left (fun m pr => <[gql_number pr := conv pr]> m) nodes ∅.

Definition getClosedPrs : M (gmap Z Pr) :=
  c ← get_config;
  match closedPrList c with
  | Some l => mret l
  | None =>
      modify_config (set_closedPrList (Some ∅)) ;;
      early ← try_catch
        (nodes ← request (GraphqlClosedPrs (repositoryOwner c) (repositoryName c));
         match nodes with
         | None | Some [] => mret (Some (∅ : gmap Z Pr))
         | Some l =>
             modify_config (set_closedPrList (Some (index_by_number closedPr_of_node l))) ;;
             mret None
         end)
        (fun err => mret None);
      match early with
      | Some m => mret m
      | None =>
          c' ← get_config;
          mret (default ∅ (closedPrList c'))
      end
  end.

Definition canMergeStates : list string := ["BEHIND"; "CLEAN"; "HAS_HOOKS"; "UNSTABLE"].

(** [n > 0] for a count that may be undefined *)
Definition positive_count (n : option Z) : bool :=
  match n with
  | Some k => 0 <? k
  | None => false
  end.

(** One node of the open-PR query, harmonised. *)
Definition openPr_of_node (c : LocalRepoConfig) (pr : GhGraphQlPr) : Pr :=
  let hasNegativeReview :=
    match gql_reviews_nodes pr with
    | Some l => (0 <? length l)%nat
    | None => false
    end in
  let mss := gql_mergeStateStatus pr in
  let mss_is (s : string) := Js.strict_eq_opt mss (Some s) in
  let can : bool * option string :=
    if hasNegativeReview then (false, Some "hasNegativeReview")
    else if match mss with Some s => Js.includes canMergeStates s | None => false end
    then (true, None)
    else if Js.truthy_opt (forkToken c) && mss_is "BLOCKED" then (true, None)
    else (false, Some ("mergeStateStatus = " +:+ Js.of_opt mss)) in
  {| pr_number := gql_number pr;
     pr_displayNumber := Some ("Pull Request #" +:+ Js.of_Z (gql_number pr));
     pr_sourceBranch := Some (gql_headRefName pr);
     pr_targetBranch := gql_baseRefName pr;
     pr_sha := None;
     pr_title := gql_title pr;
     pr_body := gql_body pr;
     pr_state := PrState_Open;
     pr_canMerge := Some (fst can);
     pr_canMergeReason := snd can;
     pr_isConflicted := Some (mss_is "DIRTY");
     pr_labels := gql_labels_nodes pr;
     pr_hasAssignees := Some (positive_count (gql_assignees_totalCount pr));
     pr_hasReviewers := Some (positive_count (gql_reviewRequests_totalCount pr));
     pr_createdAt := None;
     pr_closedAt := None;
     pr_sourceRepo := None;
     pr_comments := None |}.

Definition getOpenPrs : M (gmap Z Pr) :=
  c ← get_config;
  match openPrList c with
  | Some l => mret l
  | None =>
      modify_config (set_openPrList (Some ∅)) ;;
      early ← try_catch
        (nodes ← request (GraphqlOpenPrs (repositoryOwner c) (repositoryName c));
         match nodes with
         | None | Some [] => mret (Some (∅ : gmap Z Pr))
         | Some l =>
             modify_config (set_openPrList (Some (index_by_number (openPr_of_node c) l))) ;;
             mret None
         end)
        (fun err => mret None);
      match early with
      | Some m => mret m
      | None =>
          c' ← get_config;
          mret (default ∅ (openPrList c'))
      end
  end.

(** The REST pull request fetched on its own, harmonised. *)
Definition restPr_harmonise (pr : GhRestPr) : Pr :=
  let open := String.eqb (rest_state pr) PrState_Open in
  let mergeable := match rest_mergeable pr with Some true => true | _ => false end in
  {| pr_number := rest_number pr;
     pr_displayNumber := Some ("Pull Request #" +:+ Js.of_Z (rest_number pr));
     pr_sourceBranch := if open then Some (head_ref (rest_head pr)) else None;
     pr_targetBranch := None;
     pr_sha := if open then Some (head_sha (rest_head pr)) else None;
     pr_title := rest_title pr;
     pr_body := rest_body pr;
     pr_state := rest_state pr;
     pr_canMerge := if open then Some mergeable else None;
     pr_canMergeReason :=
       if open && negb mergeable
       then Some ("mergeable = " +:+ Js.of_tribool (rest_mergeable pr))
       else None;
     pr_isConflicted :=
       if open && Js.strict_eq_opt (rest_mergeable_state pr) (Some "dirty")
       then Some true else None;
     pr_labels := None;
     pr_hasAssignees := None;
     pr_hasReviewers := None;
     pr_createdAt := None;
     pr_closedAt := None;
     pr_sourceRepo := None;
     pr_comments := None |}.

(** Gets details for a PR *)
Definition getPr (prNo : Z) : M (option Pr) :=
  if prNo =? 0 then mret None
  else
    openPrs ← getOpenPrs;
    match openPrs !! prNo with
    | Some openPr => mret (Some openPr)
    | None =>
        closedPrs ← getClosedPrs;
        match closedPrs !! prNo with
        | Some closedPr => mret (Some closedPr)
        | None =>
            c ← get_config;
            pr ← request (GetPull (parentOrRepository c) prNo);
            match pr with
            | None => mret None
            | Some pr => mret (Some (restPr_harmonise pr))
            end
        end
    end.

Definition matchesState (state desiredState : string) : bool :=
  if String.eqb desiredState PrState_All then true
  else if Js.startsWith desiredState "!"
       then negb (String.eqb state (Js.substring1 desiredState))
       else String.eqb state desiredState.

(** The author filter of [getPrList]. *)
Definition keeps_author (c : LocalRepoConfig) (pr : GhRestPr) : bool :=
  forkMode c || ignorePrAuthor c ||
  (if Js.truthy_opt (rest_user_login pr) && Js.truthy_opt (renovateUsername c)
   then Js.strict_eq_opt (rest_user_login pr) (renovateUsername c)
   else true).

(** [pr.merged_at?.length] *)
Definition has_merge_timestamp (pr : GhRestPr) : bool :=
  Js.truthy_opt (rest_merged_at pr).

(** The record [getPrList] builds for one REST pull request. *)
Definition listPr_of_rest (pr : GhRestPr) : Pr :=
  {| pr_number := rest_number pr;
     pr_displayNumber := None;
     pr_sourceBranch := Some (head_ref (rest_head pr));
     pr_targetBranch := None;
     pr_sha := Some (head_sha (rest_head pr));
     pr_title := rest_title pr;
     pr_body := None;
     pr_state :=
       if String.eqb (rest_state pr) PrState_Closed && has_merge_timestamp pr
       then PrState_Merged
       else rest_state pr;
     pr_canMerge := None;
     pr_canMergeReason := None;
     pr_isConflicted := None;
     pr_labels := None;
     pr_hasAssignees := None;
     pr_hasReviewers := None;
     pr_createdAt := rest_created_at pr;
     pr_closedAt := rest_closed_at pr;
     pr_sourceRepo := head_repo_full_name (rest_head pr);
     pr_comments := None |}.

Definition getPrList : M (list Pr) :=
  c ← get_config;
  match prList c with
  | Some l => mret l
  | None =>
      prList ← try_catch
        (request (GetPullsAll (parentOrRepository c)))
        (fun err => throw (ExternalHostError err));
      let l := List.map listPr_of_rest (List.filter (keeps_author c) prList) in
      modify_config (set_prList (Some l)) ;;
      mret l
  end.

(** The predicate of the scan in [findPr]. *)
Definition findPr_match (c : LocalRepoConfig) (branchName : string)
    (prTitle : option string) (state : string) (p : Pr) : bool :=
  Js.strict_eq_opt (pr_sourceBranch p) (Some branchName) &&
  (negb (Js.truthy_opt prTitle) || Js.strict_eq_opt (Some (pr_title p)) prTitle) &&
  matchesState (pr_state p) state &&
  (forkMode c || Js.strict_eq_opt (repository c) (pr_sourceRepo p)).

Definition findPr (branchName : string) (prTitle : option string)
    (state : option string) : M (option Pr) :=
  let state := default PrState_All state in
  prList ← getPrList;
  c ← get_config;
  mret (List.find (findPr_match c branchName prTitle state) prList).

Definition REOPEN_THRESHOLD_MILLIS : Z := 1000 * 60 * 60 * 24 * 7.

Definition autoclosed_suffix : string := " - autoclosed".

(** [title.replace(/ - autoclosed$/, '')] *)
Definition strip_autoclosed (title : string) : string :=
  if Js.endsWith title autoclosed_suffix
  then String.substring 0 (String.length title - String.length autoclosed_suffix) title
  else title.

(** [DateTime.fromISO(closedAt).diffNow().negate().toMillis() > threshold];
    an invalid date gives NaN, and every comparison with NaN is false. *)
Definition closed_too_long_ago (now : Z) (closedAt : string) : bool :=
  match fromISO closedAt with
  | Some t => REOPEN_THRESHOLD_MILLIS <? now - t
  | None => false
  end.

(** Returns the Pull Request for a branch. Null if not exists. *)
Definition getBranchPr (branchName : string) : M (option Pr) :=
  c ← get_config;
  match branchPrs c !! branchName with
  | Some (Some cached) => mret (Some cached)
  | _ =>
      openPr ← findPr branchName None (Some PrState_Open);
      match openPr with
      | Some openPr =>
          pr ← getPr (pr_number openPr);
          modify_config (fun c => set_branchPrs (<[branchName := pr]> (branchPrs c)) c) ;;
          mret pr
      | None =>
          autoclosedPr ← findPr branchName None (Some PrState_Closed);
          match autoclosedPr with
          | None => mret None
          | Some autoclosedPr =>
              if Js.endsWith (pr_title autoclosedPr) autoclosed_suffix
                 && Js.truthy_opt (pr_closedAt autoclosedPr)
              then
                t ← get_now;
                if closed_too_long_ago t (default "" (pr_closedAt autoclosedPr))
                then mret None
                else
                  let sha := pr_sha autoclosedPr in
                  let number := pr_number autoclosedPr in
                  c ← get_config;
                  recreated ← try_catch
                    (request (PostGitRef (repository c) ("refs/heads/" +:+ branchName) sha) ;;
                     mret true)
                    (fun err => mret false);
                  if negb recreated then mret None
                  else
                    let title := strip_autoclosed (pr_title autoclosedPr) in
                    reopened ← try_catch
                      (request (PatchPull (repository c) number "open" title) ;;
                       mret true)
                      (fun err => mret false);
                    if negb reopened then mret None
                    else
                      modify_config (set_openPrList None) ;;
                      modify_config
                        (fun c => set_closedPrList (delete number <$> closedPrList c) c) ;;
                      pr ← getPr number;
                      modify_config
                        (fun c => set_branchPrs (<[branchName := pr]> (branchPrs c)) c) ;;
                      mret pr
              else mret None
          end
      end
  end.

(** ** Branch status *)

Definition getStatus (branchName : string) (useCache : bool)
  : M CombinedBranchStatus :=
  c ← get_config;
  request (GetCommitStatus (repository c) (escapeHash branchName) useCache).

Definition passing_conclusions : list string := ["skipped"; "neutral"; "success"].

(** Returns the combined status for a branch. *)
Definition getBranchStatus (branchName : string) : M BranchStatus :=
  commitStatus ← try_catch (getStatus branchName true)
    (fun err =>
       if statusCode_is err 404 then throw (new_Error REPOSITORY_CHANGED)
       else throw err);
  c ← get_config;
  checkRuns ← try_catch
    (checkRunsRaw ← request (GetCheckRuns (repository c) (escapeHash branchName));
     match checkRunsRaw with
     | Some (run :: runs) =>
         mret (List.map
                 (fun run => mkCheckRun (run_name run) (run_status run) (run_conclusion run))
                 (run :: runs))
     | _ => mret []
     end)
    (fun err =>
       if instanceof_ExternalHostError err then throw err
       else mret []);
  if (length checkRuns =? 0)%nat then
    if String.eqb (cbs_state commitStatus) "success" then mret green
    else if String.eqb (cbs_state commitStatus) "failure" then mret red
    else mret yellow
  else if String.eqb (cbs_state commitStatus) "failure"
          || existsb (fun run => String.eqb (run_conclusion run) "failure") checkRuns
  then mret red
  else if (String.eqb (cbs_state commitStatus) "success"
           || (length (cbs_statuses commitStatus) =? 0)%nat)
          && forallb (fun run => Js.includes passing_conclusions (run_conclusion run))
               checkRuns
  then mret green
  else mret yellow.

(** ** Issues *)

Inductive EnsureIssueResult : Type := updated | created.

Definition getIssues : M (list Issue) :=
  c ← get_config;
  result ← request
    (GraphqlIssues (repositoryOwner c) (repositoryName c) (renovateUsername c));
  mret (List.map
          (fun issue =>
             mkIssue (issue_number issue) (Js.toLowerCase (issue_state issue))
               (issue_title issue))
          result).

(** [config.hasIssuesEnabled === false] *)
Definition issues_disabled (c : LocalRepoConfig) : bool :=
  match hasIssuesEnabled c with
  | Some false => true
  | _ => false
  end.

Definition getIssueList : M (list Issue) :=
  c ← get_config;
  if issues_disabled c then mret []
  else
    match issueList c with
    | Some l => mret l
    | None =>
        l ← getIssues;
        modify_config (set_issueList (Some l)) ;;
        mret l
    end.

Definition closeIssue (issueNumber : Z) : M unit :=
  c ← get_config;
  request (PatchIssue (parentOrRepository c) issueNumber None "closed" None None).

Definition is_open (i : Issue) : bool := String.eqb (issue_state i) "open".

Definition ensureIssue (title : string) (reuseTitle : option string)
    (rawBody : string) (labels : option (list string))
    (once shouldReOpen : bool) : M (option EnsureIssueResult) :=
  c ← get_config;
  if issues_disabled c then mret None
  else
    let body := sanitize rawBody in
    try_catch
      (issueList ← getIssueList;
       let byTitle := List.filter (fun i => String.eqb (issue_title i) title) issueList in
       let issues :=
         match byTitle with
         | [] => List.filter
                   (fun i => Js.strict_eq_opt (Some (issue_title i)) reuseTitle)
                   issueList
         | _ => byTitle
         end in
       (* [Some r]: the block returned [r]; [None]: it fell through *)
       returned ←
         match issues with
         | [] => mret None
         | first :: _ =>
             let openIssue := List.find is_open issues in
             match openIssue, once with
             | None, true => mret (Some None)
             | _, _ =>
                 let issue := default (List.last issues first) openIssue in
                 forEachM
                   (fun i =>
                      if is_open i && negb (issue_number i =? issue_number issue)
                      then closeIssue (issue_number i)
                      else mret tt)
                   issues ;;
                 c ← get_config;
                 issueBody ← request (GetIssue (parentOrRepository c) (issue_number issue));
                 if String.eqb (issue_title issue) title
                    && String.eqb issueBody body
                    && is_open issue
                 then mret (Some None)
                 else if shouldReOpen then
                   request (PatchIssue (parentOrRepository c) (issue_number issue)
                              (Some body) "open" (Some title) labels) ;;
                   mret (Some (Some updated))
                 else mret None
             end
         end;
       match returned with
       | Some r => mret r
       | None =>
           c ← get_config;
           request (PostIssue (parentOrRepository c) title body (default [] labels)) ;;
           modify_config (set_issueList None) ;;
           mret (Some created)
       end)
      (fun err => mret None).

(** ** Comments *)

Definition addComment (issueNo : Z) (body : string) : M unit :=
  c ← get_config;
  request (PostIssueComment (parentOrRepository c) issueNo body).

Definition editComment (commentId : Z) (body : string) : M unit :=
  c ← get_config;
  request (PatchIssueComment (parentOrRepository c) commentId body).

(** The comments of a closed pull request come from the closed-PR cache
    ([pr.comments], which a record may lack); all others are fetched. *)
Definition getComments (issueNo : Z) : M (option (list Comment)) :=
  closedPrs ← getClosedPrs;
  match closedPrs !! issueNo with
  | Some pr => mret (pr_comments pr)
  | None =>
      c ← get_config;
      try_catch
        (comments ← request (GetIssueComments (parentOrRepository c) issueNo);
         mret (Some comments))
        (fun err =>
           if statusCode_is err 404 then throw (ExternalHostError err)
           else throw err)
  end.

(** [`### ${topic}\n\n`] *)
Definition topic_header (topic : string) : string :=
  "### " +:+ topic +:+ Js.LF +:+ Js.LF.

(** The two [forEach] loops of [ensureComment]: the state they carry is
    [(commentId, commentNeedsUpdating)], and a later match overwrites an
    earlier one. *)
Definition scan_topic (topic body : string) (comments : list Comment)
  : option Z * bool :=
  fold_left
    (fun (st : option Z * bool) comment =>
       if Js.startsWith (comment_body comment) (topic_header topic)
       then (Some (comment_id comment), negb (String.eqb (comment_body comment) body))
       else st)
    comments (None, false).

Definition scan_content (body : string) (comments : list Comment)
  : option Z * bool :=
  fold_left
    (fun (st : option Z * bool) comment =>
       if String.eqb (comment_body comment) body
       then (Some (comment_id comment), false)
       else st)
    comments (None, false).

(** [commentId] is truthy when it is neither [null] nor [0]. *)
Definition truthy_id (commentId : option Z) : bool :=
  match commentId with
  | Some id => negb (id =? 0)
  | None => false
  end.

(** The exception raised by a method call on [undefined]. *)
Definition TypeError : JsError := new_Error "TypeError".

(** The [try] block of [ensureComment]. *)
Definition ensureComment_try (number : Z) (topic : option string) (content : string)
  : M bool :=
  let sanitizedContent := sanitize content in
  comments ← getComments number;
  match comments with
  | None => throw TypeError
  | Some comments =>
      let '(body, (commentId, commentNeedsUpdating)) :=
        if Js.truthy_opt topic then
          let topic := default "" topic in
          let body := topic_header topic +:+ sanitizedContent in
          (body, scan_topic topic body comments)
        else
          let body := sanitizedContent in
          (body, scan_content body comments) in
      if negb (truthy_id commentId) then
        addComment number body ;; mret true
      else if commentNeedsUpdating then
        editComment (default 0 commentId) body ;; mret true
      else mret true
  end.

Definition ensureComment (number : Z) (topic : option string) (content : string)
  : M bool :=
  try_catch (ensureComment_try number topic content)
    (fun err =>
       if instanceof_ExternalHostError err then throw err
       else mret false).

(** ** Merging *)

Definition mergePr (branchName : option string) (prNo : Z) : M bool :=
  c ← get_config;
  isApproved ←
    (if prReviewsRequired c then
       reviews ← request (GetPullReviews (parentOrRepository c) prNo);
       mret (existsb (fun state => String.eqb state "APPROVED") reviews)
     else mret true);
  if negb isApproved then mret false
  else
    let token := if Js.truthy_opt (forkToken c) then forkToken c else None in
    let put (merge_method : string) : M unit :=
      request (PutPullMerge (parentOrRepository c) prNo merge_method token) in
    (* [Some automerged], or [None] when the function has returned false *)
    attempt ←
      (if Js.truthy_opt (mergeMethod c) then
         try_catch
           (put (default "" (mergeMethod c)) ;; mret (Some true))
           (fun err =>
              if statusCode_is err 404 || statusCode_is err 405
              then mret (Some false)
              else mret None)
       else mret (Some false));
    match attempt with
    | None => mret false
    | Some true => mret true
    | Some false =>
        try_catch (put "rebase" ;; mret true)
          (fun err1 =>
             try_catch (put "squash" ;; mret true)
               (fun err2 =>
                  try_catch (put "merge" ;; mret true)
                    (fun err3 => mret false)))
    end.

(** ** Session initialization *)

(** The configuration [initRepo] starts from:
    [config = { repository, cloneSubmodules, ignorePrAuthor }], then the
    bot username and the two halves of the repository identifier. *)
Definition fresh_config (params : RepoParams) : LocalRepoConfig :=
  let parts := split_slash (rp_repository params) in
  {| repository := Some (rp_repository params);
     repositoryOwner := default "" (parts !! 0%nat);
     repositoryName := parts !! 1%nat;
     parentRepo := None;
     forkMode := false;
     forkToken := None;
     renovateUsername := rp_renovateUsername params;
     ignorePrAuthor := rp_ignorePrAuthor params;
     cloneSubmodules := rp_cloneSubmodules params;
     defaultBranch := None;
     mergeMethod := None;
     autoMergeAllowed := None;
     hasIssuesEnabled := None;
     prReviewsRequired := false;
     issueList := None;
     prList := None;
     openPrList := None;
     closedPrList := None;
     branchPrs := ∅ |}.

(** [repo.defaultBranchRef?.name] *)
Definition defaultBranchName (repo : GhRepo) : option string :=
  ref_name <$> gh_defaultBranchRef repo.

(** The allowed merge method, by priority. *)
Definition detect_mergeMethod (repo : GhRepo) : option string :=
  if gh_rebaseMergeAllowed repo then Some "rebase"
  else if gh_squashMergeAllowed repo then Some "squash"
  else if gh_mergeCommitAllowed repo then Some "merge"
  else None.

Definition record_repo (repo : GhRepo) (c : LocalRepoConfig) : LocalRepoConfig :=
  mkConfig (repository c) (repositoryOwner c) (repositoryName c) (parentRepo c)
    (forkMode c) (forkToken c) (renovateUsername c) (ignorePrAuthor c)
    (cloneSubmodules c) (defaultBranchName repo) (detect_mergeMethod repo)
    (gh_autoMergeAllowed repo) (gh_hasIssuesEnabled repo) (prReviewsRequired c)
    (issueList c) (prList c) (openPrList c) (closedPrList c) (branchPrs c).

Definition reset_caches (forkMode : bool) (c : LocalRepoConfig) : LocalRepoConfig :=
  mkConfig (repository c) (repositoryOwner c) (repositoryName c) (parentRepo c)
    forkMode (forkToken c) (renovateUsername c) (ignorePrAuthor c)
    (cloneSubmodules c) (defaultBranch c) (mergeMethod c) (autoMergeAllowed c)
    (hasIssuesEnabled c) (prReviewsRequired c)
    None None None None ∅.

Definition legal_reasons_message : string :=
  "Response code 451 (Unavailable for Legal Reasons)".

(** The [catch] clause around the repository query. *)
Definition initRepo_catch (err : JsError) : M GhRepo :=
  if String.eqb (message err) REPOSITORY_ARCHIVED
     || String.eqb (message err) REPOSITORY_RENAMED
     || String.eqb (message err) REPOSITORY_NOT_FOUND
  then throw err
  else if statusCode_is err 403 then throw (new_Error REPOSITORY_ACCESS_FORBIDDEN)
  else if statusCode_is err 404 then throw (new_Error REPOSITORY_NOT_FOUND)
  else if Js.startsWith (message err) "Repository access blocked"
  then throw (new_Error REPOSITORY_BLOCKED)
  else if String.eqb (message err) REPOSITORY_FORKED then throw err
  else if String.eqb (message err) REPOSITORY_DISABLED then throw err
  else if String.eqb (message err) legal_reasons_message
  then throw (new_Error REPOSITORY_ACCESS_FORBIDDEN)
  else throw err.

(** What follows the repository query in [initRepo] (forking in fork
    mode, then the set-up of the local git clone) talks to collaborators
    that are not part of the adapter; it is kept abstract. *)
Variable setUpForkAndGit : RepoParams -> GhRepo -> M RepoResult.

(** Initialize GitHub by getting base branch and SHA *)
Definition initRepo (params : RepoParams) : M RepoResult :=
  let repository := rp_repository params in
  modify_config (fun _ => fresh_config params) ;;
  c ← get_config;
  repo ← try_catch
    (res ← request (GraphqlRepoInfo (repositoryOwner c) (repositoryName c));
     match res with
     | None => throw (new_Error REPOSITORY_NOT_FOUND)
     | Some repo =>
         if negb (Js.truthy_opt (defaultBranchName repo))
         then throw (new_Error REPOSITORY_EMPTY)
         else if Js.truthy_opt (gh_nameWithOwner repo)
                 && negb (Js.strict_eq_opt (gh_nameWithOwner repo) (Some repository))
         then throw (new_Error REPOSITORY_RENAMED)
         else if gh_isArchived repo
         then throw (new_Error REPOSITORY_ARCHIVED)
         else modify_config (record_repo repo) ;; mret repo
     end)
    initRepo_catch;
  modify_config (reset_caches (Js.truthy_opt (rp_forkMode params))) ;;
  setUpForkAndGit params repo.

End Adapter.

Arguments World E : clear implicits.
Arguments M E A : clear implicits.

(** ** A reference environment

    A small deterministic stand-in for the remote service, used to run
    the adapter on concrete sessions: it stores pull requests, issues and
    comments, applies the writes it receives, answers merge attempts from
    a script, and fails the requests selected by [sim_fault]. *)

Module Sim.

Record IssueRow : Type := mkIssueRow {
  row_issue : Issue;
  row_body : string
}.

Record State : Type := mkState {
  sim_repo : option GhRepo;
  sim_pulls : list GhRestPr;
  sim_issues : list IssueRow;
  sim_comments : list Comment;
  sim_status : CombinedBranchStatus;
  sim_check_runs : option (list CheckRun);
  sim_reviews : list string;
  sim_merge_script : list (option JsError);
  sim_fault : Req -> option JsError
}.

Definition with_pulls (l : list GhRestPr) (s : State) : State :=
  mkState (sim_repo s) l (sim_issues s) (sim_comments s) (sim_status s)
    (sim_check_runs s) (sim_reviews s) (sim_merge_script s) (sim_fault s).

Definition with_issues (l : list IssueRow) (s : State) : State :=
  mkState (sim_repo s) (sim_pulls s) l (sim_comments s) (sim_status s)
    (sim_check_runs s) (sim_reviews s) (sim_merge_script s) (sim_fault s).

Definition with_comments (l : list Comment) (s : State) : State :=
  mkState (sim_repo s) (sim_pulls s) (sim_issues s) l (sim_status s)
    (sim_check_runs s) (sim_reviews s) (sim_merge_script s) (sim_fault s).

Definition with_merge_script (l : list (option JsError)) (s : State) : State :=
  mkState (sim_repo s) (sim_pulls s) (sim_issues s) (sim_comments s) (sim_status s)
    (sim_check_runs s) (sim_reviews s) l (sim_fault s).

(** The graph-query view of a stored pull request. *)
Definition node_of_rest (pr : GhRestPr) : GhGraphQlPr :=
  {| gql_number := rest_number pr;
     gql_state := rest_state pr;
     gql_title := rest_title pr;
     gql_body := rest_body pr;
     gql_headRefName := head_ref (rest_head pr);
     gql_baseRefName := Some "main";
     gql_mergeStateStatus := Some "CLEAN";
     gql_reviews_nodes := None;
     gql_labels_nodes := None;
     gql_assignees_totalCount := Some 0;
     gql_reviewRequests_totalCount := Some 0;
     gql_comments_nodes := [] |}.

Definition nodes_in_state (st : string) (s : State) : option (list GhGraphQlPr) :=
  Some (List.map node_of_rest
          (List.filter (fun pr => String.eqb (rest_state pr) st) (sim_pulls s))).

Definition patch_pull (number : Z) (st title : string) (pr : GhRestPr) : GhRestPr :=
  if rest_number pr =? number
  then mkGhRestPr (rest_number pr) st title (rest_body pr) (rest_head pr)
         (rest_user_login pr) (rest_merged_at pr) (rest_created_at pr)
         (if String.eqb st "open" then None else rest_closed_at pr)
         (rest_mergeable pr) (rest_mergeable_state pr)
  else pr.

Definition patch_issue (number : Z) (body : option string) (st : string)
    (title : option string) (row : IssueRow) : IssueRow :=
  if issue_number (row_issue row) =? number
  then mkIssueRow
         (mkIssue number st (default (issue_title (row_issue row)) title))
         (default (row_body row) body)
  else row.

Definition fresh_issue_number (s : State) : Z :=
  1 + fold_right Z.max 0 (List.map (fun r => issue_number (row_issue r)) (sim_issues s)).

Definition fresh_comment_id (s : State) : Z :=
  1 + fold_right Z.max 0 (List.map comment_id (sim_comments s)).

Definition not_found : JsError := Err "Response code 404 (Not Found)" (Some 404) None.

Definition answer (r : Req) (s : State) : (JsError + Resp r) * State :=
  match r return (JsError + Resp r) * State with
  | GraphqlRepoInfo _ _ => (inr (sim_repo s), s)
  | GraphqlClosedPrs _ _ => (inr (nodes_in_state "closed" s), s)
  | GraphqlOpenPrs _ _ => (inr (nodes_in_state "open" s), s)
  | GraphqlIssues _ _ _ => (inr (List.map row_issue (sim_issues s)), s)
  | GetPull _ n =>
      (inr (List.find (fun pr => rest_number pr =? n) (sim_pulls s)), s)
  | GetPullsAll _ => (inr (sim_pulls s), s)
  | PostGitRef _ _ _ => (inr tt, s)
  | PatchPull _ n st title =>
      (inr tt, with_pulls (List.map (patch_pull n st title) (sim_pulls s)) s)
  | GetCommitStatus _ _ _ => (inr (sim_status s), s)
  | GetCheckRuns _ _ => (inr (sim_check_runs s), s)
  | GetIssue _ n =>
      match List.find (fun row => issue_number (row_issue row) =? n) (sim_issues s) with
      | Some row => (inr (row_body row), s)
      | None => (inl not_found, s)
      end
  | PatchIssue _ n body st title _ =>
      (inr tt, with_issues (List.map (patch_issue n body st title) (sim_issues s)) s)
  | PostIssue _ title body _ =>
      (inr tt,
       with_issues
         (sim_issues s ++ [mkIssueRow (mkIssue (fresh_issue_number s) "open" title) body])
         s)
  | GetIssueComments _ _ => (inr (sim_comments s), s)
  | PostIssueComment _ _ body =>
      (inr tt, with_comments (sim_comments s ++ [mkComment (fresh_comment_id s) body]) s)
  | PatchIssueComment _ id body =>
      (inr tt,
       with_comments
         (List.map (fun c => if comment_id c =? id then mkComment id body else c)
            (sim_comments s))
         s)
  | GetPullReviews _ _ => (inr (sim_reviews s), s)
  | PutPullMerge _ _ _ _ =>
      match sim_merge_script s with
      | Some e :: rest => (inl e, with_merge_script rest s)
      | None :: rest => (inr tt, with_merge_script rest s)
      | [] => (inr tt, s)
      end
  end.

Definition respond (r : Req) (s : State) : (JsError + Resp r) * State :=
  match sim_fault s r with
  | Some e => (inl e, s)
  | None => answer r s
  end.

(** The dates the examples use, in milliseconds since the epoch. *)
Definition parse_date (s : string) : option Z :=
  if String.eqb s "2021-11-01T00:00:00.000Z" then Some 1635724800000
  else if String.eqb s "2021-11-07T00:00:00.000Z" then Some 1636243200000
  else if String.eqb s "2021-10-31T00:00:00.000Z" then Some 1635638400000
  else None.

#[export] Instance env : Env :=
  {| PLATFORM_INTEGRATION_UNAUTHORIZED := "integration-unauthorized";
     REPOSITORY_ACCESS_FORBIDDEN := "forbidden";
     REPOSITORY_ARCHIVED := "archived";
     REPOSITORY_BLOCKED := "blocked";
     REPOSITORY_CHANGED := "repository-changed";
     REPOSITORY_DISABLED := "disabled";
     REPOSITORY_EMPTY := "empty";
     REPOSITORY_FORKED := "fork";
     REPOSITORY_NOT_FOUND := "not-found";
     REPOSITORY_RENAMED := "renamed";
     EXTERNAL_HOST_ERROR := "external-host-error";
     PrState_Merged := "merged";
     PrState_Open := "open";
     PrState_Closed := "closed";
     PrState_All := "all";
     sanitize := fun s => s;
     fromISO := parse_date;
     Remote := State;
     http := respond |}.

Definition no_fault : Req -> option JsError := fun _ => None.

Definition empty_state : State :=
  {| sim_repo := None;
     sim_pulls := [];
     sim_issues := [];
     sim_comments := [];
     sim_status := mkCombinedBranchStatus "pending" [];
     sim_check_runs := None;
     sim_reviews := [];
     sim_merge_script := [];
     sim_fault := no_fault |}.

(** A session on [acme/app], as [initRepo] leaves it. *)
Definition session : LocalRepoConfig :=
  {| repository := Some "acme/app";
     repositoryOwner := "acme";
     repositoryName := Some "app";
     parentRepo := None;
     forkMode := false;
     forkToken := None;
     renovateUsername := Some "renovate-bot";
     ignorePrAuthor := false;
     cloneSubmodules := false;
     defaultBranch := Some "main";
     mergeMethod := None;
     autoMergeAllowed := None;
     hasIssuesEnabled := Some true;
     prReviewsRequired := false;
     issueList := None;
     prList := None;
     openPrList := None;
     closedPrList := None;
     branchPrs := ∅ |}.

Definition world (c : LocalRepoConfig) (s : State) (t : Z) : World env :=
  mkWorld c s [] t.

End Sim.

(** ** Vocabulary of the properties *)

Section Vocabulary.

Context `{E : Env}.

(** The world once request [r] has been answered and the remote service
    has moved to [rem']. *)
Definition after (w : World E) (r : Req) (rem' : Remote) : World E :=
  mkWorld (config w) rem' (journal w ++ [r]) (now w).

(** The world with another session state. *)
Definition with_config (w : World E) (c : LocalRepoConfig) : World E :=
  mkWorld c (remote w) (journal w) (now w).

(** The merge methods asked for along a journal, in order. *)
Definition merge_attempts (j : list Req) : list string := omap merge_method_of j.

(** The merge request [mergePr] sends for a method. *)
Definition put_merge (c : LocalRepoConfig) (prNo : Z) (merge_method : string) : Req :=
  PutPullMerge (parentOrRepository c) prNo merge_method
    (if Js.truthy_opt (forkToken c) then forkToken c else None).

(** The review gate of [mergePr] lets the call through, leaving world
    [w0]: either reviews are not required, or they were fetched and one
    of them approves. *)
Definition review_gate (w : World E) (prNo : Z) (w0 : World E) : Prop :=
  (prReviewsRequired (config w) = false /\ w0 = w) \/
  (prReviewsRequired (config w) = true /\
   exists reviews rem',
     http (GetPullReviews (parentOrRepository (config w)) prNo) (remote w)
       = (inr reviews, rem') /\
     existsb (fun state => String.eqb state "APPROVED") reviews = true /\
     w0 = after w (GetPullReviews (parentOrRepository (config w)) prNo) rem').

(** The fallback of the specification: the strategies are attempted in
    the given order, the first success wins, and when every attempt
    fails the answer is [false]. *)
Fixpoint attempt_in_order (put : string -> Req) (methods : list string)
    (w : World E) : bool * World E :=
  match methods with
  | [] => (false, w)
  | m :: rest =>
      match http (put m) (remote w) with
      | (inr _, rem') => (true, after w (put m) rem')
      | (inl _, rem') => attempt_in_order put rest (after w (put m) rem')
      end
  end.

Definition fallback_order : list string := ["rebase"; "squash"; "merge"].

(** The outcome of the one write [ensureComment] may send from world
    [w1]: true when it is accepted, false when it is refused, and the
    exception itself when that is an [ExternalHostError]. *)
Definition comment_write (w1 : World E) (r : Req) : Result bool * World E :=
  match http r (remote w1) with
  | (inr _, rem') => (Ok true, after w1 r rem')
  | (inl e, rem') =>
      if instanceof_ExternalHostError e then (Throw e, after w1 r rem')
      else (Ok false, after w1 r rem')
  end.

(** The error message is one of those the [catch] clause of [initRepo]
    passes on as they are before it looks at the status code. *)
Definition already_classified (err : JsError) : Prop :=
  message err = REPOSITORY_ARCHIVED \/ message err = REPOSITORY_RENAMED \/
  message err = REPOSITORY_NOT_FOUND.

(** The two requests by which [getBranchPr] reopens an autoclosed pull
    request: the branch ref is created again at the commit of the pull
    request, then the pull request is opened under the stripped title. *)
Definition reopen_ref (c : LocalRepoConfig) (branchName : string) (pr : Pr) : Req :=
  PostGitRef (repository c) ("refs/heads/" +:+ branchName) (pr_sha pr).

Definition reopen_patch (c : LocalRepoConfig) (pr : Pr) : Req :=
  PatchPull (repository c) (pr_number pr) "open" (strip_autoclosed (pr_title pr)).

(** The session state once a pull request was reopened: the open-PR
    cache is gone and the closed-PR cache has lost the entry. *)
Definition invalidated (number : Z) (c : LocalRepoConfig) : LocalRepoConfig :=
  set_closedPrList (delete number <$> closedPrList (set_openPrList None c))
    (set_openPrList None c).

(** [getPr], followed by the update of the per-branch pointer. *)
Definition getPr_and_remember (branchName : string) (number : Z) : M E (option Pr) :=
  pr ← getPr number;
  modify_config (fun c => set_branchPrs (<[branchName := pr]> (branchPrs c)) c) ;;
  mret pr.

End Vocabulary.

(** Sessions of the reference environment used as examples. *)
Module Examples.

Import Sim.

Definition method_not_allowed : JsError :=
  Err "Response code 405 (Method Not Allowed)" (Some 405) None.

Definition with_mergeMethod (m : option string) (c : LocalRepoConfig) :=
  mkConfig (repository c) (repositoryOwner c) (repositoryName c) (parentRepo c)
    (forkMode c) (forkToken c) (renovateUsername c) (ignorePrAuthor c)
    (cloneSubmodules c) (defaultBranch c) m (autoMergeAllowed c)
    (hasIssuesEnabled c) (prReviewsRequired c)
    (issueList c) (prList c) (openPrList c) (closedPrList c) (branchPrs c).

(** Rebase was detected, the first merge attempt is refused with 405
    and the second one is accepted. *)
Definition rebase_refused_once : World env :=
  world (with_mergeMethod (Some "rebase") session)
    (with_merge_script [Some method_not_allowed; None] empty_state) 0.

Definition pull (n : Z) (state title branch : string) (login : option string)
    (merged_at closed_at : option string) : GhRestPr :=
  {| rest_number := n;
     rest_state := state;
     rest_title := title;
     rest_body := Some "body";
     rest_head := mkGhRestHead branch "abc123" (Some "acme/app");
     rest_user_login := login;
     rest_merged_at := merged_at;
     rest_created_at := Some "2021-10-01T00:00:00.000Z";
     rest_closed_at := closed_at;
     rest_mergeable := Some true;
     rest_mergeable_state := Some "clean" |}.

(** Three pull requests: one by a human, one whose author is unknown,
    and one by the bot that was merged. *)
Definition mixed_authors : World env :=
  world session
    (with_pulls
       [pull 1 "open" "Fix typo" "typo" (Some "alice") None None;
        pull 2 "open" "Update a" "renovate/a" None None None;
        pull 3 "closed" "Update b" "renovate/b" (Some "renovate-bot")
          (Some "2021-10-31T00:00:00.000Z") (Some "2021-10-31T00:00:00.000Z")]
       empty_state)
    0.

Definition with_renovateUsername (u : option string) (c : LocalRepoConfig) :=
  mkConfig (repository c) (repositoryOwner c) (repositoryName c) (parentRepo c)
    (forkMode c) (forkToken c) u (ignorePrAuthor c)
    (cloneSubmodules c) (defaultBranch c) (mergeMethod c) (autoMergeAllowed c)
    (hasIssuesEnabled c) (prReviewsRequired c)
    (issueList c) (prList c) (openPrList c) (closedPrList c) (branchPrs c).

(** The same repository, in a session that was given no bot username. *)
Definition anonymous_bot : World env :=
  world (with_renovateUsername None session) (remote mixed_authors) 0.

Definition with_status (st : CombinedBranchStatus) (runs : option (list CheckRun))
    (s : State) : State :=
  mkState (sim_repo s) (sim_pulls s) (sim_issues s) (sim_comments s) st
    runs (sim_reviews s) (sim_merge_script s) (sim_fault s).

Definition passing_run : CheckRun := mkCheckRun "build" "completed" "success".

(** No legacy status was ever posted, so the combined state is pending;
    the only check-run succeeded. *)
Definition checks_only : World env :=
  world session
    (with_status (mkCombinedBranchStatus "pending" []) (Some [passing_run]) empty_state)
    0.

(** A combined state of failure over an empty list of legacy statuses,
    next to a check-run that succeeded. *)
Definition failure_without_statuses : World env :=
  world session
    (with_status (mkCombinedBranchStatus "failure" []) (Some [passing_run]) empty_state)
    0.

(** Issue 5 carries one comment, written in topic mode with the topic
    [Notice] and the content [Hello]. *)
Definition topic_comment : World env :=
  world session
    (with_comments [mkComment 11 (topic_header "Notice" +:+ "Hello")] empty_state)
    0.

(** The bot's issue was closed by hand; the remote still holds it, with
    an outdated body. *)
Definition closed_issue : World env :=
  world session
    (with_issues
       [mkIssueRow (mkIssue 1 "closed" "Dependency Dashboard") "old body"]
       empty_state)
    0.

(** [ensureIssue({ title, body })], with the defaults of the other
    arguments. *)
Definition ensure_dashboard : M env (option EnsureIssueResult) :=
  ensureIssue "Dependency Dashboard" None "new body" None false true.

Definition acme_app : RepoParams :=
  {| rp_repository := "acme/app";
     rp_forkMode := None;
     rp_forkToken := None;
     rp_renovateUsername := Some "renovate-bot";
     rp_cloneSubmodules := false;
     rp_ignorePrAuthor := false |}.

(** The end of [initRepo] outside fork mode, the git set-up left out:
    the result is built from the session and the repository. *)
Definition finish_init (params : RepoParams) (repo : GhRepo) : M env RepoResult :=
  c ← get_config;
  mret (mkRepoResult (defaultBranch c) (gh_isFork repo)).

(** The answer to a request for a repository that is unavailable for
    legal reasons, with the reason phrase as Node.js spells it. *)
Definition legal_block_error : JsError :=
  Err "Response code 451 (Unavailable For Legal Reasons)" (Some 451) None.

Definition with_fault (f : Req -> option JsError) (s : State) : State :=
  mkState (sim_repo s) (sim_pulls s) (sim_issues s) (sim_comments s) (sim_status s)
    (sim_check_runs s) (sim_reviews s) (sim_merge_script s) f.

Definition legal_block : World env :=
  world session
    (with_fault
       (fun r => match r with
                 | GraphqlRepoInfo _ _ => Some legal_block_error
                 | _ => None
                 end)
       empty_state)
    0.

(** The bot's pull request for [renovate/dep] was autoclosed on
    2021-11-01 at midnight; the session runs at time [t]. *)
Definition autoclosed_pull : GhRestPr :=
  pull 4 "closed" "Update dep - autoclosed" "renovate/dep" (Some "renovate-bot")
    None (Some "2021-11-01T00:00:00.000Z").

(** The record [getPrList] keeps for it. *)
Definition autoclosed_record : Pr := listPr_of_rest autoclosed_pull.

Definition autoclosed_at (t : Z) : World env :=
  world session (with_pulls [autoclosed_pull] empty_state) t.

Definition closed_instant : Z := 1635724800000.

Definition one_day_later : World env := autoclosed_at (closed_instant + 86400000).

Definition seven_days_later : World env := autoclosed_at (closed_instant + 604800000).

Definition eight_days_later : World env := autoclosed_at (closed_instant + 691200000).

(** The worlds the two searches of [getBranchPr] leave behind. *)
Definition after_open_search (w : World env) : World env :=
  (findPr "renovate/dep" None (Some "open") w).2.

Definition after_closed_search (w : World env) : World env :=
  (findPr "renovate/dep" None (Some "closed") (after_open_search w)).2.

End Examples.

(** Turns [b = true <-> P], once [b] is known, into [P] or its negation. *)
Ltac decide_by H :=
  match type of H with
  | true = true <-> ?P =>
      let HP := fresh "Hyes" in
      assert (HP : P) by (apply H; reflexivity); clear H
  | false = true <-> ?P =>
      let HP := fresh "Hno" in
      assert (HP : ~ P) by (let X := fresh in intros X; apply H in X; discriminate X);
      clear H
  end.

(** * More of the adapter *)

(** ** Closing issues by title *)

Section Issue_closing.

Context `{E : Env}.

Definition ensureIssueClosing (title : string) : M E unit :=
  c ← get_config;
  if issues_disabled c then mret tt
  else
    issueList ← getIssueList;
    forEachM
      (fun issue =>
         if is_open issue && String.eqb (issue_title issue) title
         then closeIssue (issue_number issue)
         else mret tt)
      issueList.

(** The issues [ensureIssue] works on: those with the title or, when
    there is none, those with the title to reuse. *)
Definition issues_for (title : string) (reuseTitle : option string)
    (issueList : list Issue) : list Issue :=
  let byTitle := List.filter (fun i => String.eqb (issue_title i) title) issueList in
  match byTitle with
  | [] => List.filter
            (fun i => Js.strict_eq_opt (Some (issue_title i)) reuseTitle)
            issueList
  | _ => byTitle
  end.

(** The request that closes an issue. *)
Definition close_request (c : LocalRepoConfig) (issue : Issue) : Req :=
  PatchIssue (parentOrRepository c) (issue_number issue) None "closed" None None.

(** The requests [rs] sent one after the other, up to the first one the
    remote refuses: that failure, if there is one, and the world left
    behind. *)
Fixpoint send_in_order (rs : list Req) (w : World E) : option JsError * World E :=
  match rs with
  | [] => (None, w)
  | r :: rest =>
      match http r (remote w) with
      | (inl e, rem') => (Some e, after w r rem')
      | (inr _, rem') => send_in_order rest (after w r rem')
      end
  end.

End Issue_closing.

(** ** Further endpoints and session fields

    The functions below use endpoints and session fields that the
    functions above do not touch: the branch protection, the commit
    statuses of a branch, the deletion of a comment, the reviewers of a
    pull request.  They are modelled over the same world, extended with
    the two session fields [repoForceRebase] and [pushProtection] and
    with a journal of the additional requests; the journal of the world
    itself keeps recording the requests of the first kind only. *)

(** One entry of [GET repos/:repo/commits/:sha/statuses]. *)
Record GhBranchStatus : Type := mkGhBranchStatus {
  status_context : string;
  status_state : string
}.

(** What [getRepoForceRebase] reads of a branch protection: whether
    [required_pull_request_reviews] is there, the [strict] flag of
    [required_status_checks] when that is there, and whether
    [restrictions] is there. *)
Record BranchProtection : Type := mkBranchProtection {
  required_pull_request_reviews : bool;
  required_status_checks : option bool;
  restrictions : bool
}.

(** The issue [getIssue] builds: [{ number, body }]. *)
Record IssueWithBody : Type := mkIssueWithBody {
  iwb_number : Z;
  iwb_body : string
}.

Inductive ReqX : Type :=
| GetBranchProtection (repo : option string) (branch : option string)
| GetCommitStatuses (repo : option string) (branchCommit : option string)
    (useCache : bool)
| PostCommitStatus (repo : option string) (branchCommit : option string)
    (state description context : string) (target_url : option string)
| GetIssueBody (repo : option string) (number : Z) (useCache : bool)
| PostRequestedReviewers (repo : option string) (prNo : Z)
    (reviewers team_reviewers : list string)
| DeleteIssueComment (repo : option string) (commentId : Z).

Definition RespX (r : ReqX) : Type :=
  match r with
  | GetBranchProtection _ _ => BranchProtection
  | GetCommitStatuses _ _ _ => list GhBranchStatus
  | PostCommitStatus _ _ _ _ _ _ => unit
  | GetIssueBody _ _ _ => string
  | PostRequestedReviewers _ _ _ _ => unit
  | DeleteIssueComment _ _ => unit
  end.

(** What these functions import besides the environment above:
    [git.getBranchCommit], which answers from the local clone, the
    built-in [String.prototype.trim], and the additional endpoints of
    the remote service. *)
Class EnvX (E : Env) : Type := {
  getBranchCommit : string -> option string;
  trim : string -> string;
  httpX : forall r : ReqX, Remote -> (JsError + RespX r) * Remote
}.

Definition set_prReviewsRequired (v : bool) (c : LocalRepoConfig) :=
  mkConfig (repository c) (repositoryOwner c) (repositoryName c) (parentRepo c)
    (forkMode c) (forkToken c) (renovateUsername c) (ignorePrAuthor c)
    (cloneSubmodules c) (defaultBranch c) (mergeMethod c) (autoMergeAllowed c)
    (hasIssuesEnabled c) v
    (issueList c) (prList c) (openPrList c) (closedPrList c) (branchPrs c).

(** [BranchStatus] values compared with [===]. *)
Definition BranchStatus_eqb (a b : BranchStatus) : bool :=
  match a, b with
  | green, green | yellow, yellow | red, red => true
  | _, _ => false
  end.

(** [githubToRenovateStatusMapping[state]], for the keys the object
    literal defines: the four states of the commit status API.  A
    look-up by a name that every object inherits is outside the model. *)
Definition githubToRenovateStatusMapping (state : string) : option BranchStatus :=
  if String.eqb state "success" then Some green
  else if String.eqb state "error" then Some red
  else if String.eqb state "failure" then Some red
  else if String.eqb state "pending" then Some yellow
  else None.

Definition renovateToGitHubStateMapping (state : BranchStatus) : string :=
  match state with
  | green => "success"
  | yellow => "pending"
  | red => "failure"
  end.

(** [e.replace(/^team:/, '')] *)
Definition remove_team_prefix (e : string) : string :=
  match e with
  | String "t" (String "e" (String "a" (String "m" (String ":" r)))) => r
  | _ => e
  end.

Section Adapter_rest.

Context `{E : Env} {X : EnvX E}.

Record WorldX : Type := mkWorldX {
  base : World E;
  repoForceRebase : option bool;
  pushProtection : option bool;
  journalX : list ReqX
}.

Definition MX (A : Type) : Type := WorldX -> Result A * WorldX.

#[export] Instance MX_ret : MRet MX := fun A a x => (Ok a, x).

#[export] Instance MX_bind : MBind MX := fun A B f m x =>
  match m x with
  | (Ok a, x') => f a x'
  | (Throw e, x') => (Throw e, x')
  end.

Definition throwX {A : Type} (e : JsError) : MX A := fun x => (Throw e, x).

(** [try { m } catch (err) { h err }] *)
Definition try_catchX {A : Type} (m : MX A) (h : JsError -> MX A) : MX A := fun x =>
  match m x with
  | (Ok a, x') => (Ok a, x')
  | (Throw e, x') => h e x'
  end.

Definition with_base (x : WorldX) (w : World E) : WorldX :=
  mkWorldX w (repoForceRebase x) (pushProtection x) (journalX x).

(** A function of the first part, run in the extended world. *)
Definition lift {A : Type} (m : M E A) : MX A := fun x =>
  let '(r, w') := m (base x) in (r, with_base x w').

Definition get_repoForceRebase : MX (option bool) := fun x => (Ok (repoForceRebase x), x).

Definition set_repoForceRebase (v : bool) : MX unit := fun x =>
  (Ok tt, mkWorldX (base x) (Some v) (pushProtection x) (journalX x)).

Definition set_pushProtection (v : bool) : MX unit := fun x =>
  (Ok tt, mkWorldX (base x) (repoForceRebase x) (Some v) (journalX x)).

(** One request to an additional endpoint: it is appended to the
    journal of additional requests and the service moves on. *)
Definition requestX (r : ReqX) : MX (RespX r) := fun x =>
  let '(o, rem') := httpX r (remote (base x)) in
  (match o with inl e => Throw e | inr a => Ok a end,
   mkWorldX (mkWorld (config (base x)) rem' (journal (base x)) (now (base x)))
     (repoForceRebase x) (pushProtection x) (journalX x ++ [r])).

(** The extended world after one additional request. *)
Definition afterX (x : WorldX) (r : ReqX) (rem' : Remote) : WorldX :=
  mkWorldX (mkWorld (config (base x)) rem' (journal (base x)) (now (base x)))
    (repoForceRebase x) (pushProtection x) (journalX x ++ [r]).

(** ** Branch protection *)

(** [{}] *)
Definition no_protection : BranchProtection := mkBranchProtection false None false.

Definition getBranchProtection (branchName : option string) : MX BranchProtection :=
  c ← lift get_config;
  if Js.truthy_opt (parentRepo c) then mret no_protection
  else requestX (GetBranchProtection (repository c) (escapeHash <$> branchName)).

Definition getRepoForceRebase : MX (option bool) :=
  cached ← get_repoForceRebase;
  match cached with
  | None =>
      try_catchX
        (set_repoForceRebase false ;;
         c ← lift get_config;
         branchProtection ← getBranchProtection (defaultBranch c);
         (if required_pull_request_reviews branchProtection
          then lift (modify_config (set_prReviewsRequired true))
          else mret tt) ;;
         match required_status_checks branchProtection with
         | Some true => set_repoForceRebase true
         | _ => mret tt
         end ;;
         if restrictions branchProtection then set_pushProtection true
         else mret tt)
        (fun err =>
           if statusCode_is err 404 then mret tt
           else if String.eqb (message err) PLATFORM_INTEGRATION_UNAUTHORIZED
                   || statusCode_is err 403
           then mret tt
           else throwX err)
  | Some _ => mret tt
  end ;;
  get_repoForceRebase.

(** ** Status checks *)

Definition getStatusCheck (branchName : string) (useCache : bool)
  : MX (list GhBranchStatus) :=
  let branchCommit := getBranchCommit branchName in
  c ← lift get_config;
  requestX (GetCommitStatuses (repository c) branchCommit useCache).

(** The [for] loop of [getBranchStatusCheck], which returns at the first
    check of the context. *)
Fixpoint check_of_context (context : string) (res : list GhBranchStatus)
  : option BranchStatus :=
  match res with
  | [] => None
  | check :: rest =>
      if String.eqb (status_context check) context
      then Some (default yellow (githubToRenovateStatusMapping (status_state check)))
      else check_of_context context rest
  end.

Definition getBranchStatusCheck (branchName context : string)
  : MX (option BranchStatus) :=
  try_catchX
    (res ← getStatusCheck branchName true;
     mret (check_of_context context res))
    (fun err =>
       if statusCode_is err 404 then throwX (new_Error REPOSITORY_CHANGED)
       else throwX err).

Definition setBranchStatus (branchName context description : string)
    (state : BranchStatus) (targetUrl : option string) : MX unit :=
  c ← lift get_config;
  if Js.truthy_opt (parentRepo c) then mret tt
  else
    existingStatus ← getBranchStatusCheck branchName context;
    if from_option (BranchStatus_eqb state) false existingStatus then mret tt
    else
      try_catchX
        (let branchCommit := getBranchCommit branchName in
         c ← lift get_config;
         requestX
           (PostCommitStatus (repository c) branchCommit
              (renovateToGitHubStateMapping state) description context
              (if Js.truthy_opt targetUrl then targetUrl else None)) ;;
         lift (getStatus branchName false) ;;
         getStatusCheck branchName false ;;
         mret tt)
        (fun _ => throwX (new_Error REPOSITORY_CHANGED)).

(** ** Issues *)

Definition getIssue (number : Z) (useCache : bool) : MX (option IssueWithBody) :=
  c ← lift get_config;
  if issues_disabled c then mret None
  else
    try_catchX
      (issueBody ← requestX (GetIssueBody (parentOrRepository c) number useCache);
       mret (Some (mkIssueWithBody number issueBody)))
      (fun _ => mret None).

Definition findIssue (title : string) : MX (option IssueWithBody) :=
  issueList ← lift getIssueList;
  match List.filter
          (fun i => String.eqb (issue_state i) "open" && String.eqb (issue_title i) title)
          issueList with
  | [] => mret None
  | issue :: _ => getIssue (issue_number issue) true
  end.

(** ** Reviewers *)

Definition addReviewers (prNo : Z) (reviewers : list string) : MX unit :=
  let userReviewers :=
    List.filter (fun e => negb (Js.startsWith e "team:")) reviewers in
  let teamReviewers :=
    List.map remove_team_prefix
      (List.filter (fun e => Js.startsWith e "team:") reviewers) in
  c ← lift get_config;
  try_catchX
    (requestX
       (PostRequestedReviewers (parentOrRepository c) prNo userReviewers teamReviewers))
    (fun _ => mret tt).

(** ** Comments *)

Definition deleteComment (commentId : Z) : MX unit :=
  c ← lift get_config;
  requestX (DeleteIssueComment (parentOrRepository c) commentId).

(** [comments.find(p)?.id], where [comments] may be undefined *)
Definition find_id (p : Comment -> bool) (comments : option (list Comment))
  : MX (option Z) :=
  match comments with
  | None => throwX TypeError
  | Some comments => mret (comment_id <$> List.find p comments)
  end.

Definition ensureCommentRemoval (issueNo : Z) (topic content : option string)
  : MX unit :=
  comments ← lift (getComments issueNo);
  let byTopic := fun comment =>
    Js.startsWith (comment_body comment) (topic_header (default "" topic)) in
  let byContent := fun comment =>
    Js.strict_eq_opt (Some (trim (comment_body comment))) content in
  commentId ←
    (if Js.truthy_opt topic then find_id byTopic comments
     else if Js.truthy_opt content then find_id byContent comments
     else mret None);
  try_catchX
    (if truthy_id commentId then deleteComment (default 0 commentId)
     else mret tt)
    (fun _ => mret tt).

End Adapter_rest.

Arguments WorldX E : clear implicits.
Arguments MX E A : clear implicits.

Section Vocabulary_rest.

Context `{E : Env} {X : EnvX E}.

(** [required_status_checks.strict] is there and true. *)
Definition strict_checks (bp : BranchProtection) : bool :=
  match required_status_checks bp with
  | Some true => true
  | _ => false
  end.

(** A failure that [getRepoForceRebase] takes for a missing or
    unreadable branch protection. *)
Definition no_protection_visible (err : JsError) : bool :=
  statusCode_is err 404
  || String.eqb (message err) PLATFORM_INTEGRATION_UNAUTHORIZED
  || statusCode_is err 403.

(** The extended world once the branch protection [bp] was read. *)
Definition protection_recorded (x : WorldX E) (q : ReqX) (rem' : Remote)
    (bp : BranchProtection) : WorldX E :=
  let c := config (base x) in
  mkWorldX
    (mkWorld
       (if required_pull_request_reviews bp then set_prReviewsRequired true c else c)
       rem' (journal (base x)) (now (base x)))
    (Some (strict_checks bp))
    (if restrictions bp then Some true else pushProtection x)
    (journalX x ++ [q]).

(** The part of [setBranchStatus] that writes: the status is posted,
    then the combined status and the status checks are read again, and
    the first of the three requests the remote refuses ends it.  It
    gives whether all three were accepted and the world left behind. *)
Definition post_and_refresh (post : ReqX) (refresh : Req) (recheck : ReqX)
    (x : WorldX E) : bool * WorldX E :=
  match httpX post (remote (base x)) with
  | (inl _, rem1) => (false, afterX x post rem1)
  | (inr _, rem1) =>
      let x1 := afterX x post rem1 in
      match http refresh rem1 with
      | (inl _, rem2) => (false, with_base x1 (after (base x1) refresh rem2))
      | (inr _, rem2) =>
          let x2 := with_base x1 (after (base x1) refresh rem2) in
          match httpX recheck rem2 with
          | (inl _, rem3) => (false, afterX x2 recheck rem3)
          | (inr _, rem3) => (true, afterX x2 recheck rem3)
          end
      end
  end.

(** The extended world with the flag set to false. *)
Definition assumed_false (x : WorldX E) : WorldX E :=
  mkWorldX (base x) (Some false) (pushProtection x) (journalX x).

End Vocabulary_rest.

(** ** A reference environment for the additional endpoints

    The stand-in for the remote service is extended by a script: the
    commits of the local branches, the answer to the branch-protection
    request, the status checks, and the requests to fail.  A deleted
    comment is removed from the stored comments. *)

Module SimX.

Import Sim.

Record Script : Type := mkScript {
  commits : string -> option string;
  protection : JsError + BranchProtection;
  checks : list GhBranchStatus;
  faultX : ReqX -> option JsError
}.

Definition answerX (sc : Script) (r : ReqX) (s : State) : (JsError + RespX r) * State :=
  match r return (JsError + RespX r) * State with
  | GetBranchProtection _ _ =>
      (match protection sc with inl e => inl e | inr bp => inr bp end, s)
  | GetCommitStatuses _ _ _ => (inr (checks sc), s)
  | PostCommitStatus _ _ _ _ _ _ => (inr tt, s)
  | GetIssueBody _ n _ =>
      match List.find (fun row => issue_number (row_issue row) =? n) (sim_issues s) with
      | Some row => (inr (row_body row), s)
      | None => (inl not_found, s)
      end
  | PostRequestedReviewers _ _ _ _ => (inr tt, s)
  | DeleteIssueComment _ id =>
      (inr tt,
       with_comments
         (List.filter (fun c => negb (comment_id c =? id)) (sim_comments s)) s)
  end.

Definition respondX (sc : Script) (r : ReqX) (s : State) : (JsError + RespX r) * State :=
  match faultX sc r with
  | Some e => (inl e, s)
  | None => answerX sc r s
  end.

Definition is_space (c : ascii) : bool :=
  let n := nat_of_ascii c in
  ((9 <=? n) && (n <=? 13) || (n =? 32))%nat.

Fixpoint trim_start (s : string) : string :=
  match s with
  | EmptyString => EmptyString
  | String c r => if is_space c then trim_start r else s
  end.

Fixpoint trim_end (s : string) : string :=
  match s with
  | EmptyString => EmptyString
  | String c r =>
      match trim_end r with
      | EmptyString => if is_space c then EmptyString else String c EmptyString
      | r' => String c r'
      end
  end.

Definition envX (sc : Script) : EnvX env :=
  {| getBranchCommit := commits sc;
     trim := fun s => trim_end (trim_start s);
     httpX := respondX sc |}.

Definition worldX (w : World env) : WorldX env := mkWorldX w None None [].

End SimX.

(** Further sessions of the reference environment, with the additional
    endpoints answered by a script. *)
Module More_examples.

Import Sim SimX.

(** The default branch asks for reviews and for branches that are up to
    date; the stability check of [renovate/a] is pending. *)
Definition protected_main : Script :=
  {| commits := fun b => if String.eqb b "renovate/a" then Some "abc123" else None;
     protection := inr (mkBranchProtection true (Some true) false);
     checks := [mkGhBranchStatus "renovate/stability-days" "pending";
                mkGhBranchStatus "ci/build" "success";
                mkGhBranchStatus "renovate/stability-days" "success"];
     faultX := fun _ => None |}.

Definition rest : EnvX env := envX protected_main.

Definition with_repo (repo : option GhRepo) (s : State) : State :=
  mkState repo (sim_pulls s) (sim_issues s) (sim_comments s) (sim_status s)
    (sim_check_runs s) (sim_reviews s) (sim_merge_script s) (sim_fault s).

Definition with_reviews (l : list string) (s : State) : State :=
  mkState (sim_repo s) (sim_pulls s) (sim_issues s) (sim_comments s) (sim_status s)
    (sim_check_runs s) l (sim_merge_script s) (sim_fault s).

Definition acme_repo : GhRepo :=
  {| gh_isFork := false;
     gh_isArchived := false;
     gh_nameWithOwner := Some "acme/app";
     gh_autoMergeAllowed := Some true;
     gh_hasIssuesEnabled := Some true;
     gh_mergeCommitAllowed := true;
     gh_rebaseMergeAllowed := false;
     gh_squashMergeAllowed := true;
     gh_defaultBranchRef := Some (mkGhBranchRef "main" "0123abc") |}.

(** The remote knows the repository; the session is a stale one. *)
Definition before_init : World env :=
  world (set_issueList (Some []) session) (with_repo (Some acme_repo) empty_state) 0.

(** Both pull-request caches are populated. *)
Definition both_caches : World env :=
  (getClosedPrs (getOpenPrs Examples.mixed_authors).2).2.

(** Reviews are required, and the only review asks for changes. *)
Definition changes_requested : World env :=
  world (set_prReviewsRequired true session)
    (with_reviews ["CHANGES_REQUESTED"] empty_state) 0.

(** The same reviews, in a session that has not looked at the branch
    protection yet. *)
Definition unprotected_yet : WorldX env :=
  worldX (world session (with_reviews ["CHANGES_REQUESTED"] empty_state) 0).

(** Two open issues bear the title of the dashboard, an older closed one
    as well. *)
Definition dashboards : World env :=
  world session
    (with_issues
       [mkIssueRow (mkIssue 1 "CLOSED" "Dependency Dashboard") "first";
        mkIssueRow (mkIssue 2 "OPEN" "Dependency Dashboard") "second";
        mkIssueRow (mkIssue 3 "OPEN" "Unrelated") "other";
        mkIssueRow (mkIssue 4 "OPEN" "Dependency Dashboard") "third"]
       empty_state)
    0.

(** One open issue bears the title, with an outdated body. *)
Definition open_dashboard : World env :=
  world session
    (with_issues [mkIssueRow (mkIssue 2 "OPEN" "Dependency Dashboard") "old body"]
       empty_state)
    0.

(** Issue 5 carries two comments on the topic [Notice] and one other. *)
Definition notices : World env :=
  world session
    (with_comments
       [mkComment 11 "unrelated";
        mkComment 12 (topic_header "Notice" +:+ "first");
        mkComment 13 (topic_header "Notice" +:+ "second")]
       empty_state)
    0.

Definition check_stability : MX env (option BranchStatus) :=
  getBranchStatusCheck (X := rest) "renovate/a" "renovate/stability-days".

Definition set_stability (state : BranchStatus) : MX env unit :=
  setBranchStatus (X := rest) "renovate/a" "renovate/stability-days" "Updates have met stability days requirement"
    state None.

Definition force_rebase : MX env (option bool) := getRepoForceRebase (X := rest).

Definition find_dashboard : MX env (option IssueWithBody) :=
  findIssue (X := rest) "Dependency Dashboard".

Definition remove_notice : MX env unit :=
  ensureCommentRemoval (X := rest) 5 (Some "Notice") (Some "second").

Definition force_rebase_then_merge : MX env bool :=
  getRepoForceRebase (X := rest) ;; lift (mergePr (Some "renovate/a") 7).

End More_examples.

(** * Properties *)

Section Monad_facts.

Context `{E : Env}.

Lemma bind_ok {A B : Type} (m : M E A) (f : A -> M E B) w a w' :
  m w = (Ok a, w') -> (m ≫= f) w = f a w'.
Proof. intros H. unfold mbind, M_bind. now rewrite H. Qed.

Lemma bind_throw {A B : Type} (m : M E A) (f : A -> M E B) w e w' :
  m w = (Throw e, w') -> (m ≫= f) w = (Throw e, w').
Proof. intros H. unfold mbind, M_bind. now rewrite H. Qed.

Lemma try_catch_ok {A : Type} (m : M E A) h w a w' :
  m w = (Ok a, w') -> try_catch m h w = (Ok a, w').
Proof. intros H. unfold try_catch. now rewrite H. Qed.

Lemma try_catch_throw {A : Type} (m : M E A) h w e w' :
  m w = (Throw e, w') -> try_catch m h w = h e w'.
Proof. intros H. unfold try_catch. now rewrite H. Qed.

Lemma request_ok (r : Req) w a rem' :
  http r (remote w) = (inr a, rem') -> request r w = (Ok a, after w r rem').
Proof. intros H. unfold request. now rewrite H. Qed.

Lemma request_throw (r : Req) w e rem' :
  http r (remote w) = (inl e, rem') -> request r w = (Throw e, after w r rem').
Proof. intros H. unfold request. now rewrite H. Qed.

End Monad_facts.

(** ** Merging *)

Section Merge_properties.

Context `{E : Env}.

(** The nested [try]/[catch] blocks of the fallback are the ordered
    attempt of the specification. *)
Lemma fallback_nested (put : string -> Req) (w1 : World E) :
  try_catch (request (put "rebase") ;; mret true)
    (fun _ => try_catch (request (put "squash") ;; mret true)
       (fun _ => try_catch (request (put "merge") ;; mret true)
          (fun _ => mret false))) w1
  = let '(b, w') := attempt_in_order put fallback_order w1 in (Ok b, w').
Proof.
  unfold fallback_order, attempt_in_order, try_catch, mbind, M_bind, request,
    mret, M_ret, after.
  destruct (http (put "rebase") (remote w1)) as [[e|a] r1]; simpl; [|reflexivity].
  destruct (http (put "squash") r1) as [[e2|a2] r2]; simpl; [|reflexivity].
  destruct (http (put "merge") r2) as [[e3|a3] r3]; simpl; reflexivity.
Qed.

(** Once the review gate is passed, [mergePr] is its merge part run
    from the world the gate leaves. *)
Lemma mergePr_after_gate (w w0 : World E) branchName prNo :
  review_gate w prNo w0 ->
  mergePr branchName prNo w =
    (let c := config w in
     let put := put_merge c prNo in
     attempt ← (if Js.truthy_opt (mergeMethod c) then
         try_catch
           (request (put (default "" (mergeMethod c))) ;; mret (Some true))
           (fun err =>
              if statusCode_is err 404 || statusCode_is err 405
              then mret (Some false)
              else mret None)
       else mret (Some false));
    match attempt with
    | None => mret false
    | Some true => mret true
    | Some false =>
        try_catch (request (put "rebase") ;; mret true)
          (fun err1 =>
             try_catch (request (put "squash") ;; mret true)
               (fun err2 =>
                  try_catch (request (put "merge") ;; mret true)
                    (fun err3 => mret false)))
    end) w0.
Proof.
  intros [[Hr ->]|(Hr & reviews & rem' & Hh & Hap & ->)].
  - unfold mergePr. unfold mbind at 1, M_bind at 1. unfold get_config at 1.
    rewrite Hr. reflexivity.
  - unfold mergePr. unfold mbind at 1, M_bind at 1. unfold get_config at 1.
    rewrite Hr.
    unfold mbind at 1, M_bind at 1.
    unfold mbind at 1, M_bind at 1.
    rewrite (request_ok _ _ _ _ Hh).
    unfold mret at 1, M_ret at 1. rewrite Hap. reflexivity.
Qed.

(** The detected attempt failed with 404 or 405: the fallback runs. *)
Lemma mergePr_detected_blocked (w w0 : World E) branchName prNo m e rem' :
  review_gate w prNo w0 ->
  mergeMethod (config w) = Some m -> Js.truthy m = true ->
  http (put_merge (config w) prNo m) (remote w0) = (inl e, rem') ->
  statusCode_is e 404 || statusCode_is e 405 = true ->
  mergePr branchName prNo w =
    let '(b, w') :=
      attempt_in_order (put_merge (config w) prNo) fallback_order
        (after w0 (put_merge (config w) prNo m) rem') in
    (Ok b, w').
Proof.
  intros Hg Hm Ht Hh Hs. rewrite (mergePr_after_gate _ _ _ _ Hg). cbv zeta.
  rewrite Hm. cbn [Js.truthy_opt from_option id]. rewrite Ht.
  unfold mbind at 1, M_bind at 1. unfold try_catch at 1.
  unfold mbind at 1, M_bind at 1. rewrite (request_throw _ _ _ _ Hh).
  rewrite Hs. unfold mret at 1, M_ret at 1.
  apply fallback_nested.
Qed.

(** C9. Past the review gate: when the attempt with the detected method
    fails with an error other than 404 or 405, [mergePr] returns false
    and issues no further attempt; when it fails with 404 or 405, or when
    no method was detected, the strategies rebase, squash and merge are
    attempted in this order, the first success gives true, and false is
    returned when all three fail. *)
Theorem mergePr_fallback_sequence (w w0 : World E) branchName prNo :
  review_gate w prNo w0 ->
  let c := config w in
  let put := put_merge c prNo in
  let fallback (w1 : World E) : Result bool * World E :=
    let '(b, w') := attempt_in_order put fallback_order w1 in (Ok b, w') in
  (Js.truthy_opt (mergeMethod c) = false ->
   mergePr branchName prNo w = fallback w0) /\
  (forall m e rem', mergeMethod c = Some m -> Js.truthy m = true ->
     http (put m) (remote w0) = (inl e, rem') ->
     mergePr branchName prNo w =
       if statusCode_is e 404 || statusCode_is e 405
       then fallback (after w0 (put m) rem')
       else (Ok false, after w0 (put m) rem')) /\
  (forall w1,
     fallback w1 =
       match http (put "rebase") (remote w1) with
       | (inr _, r1) => (Ok true, after w1 (put "rebase") r1)
       | (inl _, r1) =>
           let w2 := after w1 (put "rebase") r1 in
           match http (put "squash") r1 with
           | (inr _, r2) => (Ok true, after w2 (put "squash") r2)
           | (inl _, r2) =>
               let w3 := after w2 (put "squash") r2 in
               match http (put "merge") r2 with
               | (inr _, r3) => (Ok true, after w3 (put "merge") r3)
               | (inl _, r3) => (Ok false, after w3 (put "merge") r3)
               end
           end
       end).
Proof.
  intros Hg c put fallback. split; [|split].
  - intros Hm. rewrite (mergePr_after_gate _ _ _ _ Hg). cbv zeta. fold c. rewrite Hm.
    unfold mbind at 1, M_bind at 1. unfold mret at 1, M_ret at 1.
    apply fallback_nested.
  - intros m e rem' Hm Ht Hh.
    destruct (statusCode_is e 404 || statusCode_is e 405) eqn:Hs.
    + apply (mergePr_detected_blocked _ _ _ _ _ _ _ Hg Hm Ht Hh Hs).
    + rewrite (mergePr_after_gate _ _ _ _ Hg). cbv zeta. fold c. rewrite Hm.
      cbn [Js.truthy_opt from_option id]. rewrite Ht.
      unfold mbind at 1, M_bind at 1. unfold try_catch at 1.
      unfold mbind at 1, M_bind at 1. fold put. rewrite (request_throw _ _ _ _ Hh).
      rewrite Hs. reflexivity.
  - intros w1. unfold fallback, fallback_order, attempt_in_order.
    destruct (http (put "rebase") (remote w1)) as [[e|a] r1]; [|reflexivity].
    cbn [remote after].
    destruct (http (put "squash") r1) as [[e2|a2] r2]; [|reflexivity].
    cbn [remote after].
    destruct (http (put "merge") r2) as [[e3|a3] r3]; reflexivity.
Qed.

(** C1, as the code has it.  Rebase was detected and the attempt with
    it failed with 405: [mergePr] does not stop there, but the attempt it
    issues next asks for rebase again, the head of the fixed fallback
    order; squash comes only after this second rebase attempt has failed
    as well. *)
Theorem mergePr_rebase_405_next_attempt (w w0 : World E) branchName prNo e rem1 :
  review_gate w prNo w0 ->
  mergeMethod (config w) = Some "rebase" ->
  http (put_merge (config w) prNo "rebase") (remote w0) = (inl e, rem1) ->
  statusCode e = Some 405 ->
  let put := put_merge (config w) prNo in
  exists b w' rest,
    mergePr branchName prNo w = (Ok b, w') /\
    journal w' = (journal w0 ++ put "rebase" :: put "rebase" :: rest)%list /\
    (forall a rem2, http (put "rebase") rem1 = (inr a, rem2) ->
       b = true /\ rest = []) /\
    (forall e1 rem2, http (put "rebase") rem1 = (inl e1, rem2) ->
       exists rest', rest = put "squash" :: rest').
Proof.
  intros Hg Hm Hh Hs put.
  assert (Hb : statusCode_is e 404 || statusCode_is e 405 = true).
  { unfold statusCode_is. rewrite Hs. reflexivity. }
  rewrite (mergePr_detected_blocked _ _ _ _ _ _ _ Hg Hm eq_refl Hh Hb).
  fold put. unfold fallback_order, attempt_in_order. cbn [remote after].
  destruct (http (put "rebase") rem1) as [[e1|a1] r1] eqn:H1.
  - cbn [remote after].
    destruct (http (put "squash") r1) as [[e2|a2] r2] eqn:H2.
    + cbn [remote after].
      destruct (http (put "merge") r2) as [[e3|a3] r3] eqn:H3.
      * exists false, (after (after (after (after w0 (put "rebase") rem1)
                 (put "rebase") r1) (put "squash") r2) (put "merge") r3),
          [put "squash"; put "merge"].
        split; [reflexivity|]. split.
        { cbn [journal after]. rewrite <- !app_assoc. reflexivity. }
        split; [intros a rem2 Heq; discriminate|].
        intros e' rem2 _. eexists. reflexivity.
      * exists true, (after (after (after (after w0 (put "rebase") rem1)
                 (put "rebase") r1) (put "squash") r2) (put "merge") r3),
          [put "squash"; put "merge"].
        split; [reflexivity|]. split.
        { cbn [journal after]. rewrite <- !app_assoc. reflexivity. }
        split; [intros a rem2 Heq; discriminate|].
        intros e' rem2 _. eexists. reflexivity.
    + exists true, (after (after (after w0 (put "rebase") rem1)
                 (put "rebase") r1) (put "squash") r2), [put "squash"].
      split; [reflexivity|]. split.
      { cbn [journal after]. rewrite <- !app_assoc. reflexivity. }
      split; [intros a rem2 Heq; discriminate|].
      intros e' rem2 _. eexists. reflexivity.
  - exists true, (after (after w0 (put "rebase") rem1) (put "rebase") r1), [].
    split; [reflexivity|]. split.
    { cbn [journal after]. rewrite <- !app_assoc. reflexivity. }
    split; [intros a rem2 _; split; reflexivity|].
    intros e' rem2 Heq. discriminate.
Qed.

End Merge_properties.

Lemma mergePr_fallback_sequence_witness :
  review_gate Examples.rebase_refused_once 7 Examples.rebase_refused_once /\
  exists w', mergePr (Some "renovate/lodash") 7 Examples.rebase_refused_once = (Ok true, w').
Proof.
  assert (Hg : review_gate Examples.rebase_refused_once 7 Examples.rebase_refused_once).
  { left. split; reflexivity. }
  split; [exact Hg|].
  destruct (mergePr_fallback_sequence Examples.rebase_refused_once
              Examples.rebase_refused_once (Some "renovate/lodash") 7 Hg)
    as (_ & H & _).
  eexists.
  rewrite (H "rebase" Examples.method_not_allowed _ eq_refl eq_refl eq_refl).
  vm_compute. reflexivity.
Defined.

Lemma mergePr_rebase_405_next_attempt_witness :
  exists b w' rest,
    mergePr (Some "renovate/lodash") 7 Examples.rebase_refused_once = (Ok b, w') /\
    merge_attempts (journal w') = "rebase" :: "rebase" :: rest.
Proof.
  destruct (mergePr_rebase_405_next_attempt Examples.rebase_refused_once
              Examples.rebase_refused_once (Some "renovate/lodash") 7
              Examples.method_not_allowed _
              (or_introl (conj eq_refl eq_refl)) eq_refl eq_refl eq_refl)
    as (b & w' & rest & Hrun & Hj & _).
  exists b, w', (merge_attempts rest). split; [exact Hrun|].
  rewrite Hj. reflexivity.
Defined.

(** C1, as stated, fails: rebase was detected, the first attempt is
    refused with 405, and the attempt that follows asks for rebase, not
    for squash. *)
Lemma mergePr_rebase_405_counterexample :
  let w := Examples.rebase_refused_once in
  mergeMethod (config w) = Some "rebase" /\
  (http (put_merge (config w) 7 "rebase") (remote w)).1 = inl Examples.method_not_allowed /\
  statusCode Examples.method_not_allowed = Some 405 /\
  merge_attempts (journal (mergePr (Some "renovate/lodash") 7 w).2)
    = ["rebase"; "rebase"] /\
  merge_attempts (journal (mergePr (Some "renovate/lodash") 7 w).2) !! 1%nat
    <> Some "squash".
Proof. vm_compute. repeat split; discriminate. Qed.

(** ** Pull requests *)

Section Pr_properties.

Context `{E : Env}.

Lemma strict_eq_opt_true a b :
  Js.strict_eq_opt a b = true <-> exists x, a = Some x /\ b = Some x.
Proof.
  destruct a as [x|], b as [y|]; simpl; split; try discriminate.
  - intros H%String.eqb_eq. subst. eauto.
  - intros (z & [= ->] & [= ->]). apply String.eqb_refl.
  - intros (z & _ & [=]).
  - intros (z & [=] & _).
  - intros (z & [=] & _).
Qed.

(** [getPrList] answers from the cache when there is one; otherwise it
    sends one request and keeps what it built. *)
Lemma getPrList_run (w : World E) :
  getPrList w =
    match prList (config w) with
    | Some l => (Ok l, w)
    | None =>
        let r := GetPullsAll (parentOrRepository (config w)) in
        match http r (remote w) with
        | (inr raw, rem') =>
            let l := List.map listPr_of_rest (List.filter (keeps_author (config w)) raw) in
            (Ok l, with_config (after w r rem') (set_prList (Some l) (config w)))
        | (inl e, rem') => (Throw (ExternalHostError e), after w r rem')
        end
    end.
Proof.
  unfold getPrList. unfold mbind at 1, M_bind at 1, get_config at 1.
  destruct (prList (config w)) as [l|]; [reflexivity|].
  unfold mbind at 1, M_bind at 1, try_catch, request.
  destruct (http _ (remote w)) as [[e|raw] rem']; reflexivity.
Qed.

Lemma getPrList_config (w w' : World E) r :
  getPrList w = (r, w') ->
  forkMode (config w') = forkMode (config w) /\
  repository (config w') = repository (config w).
Proof.
  rewrite getPrList_run. destruct (prList (config w)).
  - intros [= _ <-]. now split.
  - cbv zeta. destruct (http _ (remote w)) as [[e|raw] rem']; intros [= _ <-]; now split.
Qed.

Lemma findPr_run (w : World E) branchName prTitle state :
  findPr branchName prTitle state w =
    match getPrList w with
    | (Ok l, w') =>
        (Ok (List.find (findPr_match (config w') branchName prTitle
                          (default PrState_All state)) l), w')
    | (Throw e, w') => (Throw e, w')
    end.
Proof.
  unfold findPr. unfold mbind at 1, M_bind at 1.
  destruct (getPrList w) as [[l|e] w']; reflexivity.
Qed.

Lemma matchesState_spec st d :
  matchesState st d = true <->
  d = PrState_All \/
  (d <> PrState_All /\ Js.startsWith d "!" = true /\ st <> Js.substring1 d) \/
  (d <> PrState_All /\ Js.startsWith d "!" = false /\ st = d).
Proof.
  unfold matchesState.
  destruct (String.eqb_spec d PrState_All) as [->|Hne].
  - split; [now left | reflexivity].
  - destruct (Js.startsWith d "!") eqn:Hs.
    + rewrite negb_true_iff. split.
      * intros H. right. left. repeat split; [assumption|].
        intros ->. now rewrite String.eqb_refl in H.
      * intros [?|[(_ & _ & H)|(_ & [=] & _)]]; [contradiction|].
        now apply String.eqb_neq.
    + split.
      * intros H%String.eqb_eq. right. right. now repeat split.
      * intros [?|[(_ & [=] & _)|(_ & _ & ->)]]; [contradiction|].
        apply String.eqb_refl.
Qed.

Lemma keeps_author_spec (c : LocalRepoConfig) (pr : GhRestPr) :
  keeps_author c pr = true <->
  forkMode c = true \/ ignorePrAuthor c = true \/
  Js.truthy_opt (rest_user_login pr) = false \/
  Js.truthy_opt (renovateUsername c) = false \/
  rest_user_login pr = renovateUsername c.
Proof.
  unfold keeps_author.
  destruct (forkMode c); [split; auto|].
  destruct (ignorePrAuthor c); [split; auto|].
  cbn [orb].
  destruct (Js.truthy_opt (rest_user_login pr)) eqn:Hl; [|split; auto].
  destruct (Js.truthy_opt (renovateUsername c)) eqn:Hu; [|split; auto].
  cbn [andb]. rewrite strict_eq_opt_true. split.
  - intros (x & -> & ->). auto.
  - intros [[=]|[[=]|[[=]|[[=]|Heq]]]].
    destruct (rest_user_login pr) as [x|]; [|discriminate]. eauto.
Qed.

(** C6, as the code has it.  With no cached list, [getPrList] sends
    the one listing request for the pull requests of every state and
    returns the records built from those it keeps: a pull request is kept
    when fork mode or the ignore-PR-author override is active, when it
    has no author login, when the session has no bot username, or when
    its author is the bot.  A kept pull request whose remote state is
    closed and whose merge timestamp is not empty is recorded as merged,
    never as closed. *)
Theorem getPrList_filter_and_merged (w : World E) raw rem' :
  prList (config w) = None ->
  http (GetPullsAll (parentOrRepository (config w))) (remote w) = (inr raw, rem') ->
  PrState_Merged <> PrState_Closed ->
  let c := config w in
  let kept := List.filter (keeps_author c) raw in
  let result := List.map listPr_of_rest kept in
  getPrList w =
    (Ok result,
     with_config (after w (GetPullsAll (parentOrRepository c)) rem')
       (set_prList (Some result) c)) /\
  (forall pr, In pr raw ->
     (In pr kept <->
      forkMode c = true \/ ignorePrAuthor c = true \/
      Js.truthy_opt (rest_user_login pr) = false \/
      Js.truthy_opt (renovateUsername c) = false \/
      rest_user_login pr = renovateUsername c)) /\
  (forall p, In p result ->
     exists pr, In pr kept /\ p = listPr_of_rest pr /\
       (rest_state pr = PrState_Closed -> Js.truthy_opt (rest_merged_at pr) = true ->
        pr_state p = PrState_Merged /\ pr_state p <> PrState_Closed)).
Proof.
  intros Hnone Hh Hne c kept result. split; [|split].
  - subst c kept result. rewrite getPrList_run, Hnone. cbv zeta. rewrite Hh.
    reflexivity.
  - intros pr Hin. unfold kept. rewrite filter_In, keeps_author_spec. tauto.
  - intros p Hp. apply in_map_iff in Hp as (pr & <- & Hin).
    exists pr. split; [assumption|]. split; [reflexivity|].
    intros Hst Hm. unfold listPr_of_rest, has_merge_timestamp. cbn [pr_state].
    rewrite Hst, String.eqb_refl, Hm. cbn [andb]. now split.
Qed.

(** C7. A pull request returned by [findPr] has exactly the given
    source branch, has the given title when one is supplied (a title
    that is not empty), has a state
    accepted by the state filter (the wildcard, a negation introduced by
    an exclamation mark, or an exact match) and, unless fork mode is
    active, comes from the repository of the session.  With the filter
    [!closed] every state but closed is accepted, so the first pull
    request of the list that fits and is, say, merged is returned. *)
Theorem findPr_match_conditions (w w' : World E) branchName prTitle state p :
  findPr branchName prTitle state w = (Ok (Some p), w') ->
  PrState_All <> "!closed" ->
  (pr_sourceBranch p = Some branchName /\
   (forall t, prTitle = Some t -> Js.truthy t = true -> pr_title p = t) /\
   matchesState (pr_state p) (default PrState_All state) = true /\
   (forkMode (config w) = false ->
    exists repo, repository (config w) = Some repo /\ pr_sourceRepo p = Some repo)) /\
  (forall st d,
     matchesState st d = true <->
     d = PrState_All \/
     (d <> PrState_All /\ Js.startsWith d "!" = true /\ st <> Js.substring1 d) \/
     (d <> PrState_All /\ Js.startsWith d "!" = false /\ st = d)) /\
  (forall st, matchesState st "!closed" = true <-> st <> "closed") /\
  (forall w0 q l,
     prList (config w0) = Some (q :: l) ->
     pr_sourceBranch q = Some branchName ->
     pr_state q <> "closed" ->
     forkMode (config w0) = true \/ Js.strict_eq_opt (repository (config w0)) (pr_sourceRepo q) = true ->
     findPr branchName None (Some "!closed") w0 = (Ok (Some q), w0)).
Proof.
  intros Hrun Hall.
  assert (Hclosed : forall st, matchesState st "!closed" = true <-> st <> "closed").
  { intros st. rewrite matchesState_spec. split.
    - intros [Heq|[(_ & _ & H)|(_ & [=] & _)]]; [congruence|exact H].
    - intros H. right. left. repeat split; [congruence|exact H]. }
  split; [|split; [apply matchesState_spec|split; [exact Hclosed|]]].
  - rewrite findPr_run in Hrun.
    destruct (getPrList w) as [[l|e] w1] eqn:Hl; [|discriminate].
    injection Hrun as Hfind <-.
    apply find_some in Hfind as [_ Hm].
    apply getPrList_config in Hl as [Hf Hr].
    unfold findPr_match in Hm. rewrite !andb_true_iff in Hm.
    destruct Hm as [[[Hb Ht] Hs] Hrepo].
    apply strict_eq_opt_true in Hb as (x & Hx & [= <-]).
    split; [exact Hx|]. split; [|split; [exact Hs|]].
    + intros t -> Htr. cbn [Js.truthy_opt] in Ht. rewrite Htr in Ht. cbn in Ht.
      now apply String.eqb_eq in Ht.
    + rewrite Hf, Hr in Hrepo. intros Hfm. rewrite Hfm in Hrepo. cbn [orb] in Hrepo.
      apply strict_eq_opt_true in Hrepo as (x & H1 & H2). eauto.
  - intros w0 q l Hl Hb Hs Hrepo.
    rewrite findPr_run, getPrList_run, Hl. cbn [find from_option id].
    assert (Hm : findPr_match (config w0) branchName None "!closed" q = true).
    { unfold findPr_match. rewrite Hb. cbn [Js.strict_eq_opt Js.truthy_opt negb orb].
      rewrite String.eqb_refl. cbn [andb].
      rewrite (proj2 (Hclosed _) Hs). cbn [andb].
      destruct Hrepo as [-> | ->]; [reflexivity|apply orb_true_r]. }
    rewrite Hm. reflexivity.
Qed.

(** C10. A falsy PR number (0) makes [getPr] return null at once: the
    world is left as it was, so neither cache was filled or read into the
    answer and no request was sent. *)
Theorem getPr_falsy_number (w : World E) : getPr 0 w = (Ok None, w).
Proof. reflexivity. Qed.

End Pr_properties.

Lemma getPrList_filter_and_merged_witness :
  exists l w',
    getPrList Examples.mixed_authors = (Ok l, w') /\
    List.map pr_state l = ["open"; "merged"].
Proof.
  destruct (getPrList_filter_and_merged Examples.mixed_authors _ _
              eq_refl eq_refl ltac:(discriminate)) as (Hrun & _ & _).
  eexists _, _. split; [exact Hrun|]. vm_compute. reflexivity.
Defined.

(** C6, as stated, fails: neither fork mode nor the override is active,
    yet a pull request that carries no author login is kept next to the
    bot's own one, and in a session that has no bot username the pull
    request of a human is kept as well. *)
Lemma getPrList_author_counterexample :
  forkMode (config Examples.mixed_authors) = false /\
  ignorePrAuthor (config Examples.mixed_authors) = false /\
  renovateUsername (config Examples.mixed_authors) = Some "renovate-bot" /\
  List.map (fun pr => (rest_number pr, rest_user_login pr))
    (Sim.sim_pulls (remote Examples.mixed_authors))
    = [(1, Some "alice"); (2, None); (3, Some "renovate-bot")] /\
  (exists l w', getPrList Examples.mixed_authors = (Ok l, w') /\
     List.map pr_number l = [2; 3]) /\
  forkMode (config Examples.anonymous_bot) = false /\
  ignorePrAuthor (config Examples.anonymous_bot) = false /\
  (exists l w', getPrList Examples.anonymous_bot = (Ok l, w') /\
     List.map pr_number l = [1; 2; 3]).
Proof.
  repeat split; try reflexivity; eexists _, _; (split; [vm_compute|]; reflexivity).
Qed.

Lemma findPr_match_conditions_witness :
  exists p w',
    findPr "renovate/b" None (Some "!closed") Examples.mixed_authors = (Ok (Some p), w') /\
    pr_sourceBranch p = Some "renovate/b" /\ pr_state p = "merged".
Proof.
  assert (Hr : exists p w',
             findPr "renovate/b" None (Some "!closed") Examples.mixed_authors
               = (Ok (Some p), w') /\ pr_state p = "merged").
  { vm_compute. eexists _, _. split; reflexivity. }
  destruct Hr as (p & w' & Hr & Hst).
  destruct (findPr_match_conditions _ _ _ _ _ _ Hr ltac:(discriminate))
    as ((Hb & _) & _).
  exists p, w'. split; [exact Hr|]. split; [exact Hb|exact Hst].
Defined.

(** ** Branch status *)

Section Status_properties.

Context `{E : Env}.

Lemma includes_In l s : Js.includes l s = true <-> In s l.
Proof.
  unfold Js.includes. rewrite existsb_exists. split.
  - intros (x & Hin & Heq%String.eqb_eq). now subst.
  - intros Hin. exists s. split; [assumption|apply String.eqb_refl].
Qed.

Lemma checkRun_eta runs :
  List.map (fun run => mkCheckRun (run_name run) (run_status run) (run_conclusion run)) runs = runs.
Proof. induction runs as [|[n s c] l IH]; simpl; [reflexivity|now rewrite IH]. Qed.

(** The status [getBranchStatus] derives, as the source writes it. *)
Lemma getBranchStatus_run (w : World E) branchName cs raw r1 r2 :
  let c := config w in
  let q1 := GetCommitStatus (repository c) (escapeHash branchName) true in
  let q2 := GetCheckRuns (repository c) (escapeHash branchName) in
  http q1 (remote w) = (inr cs, r1) ->
  http q2 r1 = (inr raw, r2) ->
  let checkRuns := default [] raw in
  getBranchStatus branchName w =
    (Ok (if (length checkRuns =? 0)%nat then
           if String.eqb (cbs_state cs) "success" then green
           else if String.eqb (cbs_state cs) "failure" then red
           else yellow
         else if String.eqb (cbs_state cs) "failure"
                 || existsb (fun run => String.eqb (run_conclusion run) "failure") checkRuns
         then red
         else if (String.eqb (cbs_state cs) "success"
                  || (length (cbs_statuses cs) =? 0)%nat)
                 && forallb (fun run => Js.includes passing_conclusions (run_conclusion run))
                      checkRuns
         then green
         else yellow),
     after (after w q1 r1) q2 r2).
Proof.
  intros c q1 q2 H1 H2 checkRuns.
  unfold getBranchStatus.
  unfold mbind at 1, M_bind at 1. unfold try_catch at 1. unfold getStatus.
  unfold mbind at 1, M_bind at 1, get_config at 1.
  fold c. fold q1. rewrite (request_ok _ _ _ _ H1).
  unfold mbind at 1, M_bind at 1, get_config at 1. cbn [config after]. fold c.
  unfold mbind at 1, M_bind at 1. unfold try_catch at 1.
  unfold mbind at 1, M_bind at 1. fold q2.
  rewrite (request_ok (E:=E) q2 (after w q1 r1) raw r2 H2).
  assert (Hruns : (match raw with
            | Some (run :: runs) =>
                mret (List.map (fun run => mkCheckRun (run_name run) (run_status run) (run_conclusion run)) (run :: runs))
            | _ => mret []
            end : M E (list CheckRun)) (after (after w q1 r1) q2 r2) = (Ok checkRuns, after (after w q1 r1) q2 r2)).
  { subst checkRuns. destruct raw as [[|run runs]|]; try reflexivity.
    rewrite checkRun_eta. reflexivity. }
  rewrite Hruns. clear Hruns.
  destruct (length checkRuns =? 0)%nat.
  - destruct (String.eqb (cbs_state cs) "success"); [reflexivity|].
    destruct (String.eqb (cbs_state cs) "failure"); reflexivity.
  - destruct (String.eqb (cbs_state cs) "failure" || _); [reflexivity|].
    destruct ((String.eqb (cbs_state cs) "success" || _) && _); reflexivity.
Qed.

Lemma length_eqb_0 {A} (l : list A) : (length l =? 0)%nat = true <-> l = [].
Proof. destruct l; simpl; split; congruence. Qed.

(** C3, as the code has it.  The combined legacy status and the
    check-runs being fetched: without check-runs the result is green
    exactly for the legacy state success, red exactly for failure, and
    yellow otherwise; with check-runs it is red exactly when the legacy
    state is failure or some check-run concluded failure, green exactly
    when the legacy state is not failure, it is success or there is no
    legacy status, and every check-run concluded skipped, neutral or
    success, and yellow otherwise.  A pending legacy state with
    check-runs that all succeeded gives yellow when there is a legacy
    status and green when there is none. *)
Theorem getBranchStatus_aggregation (w : World E) branchName cs raw r1 r2 :
  let c := config w in
  let q1 := GetCommitStatus (repository c) (escapeHash branchName) true in
  let q2 := GetCheckRuns (repository c) (escapeHash branchName) in
  http q1 (remote w) = (inr cs, r1) ->
  http q2 r1 = (inr raw, r2) ->
  let runs := default [] raw in
  let failed := exists run, In run runs /\ run_conclusion run = "failure" in
  let passing := forall run, In run runs -> In (run_conclusion run) passing_conclusions in
  exists s, getBranchStatus branchName w = (Ok s, after (after w q1 r1) q2 r2) /\
    (runs = [] ->
       (s = green <-> cbs_state cs = "success") /\
       (s = red <-> cbs_state cs = "failure") /\
       (s = yellow <-> cbs_state cs <> "success" /\ cbs_state cs <> "failure")) /\
    (runs <> [] ->
       (s = red <-> cbs_state cs = "failure" \/ failed) /\
       (s = green <->
        cbs_state cs <> "failure" /\
        (cbs_state cs = "success" \/ cbs_statuses cs = []) /\ passing) /\
       (s = yellow <->
        ~ (cbs_state cs = "failure" \/ failed) /\
        ~ ((cbs_state cs = "success" \/ cbs_statuses cs = []) /\ passing))) /\
    (runs <> [] -> cbs_state cs = "pending" ->
     (forall run, In run runs -> run_conclusion run = "success") ->
       (s = yellow <-> cbs_statuses cs <> []) /\
       (s = green <-> cbs_statuses cs = [])).
Proof.
  intros c q1 q2 H1 H2 runs failed passing.
  eexists. split; [exact (getBranchStatus_run w branchName cs raw r1 r2 H1 H2)|].
  fold runs.
  assert (He : existsb (fun run => String.eqb (run_conclusion run) "failure") runs = true
               <-> failed).
  { rewrite existsb_exists. unfold failed.
    split; intros (x & Hin & Hx); exists x; (split; [assumption|]);
      now apply String.eqb_eq. }
  assert (Hp : forallb (fun run => Js.includes passing_conclusions (run_conclusion run)) runs
               = true <-> passing).
  { rewrite forallb_forall. unfold passing.
    split; intros H x Hin; apply includes_In; auto. }
  pose proof (length_eqb_0 runs) as Hl.
  pose proof (length_eqb_0 (cbs_statuses cs)) as Hz.
  assert (Hpf : passing -> ~ failed).
  { intros Hpass (x & Hin & Hx). specialize (Hpass x Hin). rewrite Hx in Hpass.
    cbn in Hpass. intuition discriminate. }
  assert (Hall : cbs_state cs = "pending" ->
                 (forall run, In run runs -> run_conclusion run = "success") ->
                 passing /\ cbs_state cs <> "success" /\ cbs_state cs <> "failure").
  { intros Hpend Hall. split; [|rewrite Hpend; split; discriminate].
    intros run Hin. rewrite (Hall run Hin). cbn. auto. }
  destruct (String.eqb_spec (cbs_state cs) "success") as [Hs|Hs];
  destruct (String.eqb_spec (cbs_state cs) "failure") as [Hf|Hf];
  try (rewrite Hs in Hf; discriminate).
  all: destruct (length runs =? 0)%nat; decide_by Hl.
  all: destruct (existsb _ runs); decide_by He.
  all: destruct (forallb _ runs); decide_by Hp.
  all: destruct (length (cbs_statuses cs) =? 0)%nat; decide_by Hz.
  all: cbn [orb andb].
  all: (split; [intros Hr|split; [intros Hr|intros Hr Hpend Hall'; specialize (Hall Hpend Hall')]]).
  all: try contradiction.
  all: repeat split; try discriminate; try congruence; try tauto.
Qed.

End Status_properties.

Lemma getBranchStatus_aggregation_witness :
  exists w', getBranchStatus "renovate/a" Examples.checks_only = (Ok green, w').
Proof.
  destruct (getBranchStatus_aggregation Examples.checks_only "renovate/a" _ _ _ _
              eq_refl eq_refl) as (s & Hrun & _ & _ & Hpending).
  destruct (Hpending ltac:(discriminate) eq_refl) as [_ Hgreen].
  { intros run [<-|[]]. reflexivity. }
  eexists. rewrite Hrun, (proj2 Hgreen eq_refl). reflexivity.
Defined.

(** C3, as stated, fails twice.  A pending legacy state over no legacy
    status with a check-run that succeeded gives green, not yellow; and a
    legacy state of failure over no legacy status with a check-run that
    succeeded gives red, although there is no legacy status and every
    check-run concluded success. *)
Lemma getBranchStatus_counterexample :
  Sim.sim_status (remote Examples.checks_only) = mkCombinedBranchStatus "pending" [] /\
  Sim.sim_check_runs (remote Examples.checks_only)
    = Some [mkCheckRun "build" "completed" "success"] /\
  (getBranchStatus "renovate/a" Examples.checks_only).1 = Ok green /\
  Sim.sim_status (remote Examples.failure_without_statuses)
    = mkCombinedBranchStatus "failure" [] /\
  Sim.sim_check_runs (remote Examples.failure_without_statuses)
    = Some [mkCheckRun "build" "completed" "success"] /\
  (getBranchStatus "renovate/a" Examples.failure_without_statuses).1 = Ok red.
Proof. vm_compute. repeat split. Qed.

(** ** Comments *)

Section Comment_properties.

Context `{E : Env}.

Lemma string_length_append (a b : string) :
  String.length (a +:+ b) = (String.length a + String.length b)%nat.
Proof. induction a as [|c a IH]; simpl; [reflexivity|now rewrite IH]. Qed.

Lemma append_header_neq (h text : string) :
  Js.truthy h = true -> h +:+ text <> text.
Proof.
  intros Hh Heq. apply (f_equal String.length) in Heq.
  rewrite string_length_append in Heq. destruct h; [discriminate|]. simpl in Heq. lia.
Qed.

Lemma topic_header_truthy t : Js.truthy (topic_header t) = true.
Proof. reflexivity. Qed.

(** A loop that overwrites its state at every match ends in the state
    of the last match. *)
Lemma fold_left_last_match {A S : Type} (p : A -> bool) (g : A -> S) (init : S) (l : list A) :
  fold_left (fun st x => if p x then g x else st) l init
  = match List.find p (rev l) with
    | Some k => g k
    | None => init
    end.
Proof.
  induction l as [|x l IH] using rev_ind; [reflexivity|].
  rewrite fold_left_app, rev_app_distr. simpl.
  destruct (p x); [reflexivity|exact IH].
Qed.

Lemma find_rev_existsb {A} (p : A -> bool) (l : list A) :
  match List.find p (rev l) with
  | Some k => In k l /\ p k = true
  | None => existsb p l = false
  end.
Proof.
  destruct (List.find p (rev l)) as [k|] eqn:Hf.
  - apply find_some in Hf as [Hin Hp]. split; [now apply in_rev|assumption].
  - apply not_true_is_false. intros (x & Hin & Hx)%existsb_exists.
    apply in_rev in Hin. pose proof (find_none _ _ Hf x Hin). congruence.
Qed.

Lemma scan_topic_spec topic body cs :
  scan_topic topic body cs =
    match List.find (fun k => Js.startsWith (comment_body k) (topic_header topic)) (rev cs) with
    | Some k => (Some (comment_id k), negb (String.eqb (comment_body k) body))
    | None => (None, false)
    end.
Proof.
  unfold scan_topic.
  apply (fold_left_last_match
           (fun k => Js.startsWith (comment_body k) (topic_header topic))
           (fun k => (Some (comment_id k), negb (String.eqb (comment_body k) body)))).
Qed.

Lemma scan_content_spec body cs :
  scan_content body cs =
    match List.find (fun k => String.eqb (comment_body k) body) (rev cs) with
    | Some k => (Some (comment_id k), false)
    | None => (None, false)
    end.
Proof.
  unfold scan_content.
  apply (fold_left_last_match
           (fun k => String.eqb (comment_body k) body)
           (fun k => (Some (comment_id k), false))).
Qed.

Lemma ensureComment_run (w w1 : World E) number topic content cs :
  getComments number w = (Ok (Some cs), w1) ->
  let repo := parentOrRepository (config w1) in
  let text := sanitize content in
  let body :=
    if Js.truthy_opt topic then topic_header (default "" topic) +:+ text else text in
  let st :=
    if Js.truthy_opt topic then scan_topic (default "" topic) body cs
    else scan_content body cs in
  ensureComment number topic content w =
    if negb (truthy_id st.1) then comment_write w1 (PostIssueComment repo number body)
    else if st.2 then comment_write w1 (PatchIssueComment repo (default 0 st.1) body)
    else (Ok true, w1).
Proof.
  intros Hget repo text body st.
  unfold ensureComment, ensureComment_try. unfold try_catch at 1.
  unfold mbind at 1, M_bind at 1. rewrite Hget.
  fold text. subst st body.
  destruct (Js.truthy_opt topic).
  - destruct (scan_topic _ _ cs) as [cid needs]. cbn [fst snd].
    destruct (negb (truthy_id cid)).
    + unfold addComment, comment_write, mbind, M_bind, get_config, request. fold repo.
      destruct (http _ (remote w1)) as [[e|a] rem']; [destruct e|]; reflexivity.
    + destruct needs; [|reflexivity].
      unfold editComment, comment_write, mbind, M_bind, get_config, request. fold repo.
      destruct (http _ (remote w1)) as [[e|a] rem']; [destruct e|]; reflexivity.
  - destruct (scan_content _ cs) as [cid needs]. cbn [fst snd].
    destruct (negb (truthy_id cid)).
    + unfold addComment, comment_write, mbind, M_bind, get_config, request. fold repo.
      destruct (http _ (remote w1)) as [[e|a] rem']; [destruct e|]; reflexivity.
    + destruct needs; [|reflexivity].
      unfold editComment, comment_write, mbind, M_bind, get_config, request. fold repo.
      destruct (http _ (remote w1)) as [[e|a] rem']; [destruct e|]; reflexivity.
Qed.


(** Whenever the [try] block of [ensureComment] ends without an
    exception, its answer is true. *)
Lemma ensureComment_try_true (w w' : World E) number topic content b :
  ensureComment_try number topic content w = (Ok b, w') -> b = true.
Proof.
  unfold ensureComment_try. unfold mbind at 1, M_bind at 1.
  destruct (getComments number w) as [[[cs|]|e] w1]; [|discriminate|discriminate].
  destruct (if Js.truthy_opt topic then _ else _) as [body [cid needs]].
  destruct (negb (truthy_id cid)).
  - unfold addComment, mbind, M_bind, get_config, request.
    destruct (http _ (remote w1)) as [[e|a] rem']; [discriminate|].
    now intros [= <- _].
  - destruct needs; [|now intros [= <- _]].
    unfold editComment, mbind, M_bind, get_config, request.
    destruct (http _ (remote w1)) as [[e|a] rem']; [discriminate|].
    now intros [= <- _].
Qed.

Lemma truthy_id_of (k : Comment) : comment_id k <> 0 -> truthy_id (Some (comment_id k)) = true.
Proof. intros H. unfold truthy_id. now apply negb_true_iff, Z.eqb_neq. Qed.

Lemma startsWith_append (p r : string) : Js.startsWith (p +:+ r) p = true.
Proof.
  unfold Js.startsWith. induction p as [|a p IH]; [destruct r; reflexivity|].
  change (String.prefix (String a p) (String a (p +:+ r)) = true).
  cbn [String.prefix]. destruct (ascii_dec a a); [exact IH|congruence].
Qed.

Lemma append_inj_r (p a b : string) : p +:+ a = p +:+ b -> a = b.
Proof.
  induction p as [|c p IH]; intros H; [exact H|].
  change (String c (p +:+ a) = String c (p +:+ b)) in H.
  injection H as H. exact (IH H).
Qed.

(** C5, as the code has it.  The comments of the thread being fetched
    and their ids being non-zero, [ensureComment] addresses them in one
    of two ways.  With a topic it builds the body from the header
    [### topic], two line feeds and the sanitized content, looks for the
    last comment that starts with the header, adds the body when there
    is none, does nothing when that comment is the body already and
    edits it otherwise.  Without a topic it does nothing when some
    comment is exactly the sanitized content and adds it otherwise; it
    never edits.  What keeps the two ways apart is the text of the
    comments alone.  A body built with a topic differs from its bare
    content, so a call without topic on a thread of comments written
    with a topic and the same content matches none of them and adds its
    own.  But a call without topic whose content is the whole body of a
    comment written with a topic matches that comment and does nothing,
    and a call with a topic edits a comment that starts with its header
    whichever way it was written.  The call returns true when it had
    nothing to do or when its write was accepted, and false only when
    its write was refused; in any session at all, false is returned only
    after an exception in the body of the call. *)
Theorem ensureComment_addressing (w w1 : World E) number topic content cs :
  getComments number w = (Ok (Some cs), w1) ->
  Forall (fun k => comment_id k <> 0) cs ->
  let repo := parentOrRepository (config w1) in
  let text := sanitize content in
  let run := ensureComment number topic content w in
  let header := fun t : string =>
    "### " +:+ t +:+ String "010"%char (String "010"%char EmptyString) in
  (forall t, topic = Some t -> Js.truthy t = true ->
     let body := header t +:+ text in
     match List.find (fun k => Js.startsWith (comment_body k) (header t)) (rev cs) with
     | None => run = comment_write w1 (PostIssueComment repo number body)
     | Some k =>
         if String.eqb (comment_body k) body then run = (Ok true, w1)
         else run = comment_write w1 (PatchIssueComment repo (comment_id k) body)
     end) /\
  (Js.truthy_opt topic = false ->
     if existsb (fun k => String.eqb (comment_body k) text) cs
     then run = (Ok true, w1)
     else run = comment_write w1 (PostIssueComment repo number text)) /\
  (forall t, header t +:+ text <> text) /\
  (Js.truthy_opt topic = false ->
   (forall k, In k cs -> exists t, comment_body k = header t +:+ text) ->
   run = comment_write w1 (PostIssueComment repo number text)) /\
  (Js.truthy_opt topic = false ->
   forall k t x, In k cs -> comment_body k = header t +:+ x -> text = header t +:+ x ->
     run = (Ok true, w1)) /\
  (forall t k x, topic = Some t -> Js.truthy t = true ->
     cs = [k] -> comment_body k = header t +:+ x -> x <> text ->
     run = comment_write w1 (PatchIssueComment repo (comment_id k) (header t +:+ text))) /\
  (forall r, (comment_write w1 r).1 = Ok true <->
             exists a rem', http r (remote w1) = (inr a, rem')) /\
  (forall w', run = (Ok false, w') ->
     exists r e rem',
       is_comment_write r = true /\ http r (remote w1) = (inl e, rem') /\
       w' = after w1 r rem') /\
  (forall w0 number0 topic0 content0 w',
     ensureComment number0 topic0 content0 w0 = (Ok false, w') ->
     exists e, ensureComment_try number0 topic0 content0 w0 = (Throw e, w')).
Proof.
  intros Hget Hids repo text run header.
  assert (Hheader : forall t, header t = topic_header t) by (intros t; reflexivity).
  pose proof (ensureComment_run w w1 number topic content cs Hget) as Hrun.
  cbv zeta in Hrun. fold repo text run in Hrun.
  assert (Hcontent : Js.truthy_opt topic = false ->
     if existsb (fun k => String.eqb (comment_body k) text) cs
     then run = (Ok true, w1)
     else run = comment_write w1 (PostIssueComment repo number text)).
  { intros Ht. rewrite Ht, scan_content_spec in Hrun.
    pose proof (find_rev_existsb (fun k => String.eqb (comment_body k) text) cs) as Hf.
    destruct (List.find _ (rev cs)) as [k|].
    - destruct Hf as [Hin Hk]. cbn [fst snd] in Hrun.
      rewrite truthy_id_of in Hrun by (apply (proj1 (List.Forall_forall _ _) Hids); assumption).
      cbn [negb] in Hrun.
      replace (existsb _ cs) with true; [exact Hrun|].
      symmetry. apply existsb_exists. eauto.
    - rewrite Hf. exact Hrun. }
  assert (Htopic : forall t, topic = Some t -> Js.truthy t = true ->
     let body := header t +:+ text in
     match List.find (fun k => Js.startsWith (comment_body k) (header t)) (rev cs) with
     | None => run = comment_write w1 (PostIssueComment repo number body)
     | Some k =>
         if String.eqb (comment_body k) body then run = (Ok true, w1)
         else run = comment_write w1 (PatchIssueComment repo (comment_id k) body)
     end).
  { intros t -> Ht body. subst body. rewrite (Hheader t).
    cbn [Js.truthy_opt from_option id] in Hrun.
    rewrite Ht, scan_topic_spec in Hrun.
    pose proof (find_rev_existsb
                  (fun k => Js.startsWith (comment_body k) (topic_header t)) cs) as Hf.
    destruct (List.find _ (rev cs)) as [k|]; [|exact Hrun].
    destruct Hf as [Hin _]. cbn [fst snd from_option id] in Hrun.
    rewrite truthy_id_of in Hrun by (apply (proj1 (List.Forall_forall _ _) Hids); assumption).
    cbn [negb] in Hrun.
    destruct (String.eqb (comment_body k) (topic_header t +:+ text)); exact Hrun. }
  split; [exact Htopic|].
  split; [exact Hcontent|split; [|split; [|split; [|split; [|split; [|split]]]]]].
  - intros t. rewrite (Hheader t). apply append_header_neq, topic_header_truthy.
  - intros Ht Hall. specialize (Hcontent Ht).
    replace (existsb (fun k => String.eqb (comment_body k) text) cs) with false in Hcontent;
      [exact Hcontent|].
    symmetry. apply not_true_is_false. intros (k & Hin & Hk%String.eqb_eq)%existsb_exists.
    destruct (Hall k Hin) as (t & Hb). rewrite Hb, (Hheader t) in Hk.
    exact (append_header_neq _ _ (topic_header_truthy t) Hk).
  - intros Ht k t x Hin Hb Htext. specialize (Hcontent Ht).
    replace (existsb (fun k => String.eqb (comment_body k) text) cs) with true in Hcontent;
      [exact Hcontent|].
    symmetry. apply existsb_exists. exists k. split; [exact Hin|].
    apply String.eqb_eq. congruence.
  - intros t k x Htopic' Ht Hcs Hb Hx. specialize (Htopic t Htopic' Ht).
    cbv zeta in Htopic. rewrite Hcs in Htopic. cbn [rev app List.find] in Htopic.
    rewrite Hb, startsWith_append in Htopic. cbv iota beta in Htopic.
    rewrite Hb in Htopic.
    replace (String.eqb (header t +:+ x) (header t +:+ text)) with false in Htopic;
      [exact Htopic|].
    symmetry. apply String.eqb_neq. intros Heq. exact (Hx (append_inj_r _ _ _ Heq)).
  - intros r. unfold comment_write.
    destruct (http r (remote w1)) as [[e|a] rem']; cbn [fst].
    + split; [destruct (instanceof_ExternalHostError e); discriminate|].
      intros (a & rem2 & [=]).
    + split; eauto.
  - intros w' Hfalse.
    assert (Hw : forall r, is_comment_write r = true ->
              comment_write w1 r = (Ok false, w') ->
              exists r e rem', is_comment_write r = true /\
                http r (remote w1) = (inl e, rem') /\ w' = after w1 r rem').
    { intros r Hr Hc. unfold comment_write in Hc.
      destruct (http r (remote w1)) as [[e|a] rem'] eqn:Hh; [|discriminate].
      destruct (instanceof_ExternalHostError e); [discriminate|].
      injection Hc as <-. eauto 6. }
    rewrite Hfalse in Hrun.
    destruct (negb _); [symmetry in Hrun; eapply Hw; [|exact Hrun]; reflexivity|].
    destruct (snd _); [symmetry in Hrun; eapply Hw; [|exact Hrun]; reflexivity|].
    discriminate.
  - intros w0 number0 topic0 content0 w'. unfold ensureComment, try_catch.
    destruct (ensureComment_try number0 topic0 content0 w0) as [[b|e] w2] eqn:Htry.
    + rewrite (ensureComment_try_true _ _ _ _ _ _ Htry). discriminate.
    + destruct (instanceof_ExternalHostError e); [discriminate|].
      intros [= <-]. exists e. reflexivity.
Qed.
End Comment_properties.

Lemma ensureComment_addressing_witness :
  exists w1,
    getComments 5 Examples.topic_comment
      = (Ok (Some [mkComment 11
                     ("### Notice" +:+ String "010"%char (String "010"%char "Hello"))]),
         w1) /\
    ensureComment 5 None "Hello" Examples.topic_comment
      = comment_write w1
          (PostIssueComment (parentOrRepository (config w1)) 5 "Hello").
Proof.
  assert (Hget : exists w1,
             getComments 5 Examples.topic_comment
             = (Ok (Some [mkComment 11
                            ("### Notice" +:+ String "010"%char (String "010"%char "Hello"))]),
                w1)).
  { vm_compute. eexists. reflexivity. }
  destruct Hget as (w1 & Hget). exists w1. split; [exact Hget|].
  destruct (ensureComment_addressing _ _ 5 None "Hello" _ Hget) as (_ & _ & _ & H & _).
  { repeat constructor. discriminate. }
  apply H; [reflexivity|].
  intros k [<-|[]]. exists "Notice". reflexivity.
Defined.

(** C5, as stated, fails: the two ways of addressing do meet.  On an
    empty thread a call with the topic [Notice] and the content [Hello]
    writes a comment; a call without topic whose content is the whole
    body of that comment then finds it and writes nothing.  And a
    comment written without topic that begins with the header of
    [Notice] is edited, not left alone, by a call with that topic. *)
Lemma ensureComment_modes_counterexample :
  let LF2 := String "010"%char (String "010"%char EmptyString) in
  let thread := Sim.world Sim.session Sim.empty_state 0 in
  let by_topic := ensureComment 5 (Some "Notice") "Hello" thread in
  let by_content := ensureComment 5 None ("### Notice" +:+ LF2 +:+ "Hello") by_topic.2 in
  let written := ensureComment 5 None ("### Notice" +:+ LF2 +:+ "Hello") thread in
  let edited := ensureComment 5 (Some "Notice") "Bye" written.2 in
  by_topic.1 = Ok true /\
  Sim.sim_comments (remote by_topic.2)
    = [mkComment 1 ("### Notice" +:+ LF2 +:+ "Hello")] /\
  by_content.1 = Ok true /\
  List.filter is_comment_write (journal by_content.2)
    = [PostIssueComment (Some "acme/app") 5 ("### Notice" +:+ LF2 +:+ "Hello")] /\
  written.1 = Ok true /\
  Sim.sim_comments (remote written.2)
    = [mkComment 1 ("### Notice" +:+ LF2 +:+ "Hello")] /\
  edited.1 = Ok true /\
  List.filter is_comment_write (journal edited.2)
    = [PostIssueComment (Some "acme/app") 5 ("### Notice" +:+ LF2 +:+ "Hello");
       PatchIssueComment (Some "acme/app") 1 ("### Notice" +:+ LF2 +:+ "Bye")] /\
  Sim.sim_comments (remote edited.2)
    = [mkComment 1 ("### Notice" +:+ LF2 +:+ "Bye")].
Proof. vm_compute. repeat split. Qed.

(** ** Issues *)

(** C4 on a session whose issue was closed by hand.  The first call
    reopens and rewrites the issue; the issue cache is left as it was, so
    the second, identical call still sees a closed issue and sends the
    same update again: two writes instead of one, the second one on an
    issue that is open and up to date on the remote side. *)
Theorem ensureIssue_repeats_update_of_closed_issue :
  let first := Examples.ensure_dashboard Examples.closed_issue in
  let second := Examples.ensure_dashboard first.2 in
  let update :=
    PatchIssue (Some "acme/app") 1 (Some "new body") "open"
      (Some "Dependency Dashboard") None in
  first.1 = Ok (Some updated) /\
  Sim.sim_issues (remote first.2)
    = [Sim.mkIssueRow (mkIssue 1 "open" "Dependency Dashboard") "new body"] /\
  issueList (config first.2) = Some [mkIssue 1 "closed" "Dependency Dashboard"] /\
  second.1 = Ok (Some updated) /\
  List.filter is_issue_write (journal second.2) = [update; update].
Proof. vm_compute. repeat split. Qed.

(** ** Session initialization *)

Section Init_properties.

Context `{E : Env}.

Variable setUp : RepoParams -> GhRepo -> M E RepoResult.

Lemma initRepo_run (params : RepoParams) (w : World E) :
  let c0 := fresh_config params in
  let q := GraphqlRepoInfo (repositoryOwner c0) (repositoryName c0) in
  let w0 := with_config w c0 in
  let k := fun repo =>
    modify_config (reset_caches (Js.truthy_opt (rp_forkMode params))) ;;
    setUp params repo in
  initRepo setUp params w =
    match http q (remote w) with
    | (inl err, rem') => (initRepo_catch err ≫= k) (after w0 q rem')
    | (inr None, rem') =>
        (initRepo_catch (new_Error REPOSITORY_NOT_FOUND) ≫= k) (after w0 q rem')
    | (inr (Some repo), rem') =>
        let w1 := after w0 q rem' in
        if negb (Js.truthy_opt (defaultBranchName repo))
        then (initRepo_catch (new_Error REPOSITORY_EMPTY) ≫= k) w1
        else if Js.truthy_opt (gh_nameWithOwner repo)
                && negb (Js.strict_eq_opt (gh_nameWithOwner repo)
                           (Some (rp_repository params)))
        then (initRepo_catch (new_Error REPOSITORY_RENAMED) ≫= k) w1
        else if gh_isArchived repo
        then (initRepo_catch (new_Error REPOSITORY_ARCHIVED) ≫= k) w1
        else k repo (with_config w1 (record_repo repo c0))
    end.
Proof.
  intros c0 q w0 k. unfold initRepo.
  unfold mbind at 1, M_bind at 1, modify_config at 1.
  unfold mbind at 1, M_bind at 1, get_config at 1. cbn [config].
  fold c0. fold k. unfold mbind at 1, M_bind at 1. unfold try_catch at 1.
  unfold mbind at 1, M_bind at 1. unfold request at 1. cbn [remote]. fold q.
  destruct (http q (remote w)) as [[err|[repo|]] rem']; cbn [config journal now remote].
  - reflexivity.
  - cbv zeta.
    destruct (negb (Js.truthy_opt (defaultBranchName repo))); [reflexivity|].
    destruct (Js.truthy_opt (gh_nameWithOwner repo) && _); [reflexivity|].
    destruct (gh_isArchived repo); reflexivity.
  - reflexivity.
Qed.

Lemma initRepo_catch_cases (err : JsError) (w1 : World E) :
  (already_classified err -> initRepo_catch err w1 = (Throw err, w1)) /\
  (~ already_classified err ->
   (statusCode_is err 403 = true ->
    initRepo_catch err w1 = (Throw (new_Error REPOSITORY_ACCESS_FORBIDDEN), w1)) /\
   (statusCode_is err 403 = false -> statusCode_is err 404 = true ->
    initRepo_catch err w1 = (Throw (new_Error REPOSITORY_NOT_FOUND), w1)) /\
   (statusCode_is err 403 = false -> statusCode_is err 404 = false ->
    (Js.startsWith (message err) "Repository access blocked" = true ->
     initRepo_catch err w1 = (Throw (new_Error REPOSITORY_BLOCKED), w1)) /\
    (Js.startsWith (message err) "Repository access blocked" = false ->
     (message err = legal_reasons_message ->
      message err <> REPOSITORY_FORKED -> message err <> REPOSITORY_DISABLED ->
      initRepo_catch err w1 = (Throw (new_Error REPOSITORY_ACCESS_FORBIDDEN), w1)) /\
     (message err <> legal_reasons_message ->
      initRepo_catch err w1 = (Throw err, w1))))).
Proof.
  unfold already_classified, initRepo_catch, throw.
  destruct (String.eqb_spec (message err) REPOSITORY_ARCHIVED) as [Ha|Ha];
    [split; [reflexivity|intros []; auto]|].
  destruct (String.eqb_spec (message err) REPOSITORY_RENAMED) as [Hr|Hr];
    [split; [reflexivity|intros []; auto]|].
  destruct (String.eqb_spec (message err) REPOSITORY_NOT_FOUND) as [Hn|Hn];
    [split; [reflexivity|intros []; auto]|].
  cbn [orb]. split; [intros [?|[?|?]]; contradiction|]. intros _.
  split; [intros ->; reflexivity|]. split; [intros -> ->; reflexivity|].
  intros -> ->. split; [intros ->; reflexivity|]. intros ->.
  destruct (String.eqb_spec (message err) REPOSITORY_FORKED) as [Hf|Hf].
  { split; [intros _ H; contradiction|reflexivity]. }
  destruct (String.eqb_spec (message err) REPOSITORY_DISABLED) as [Hd|Hd].
  { split; [intros _ _ H; contradiction|reflexivity]. }
  destruct (String.eqb_spec (message err) legal_reasons_message) as [Hl|Hl].
  - split; [reflexivity|intros H; contradiction].
  - split; [intros H; contradiction|reflexivity].
Qed.

(** C8, as the code has it.  A repository answered without a default
    branch raises EmptyRepository; with one, a canonical identifier that
    differs from the requested one raises RepositoryRenamed, and
    otherwise a set archived flag raises RepositoryArchived.  When the
    query itself fails, the first rule that applies decides: an error
    whose message already is RepositoryArchived, RepositoryRenamed or
    RepositoryNotFound propagates unchanged; status 403 raises
    AccessForbidden; status 404 raises RepositoryNotFound; a message that
    starts with [Repository access blocked] raises RepositoryBlocked; a
    message that is exactly [Response code 451 (Unavailable for Legal
    Reasons)] raises AccessForbidden, whatever the status code; every
    other error propagates unchanged. *)
Theorem initRepo_failure_classification (params : RepoParams) (w : World E) :
  Js.startsWith REPOSITORY_EMPTY "Repository access blocked" = false ->
  REPOSITORY_EMPTY <> legal_reasons_message ->
  let c0 := fresh_config params in
  let q := GraphqlRepoInfo (repositoryOwner c0) (repositoryName c0) in
  let raises (rem' : Remote) (e : JsError) : Prop :=
    initRepo setUp params w = (Throw e, after (with_config w c0) q rem') in
  (forall repo rem', http q (remote w) = (inr (Some repo), rem') ->
     (Js.truthy_opt (defaultBranchName repo) = false ->
      raises rem' (new_Error REPOSITORY_EMPTY)) /\
     (Js.truthy_opt (defaultBranchName repo) = true ->
      (Js.truthy_opt (gh_nameWithOwner repo) = true ->
       gh_nameWithOwner repo <> Some (rp_repository params) ->
       raises rem' (new_Error REPOSITORY_RENAMED)) /\
      (Js.truthy_opt (gh_nameWithOwner repo) = false \/
       gh_nameWithOwner repo = Some (rp_repository params) ->
       gh_isArchived repo = true ->
       raises rem' (new_Error REPOSITORY_ARCHIVED)))) /\
  (forall err rem', http q (remote w) = (inl err, rem') ->
     (already_classified err -> raises rem' err) /\
     (~ already_classified err ->
      (statusCode_is err 403 = true ->
       raises rem' (new_Error REPOSITORY_ACCESS_FORBIDDEN)) /\
      (statusCode_is err 403 = false -> statusCode_is err 404 = true ->
       raises rem' (new_Error REPOSITORY_NOT_FOUND)) /\
      (statusCode_is err 403 = false -> statusCode_is err 404 = false ->
       (Js.startsWith (message err) "Repository access blocked" = true ->
        raises rem' (new_Error REPOSITORY_BLOCKED)) /\
       (Js.startsWith (message err) "Repository access blocked" = false ->
        (message err = legal_reasons_message ->
         message err <> REPOSITORY_FORKED -> message err <> REPOSITORY_DISABLED ->
         raises rem' (new_Error REPOSITORY_ACCESS_FORBIDDEN)) /\
        (message err <> legal_reasons_message -> raises rem' err))))).
Proof.
  intros Hblocked Hlegal c0 q raises.
  assert (Hthrow : forall e e' w1 k,
            initRepo_catch e w1 = (Throw e', w1) ->
            (initRepo_catch e ≫= k) w1 = (@Throw RepoResult e', w1)).
  { intros e e' w1 k H. now apply bind_throw. }
  assert (Hself : forall e w1, already_classified e ->
            initRepo_catch e w1 = (Throw e, w1)).
  { intros e w1. apply initRepo_catch_cases. }
  split.
  - intros repo rem' Hh. unfold raises. rewrite initRepo_run. cbv zeta.
    fold c0 q. rewrite Hh. split; [|intros Hdb; split].
    + intros ->. cbn [negb]. apply Hthrow.
      destruct (initRepo_catch_cases (new_Error REPOSITORY_EMPTY)
                  (after (with_config w c0) q rem')) as [Hyes Hno].
      destruct (String.eqb_spec REPOSITORY_EMPTY REPOSITORY_ARCHIVED) as [Ha|Ha];
        [apply Hyes; left; exact Ha|].
      destruct (String.eqb_spec REPOSITORY_EMPTY REPOSITORY_RENAMED) as [Hr|Hr];
        [apply Hyes; right; left; exact Hr|].
      destruct (String.eqb_spec REPOSITORY_EMPTY REPOSITORY_NOT_FOUND) as [Hn|Hn];
        [apply Hyes; right; right; exact Hn|].
      assert (Hnc : ~ already_classified (new_Error REPOSITORY_EMPTY)).
      { intros [?|[?|?]]; contradiction. }
      destruct (Hno Hnc) as (_ & _ & Hrest).
      destruct (Hrest eq_refl eq_refl) as [_ Hnb].
      destruct (Hnb Hblocked) as [_ Hnl]. apply Hnl. exact Hlegal.
    + intros Hn Hne. rewrite Hdb, Hn. cbn [negb andb].
      replace (Js.strict_eq_opt _ _) with false.
      * cbn [negb]. apply Hthrow, Hself. right. left. reflexivity.
      * symmetry. apply not_true_is_false. intros (x & Hx & [= <-])%strict_eq_opt_true.
        contradiction.
    + intros Hsame Harch. rewrite Hdb, Harch. cbn [negb].
      replace (Js.truthy_opt (gh_nameWithOwner repo) && _) with false.
      * apply Hthrow, Hself. left. reflexivity.
      * symmetry. destruct Hsame as [-> | ->]; [reflexivity|].
        cbn [Js.strict_eq_opt]. rewrite String.eqb_refl. apply andb_false_r.
  - intros err rem' Hh. unfold raises. rewrite initRepo_run. cbv zeta.
    fold c0 q. rewrite Hh.
    destruct (initRepo_catch_cases err (after (with_config w c0) q rem'))
      as [Hyes Hno].
    split; [intros Hc; apply Hthrow, Hyes, Hc|].
    intros Hc. destruct (Hno Hc) as (H403 & H404 & Hrest).
    split; [intros H; apply Hthrow, H403, H|].
    split; [intros H H'; apply Hthrow, H404; assumption|].
    intros H H'. destruct (Hrest H H') as [Hb Hnb].
    split; [intros Hs; apply Hthrow, Hb, Hs|].
    intros Hs. destruct (Hnb Hs) as [Hl Hnl].
    split; [intros; apply Hthrow, Hl; assumption|].
    intros Hm. apply Hthrow, Hnl, Hm.
Qed.

End Init_properties.

Lemma initRepo_failure_classification_witness :
  (initRepo Examples.finish_init Examples.acme_app Examples.legal_block).1
  = Throw Examples.legal_block_error.
Proof.
  destruct (initRepo_failure_classification Examples.finish_init Examples.acme_app
              Examples.legal_block eq_refl ltac:(discriminate)) as [_ H].
  destruct (H Examples.legal_block_error _ eq_refl) as [_ Hno].
  destruct Hno as (_ & _ & Hrest).
  { intros [H1|[H1|H1]]; discriminate H1. }
  destruct (Hrest eq_refl eq_refl) as [_ Hnb].
  destruct (Hnb eq_refl) as [_ Hpass].
  rewrite Hpass; [reflexivity|discriminate].
Defined.

(** C8, as stated, fails: the query is refused with status 451, under a
    message that is not letter for letter the one the code compares
    with, and the error propagates unchanged instead of being classified
    as AccessForbidden. *)
Lemma initRepo_451_counterexample :
  (http (GraphqlRepoInfo "acme" (Some "app")) (remote Examples.legal_block)).1
    = inl Examples.legal_block_error /\
  statusCode Examples.legal_block_error = Some 451 /\
  (initRepo Examples.finish_init Examples.acme_app Examples.legal_block).1
    = Throw Examples.legal_block_error /\
  Examples.legal_block_error <> new_Error (@REPOSITORY_ACCESS_FORBIDDEN Sim.env).
Proof. vm_compute. repeat split. discriminate. Qed.

(** ** The pull request of a branch *)

Section Branch_pr_properties.

Context `{E : Env}.

Lemma getBranchPr_run (w w1 w2 : World E) branchName found :
  (forall p, branchPrs (config w) !! branchName <> Some (Some p)) ->
  findPr branchName None (Some PrState_Open) w = (Ok None, w1) ->
  findPr branchName None (Some PrState_Closed) w1 = (Ok found, w2) ->
  getBranchPr branchName w =
    match found with
    | None => (Ok None, w2)
    | Some pr =>
        if Js.endsWith (pr_title pr) autoclosed_suffix && Js.truthy_opt (pr_closedAt pr)
        then
          if closed_too_long_ago (now w2) (default "" (pr_closedAt pr))
          then (Ok None, w2)
          else
            let post := reopen_ref (config w2) branchName pr in
            let patch := reopen_patch (config w2) pr in
            match http post (remote w2) with
            | (inl _, r3) => (Ok None, after w2 post r3)
            | (inr _, r3) =>
                match http patch r3 with
                | (inl _, r4) => (Ok None, after (after w2 post r3) patch r4)
                | (inr _, r4) =>
                    getPr_and_remember branchName (pr_number pr)
                      (with_config (after (after w2 post r3) patch r4)
                         (invalidated (pr_number pr) (config w2)))
                end
            end
        else (Ok None, w2)
    end.
Proof.
  intros Hcache Hopen Hclosed. unfold getBranchPr.
  unfold mbind at 1, M_bind at 1, get_config at 1.
  cbn [config].
  destruct (branchPrs (config w) !! branchName) as [[p|]|] eqn:Hb;
    [exfalso; exact (Hcache p eq_refl)| |].
  all: unfold mbind at 1, M_bind at 1; rewrite Hopen.
  all: unfold mbind at 1, M_bind at 1; rewrite Hclosed.
  all: destruct found as [pr|]; [|reflexivity].
  all: destruct (Js.endsWith _ _ && _); [|reflexivity].
  all: unfold mbind at 1, M_bind at 1, get_now at 1.
  all: destruct (closed_too_long_ago _ _); [reflexivity|].
  all: unfold mbind at 1, M_bind at 1, get_config at 1.
  all: unfold mbind at 1, M_bind at 1; unfold try_catch at 1.
  all: unfold mbind at 1, M_bind at 1; unfold request at 1.
  all: cbv zeta; unfold reopen_ref, reopen_patch.
  all: destruct (http _ (remote w2)) as [[e|a] r3]; [reflexivity|].
  all: unfold mret at 1, M_ret at 1; cbn [negb].
  all: unfold mbind at 1, M_bind at 1; unfold try_catch at 1.
  all: unfold mbind at 1, M_bind at 1; unfold request at 1; cbn [remote].
  all: destruct (http _ r3) as [[e|a'] r4]; [reflexivity|].
  all: unfold mret at 1, M_ret at 1; cbn [negb].
  all: reflexivity.
Qed.

Lemma substring_full (s : string) : String.substring 0 (String.length s) s = s.
Proof. induction s as [|c s IH]; simpl; [reflexivity|now rewrite IH]. Qed.

Lemma substring_split (s : string) (k : nat) :
  (k <= String.length s)%nat ->
  String.substring 0 k s +:+ String.substring k (String.length s - k) s = s.
Proof.
  revert k. induction s as [|c s IH]; intros k Hk.
  - destruct k; reflexivity.
  - destruct k as [|k].
    + rewrite Nat.sub_0_r, substring_full. reflexivity.
    + simpl in Hk.
      change (String c (String.substring 0 k s
                        +:+ String.substring k (String.length s - k) s)
              = String c s).
      f_equal. apply IH. lia.
Qed.

Lemma strip_autoclosed_suffix (title : string) :
  Js.endsWith title autoclosed_suffix = true ->
  strip_autoclosed title +:+ autoclosed_suffix = title.
Proof.
  intros H. unfold strip_autoclosed. rewrite H. unfold Js.endsWith in H.
  set (n := String.length title) in *. set (m := String.length autoclosed_suffix) in *.
  destruct (m <=? n)%nat eqn:Hle; [|discriminate].
  apply Nat.leb_le in Hle. apply String.eqb_eq in H.
  pose proof (substring_split title (n - m)) as Hsplit. fold n in Hsplit.
  replace (n - (n - m))%nat with m in Hsplit by lia.
  rewrite H in Hsplit. apply Hsplit. lia.
Qed.

Lemma findPr_frame (w w' : World E) branchName prTitle state r :
  findPr branchName prTitle state w = (r, w') ->
  now w' = now w.
Proof.
  rewrite findPr_run, getPrList_run.
  destruct (prList (config w)) as [l|].
  - intros [= _ <-]. reflexivity.
  - cbv zeta. destruct (http _ (remote w)) as [[e|raw] rem']; intros [= _ <-]; reflexivity.
Qed.

(** [getPr] on a session without open-PR cache, when the open-PR query
    answers with a node for the number. *)
Lemma getPr_refreshed (w5 : World E) number nodes r5 p :
  number <> 0 ->
  openPrList (config w5) = None ->
  let c5 := config w5 in
  let q := GraphqlOpenPrs (repositoryOwner c5) (repositoryName c5) in
  http q (remote w5) = (inr (Some nodes), r5) ->
  index_by_number (openPr_of_node c5) nodes !! number = Some p ->
  getPr number w5 =
    (Ok (Some p),
     with_config (after w5 q r5)
       (set_openPrList (Some (index_by_number (openPr_of_node c5) nodes)) c5)).
Proof.
  intros Hn Hnone c5 q Hh Hp. unfold getPr.
  apply Z.eqb_neq in Hn. rewrite Hn.
  unfold mbind at 1, M_bind at 1. unfold getOpenPrs.
  unfold mbind at 1, M_bind at 1, get_config at 1. rewrite Hnone. fold c5.
  unfold mbind at 1, M_bind at 1, modify_config at 1.
  unfold mbind at 1, M_bind at 1. unfold try_catch at 1.
  unfold mbind at 1, M_bind at 1. unfold request at 1. cbn [remote]. fold q. rewrite Hh.
  destruct nodes as [|node nodes];
    [unfold index_by_number in Hp; cbn [fold_left] in Hp;
     rewrite lookup_empty in Hp; discriminate|].
  unfold mbind at 1, M_bind at 1, modify_config at 1.
  unfold mret at 1, M_ret at 1.
  unfold mbind at 1, M_bind at 1, get_config at 1.
  unfold mret at 1, M_ret at 1. cbn [config openPrList set_openPrList from_option id].
  rewrite Hp. reflexivity.
Qed.

Lemma index_by_number_lookup (conv : GhGraphQlPr -> Pr) (nodes : list GhGraphQlPr)
    (n : Z) (p : Pr) :
  index_by_number conv nodes !! n = Some p ->
  exists node, In node nodes /\ gql_number node = n /\ p = conv node.
Proof.
  unfold index_by_number.
  assert (H : forall (m : gmap Z Pr),
             fold_left (fun m pr => <[gql_number pr := conv pr]> m) nodes m !! n = Some p ->
             m !! n = Some p \/
             exists node, In node nodes /\ gql_number node = n /\ p = conv node).
  { induction nodes as [|node nodes IH]; intros m Hm; [left; exact Hm|].
    cbn [fold_left] in Hm. destruct (IH _ Hm) as [Hl|(x & Hin & Hx)].
    - destruct (decide (gql_number node = n)) as [Heq|Hne].
      + rewrite Heq, lookup_insert_eq in Hl. injection Hl as <-.
        right. exists node. split; [left; reflexivity|]. split; [exact Heq|reflexivity].
      + rewrite lookup_insert_ne in Hl by exact Hne. left. exact Hl.
    - right. exists x. split; [right; exact Hin|exact Hx]. }
  intros Hm. destruct (H ∅ Hm) as [Hl|Hx]; [|exact Hx].
  rewrite lookup_empty in Hl. discriminate.
Qed.
(** C2, as the code has it.  With no cached pointer and no open pull
    request for the branch, [getBranchPr] takes the first closed pull
    request of the branch.  It returns nothing, and sends nothing, when
    there is none, when its title does not end with [ - autoclosed], when
    it has no close timestamp, or when it was closed more than
    604,800,000 ms (7 days) ago.  Otherwise, so also when it was closed
    exactly 7 days ago, it recreates the branch ref and reopens the pull
    request under the title without the suffix; a failure of either
    request makes it return nothing rather than raise.  After that it
    drops the open-PR cache and the closed-PR entry and returns what
    [getPr] finds: the record of the refreshed open-PR list when there is
    one, which it also keeps as the pointer of the branch; the remote
    service reporting the title it was sent, the title of that record is
    the old one without the suffix. *)
Theorem getBranchPr_reopens_autoclosed (w w1 w2 : World E) branchName found :
  (forall p, branchPrs (config w) !! branchName <> Some (Some p)) ->
  findPr branchName None (Some PrState_Open) w = (Ok None, w1) ->
  findPr branchName None (Some PrState_Closed) w1 = (Ok found, w2) ->
  REOPEN_THRESHOLD_MILLIS = 604800000 /\
  (found = None -> getBranchPr branchName w = (Ok None, w2)) /\
  (forall pr, found = Some pr ->
     let post := reopen_ref (config w2) branchName pr in
     let patch := reopen_patch (config w2) pr in
     (Js.endsWith (pr_title pr) " - autoclosed" = false \/
      Js.truthy_opt (pr_closedAt pr) = false ->
      getBranchPr branchName w = (Ok None, w2)) /\
     (forall d,
        Js.endsWith (pr_title pr) " - autoclosed" = true ->
        pr_closedAt pr = Some d -> Js.truthy d = true ->
        (forall t, fromISO d = Some t -> 604800000 < now w - t ->
           getBranchPr branchName w = (Ok None, w2)) /\
        (fromISO d = None \/ (exists t, fromISO d = Some t /\ now w - t <= 604800000) ->
         strip_autoclosed (pr_title pr) +:+ " - autoclosed" = pr_title pr /\
         (forall e r3, http post (remote w2) = (inl e, r3) ->
            getBranchPr branchName w = (Ok None, after w2 post r3)) /\
         (forall a r3 e r4,
            http post (remote w2) = (inr a, r3) -> http patch r3 = (inl e, r4) ->
            getBranchPr branchName w = (Ok None, after (after w2 post r3) patch r4)) /\
         (forall a r3 a' r4,
            http post (remote w2) = (inr a, r3) -> http patch r3 = (inr a', r4) ->
            let w5 := with_config (after (after w2 post r3) patch r4)
                        (invalidated (pr_number pr) (config w2)) in
            let refresh :=
              GraphqlOpenPrs (repositoryOwner (config w2)) (repositoryName (config w2)) in
            getBranchPr branchName w = getPr_and_remember branchName (pr_number pr) w5 /\
            (forall nodes r5 p,
               pr_number pr <> 0 ->
               http refresh r4 = (inr (Some nodes), r5) ->
               index_by_number (openPr_of_node (config w5)) nodes !! pr_number pr = Some p ->
               exists w',
                 getBranchPr branchName w = (Ok (Some p), w') /\
                 journal w' = (journal w2 ++ [post; patch; refresh])%list /\
                 branchPrs (config w') !! branchName = Some (Some p) /\
                 ((forall node, In node nodes -> gql_number node = pr_number pr ->
                     gql_title node = strip_autoclosed (pr_title pr)) ->
                  pr_title p +:+ " - autoclosed" = pr_title pr)))))).
Proof.
  intros Hcache Hopen Hclosed.
  pose proof (getBranchPr_run _ _ _ _ _ Hcache Hopen Hclosed) as Hrun.
  assert (Hnow : now w2 = now w).
  { rewrite (findPr_frame _ _ _ _ _ _ Hclosed). exact (findPr_frame _ _ _ _ _ _ Hopen). }
  split; [reflexivity|]. split; [intros ->; exact Hrun|].
  intros pr -> post patch.
  change autoclosed_suffix with " - autoclosed" in Hrun.
  split.
  { intros [Hx|Hx]; rewrite Hx in Hrun; [|rewrite andb_false_r in Hrun]; exact Hrun. }
  intros d Hends Hd Htd. rewrite Hends, Hd in Hrun.
  cbn [Js.truthy_opt andb from_option id] in Hrun. rewrite Htd in Hrun.
  unfold closed_too_long_ago in Hrun. rewrite Hnow in Hrun.
  change REOPEN_THRESHOLD_MILLIS with 604800000 in Hrun.
  split.
  { intros t Ht Hlt. rewrite Ht in Hrun.
    apply Z.ltb_lt in Hlt. rewrite Hlt in Hrun. exact Hrun. }
  intros Hfresh.
  assert (Hgo : match fromISO d with
                | Some t => 604800000 <? now w - t
                | None => false
                end = false).
  { destruct Hfresh as [-> | (t & -> & Hle)]; [reflexivity|].
    apply Z.ltb_ge. exact Hle. }
  rewrite Hgo in Hrun. cbv zeta in Hrun. fold post patch in Hrun.
  split; [exact (strip_autoclosed_suffix _ Hends)|].
  split; [intros e r3 H3; rewrite H3 in Hrun; exact Hrun|].
  split; [intros a r3 e r4 H3 H4; rewrite H3, H4 in Hrun; exact Hrun|].
  intros a r3 a' r4 H3 H4 w5 refresh. rewrite H3, H4 in Hrun. fold w5 in Hrun.
  split; [exact Hrun|].
  intros nodes r5 p Hn Hq Hp.
  rewrite Hrun. unfold getPr_and_remember.
  unfold mbind at 1, M_bind at 1.
  rewrite (getPr_refreshed w5 (pr_number pr) nodes r5 p Hn eq_refl Hq Hp).
  unfold mbind, M_bind, modify_config, mret, M_ret.
  eexists. split; [reflexivity|]. split; [|split].
  - unfold w5. cbn [journal with_config after config].
    rewrite <- !app_assoc. reflexivity.
  - cbn [journal with_config after config branchPrs set_branchPrs].
    apply lookup_insert_eq.
  - intros Hremote.
    destruct (index_by_number_lookup _ _ _ _ Hp) as (node & Hin & Hnum & ->).
    cbn [pr_title openPr_of_node]. rewrite (Hremote node Hin Hnum).
    exact (strip_autoclosed_suffix _ Hends).
Qed.
End Branch_pr_properties.

Lemma getBranchPr_reopens_autoclosed_witness :
  (exists p w',
     getBranchPr "renovate/dep" Examples.one_day_later = (Ok (Some p), w') /\
     pr_title p = "Update dep" /\ pr_state p = "open") /\
  (getBranchPr "renovate/dep" Examples.eight_days_later).1 = Ok None.
Proof.
  split.
  - assert (Hcache : forall p,
              branchPrs (config Examples.one_day_later) !! "renovate/dep"
              <> Some (Some p)).
    { intros p. discriminate. }
    assert (Hopen : findPr "renovate/dep" None (Some "open") Examples.one_day_later
                    = (Ok None, Examples.after_open_search Examples.one_day_later)).
    { vm_compute. reflexivity. }
    assert (Hclosed : findPr "renovate/dep" None (Some "closed")
                        (Examples.after_open_search Examples.one_day_later)
                      = (Ok (Some Examples.autoclosed_record),
                         Examples.after_closed_search Examples.one_day_later)).
    { vm_compute. reflexivity. }
    destruct (getBranchPr_reopens_autoclosed _ _ _ _ _ Hcache Hopen Hclosed)
      as (_ & _ & H).
    destruct (H _ eq_refl) as (_ & H').
    destruct (H' "2021-11-01T00:00:00.000Z" eq_refl eq_refl eq_refl) as (_ & Hfresh).
    destruct Hfresh as (_ & _ & _ & Hre).
    { right. exists Examples.closed_instant. split; [reflexivity|]. vm_compute. discriminate. }
    destruct (Hre tt _ tt _ eq_refl eq_refl) as (_ & Hfin).
    destruct (Hfin _ _ _ ltac:(discriminate) eq_refl eq_refl) as (w' & Hrun & _).
    eexists _, w'. split; [exact Hrun|]. split; reflexivity.
  - assert (Hcache : forall p,
              branchPrs (config Examples.eight_days_later) !! "renovate/dep"
              <> Some (Some p)).
    { intros p. discriminate. }
    assert (Hopen : findPr "renovate/dep" None (Some "open") Examples.eight_days_later
                    = (Ok None, Examples.after_open_search Examples.eight_days_later)).
    { vm_compute. reflexivity. }
    assert (Hclosed : findPr "renovate/dep" None (Some "closed")
                        (Examples.after_open_search Examples.eight_days_later)
                      = (Ok (Some Examples.autoclosed_record),
                         Examples.after_closed_search Examples.eight_days_later)).
    { vm_compute. reflexivity. }
    destruct (getBranchPr_reopens_autoclosed _ _ _ _ _ Hcache Hopen Hclosed)
      as (_ & _ & H).
    destruct (H _ eq_refl) as (_ & H').
    destruct (H' "2021-11-01T00:00:00.000Z" eq_refl eq_refl eq_refl) as (Hstale & _).
    rewrite (Hstale Examples.closed_instant eq_refl eq_refl). reflexivity.
Defined.

(** C2, as stated, fails on the bound: a pull request autoclosed exactly
    604,800,000 ms ago, which is not less than 7 days, is reopened. *)
Lemma getBranchPr_seven_days_counterexample :
  let w := Examples.seven_days_later in
  let run := getBranchPr "renovate/dep" w in
  Sim.parse_date "2021-11-01T00:00:00.000Z" = Some Examples.closed_instant /\
  now w - Examples.closed_instant = 604800000 /\
  ~ (now w - Examples.closed_instant < 604800000) /\
  List.map (fun pr => (rest_title pr, rest_state pr, rest_closed_at pr))
    (Sim.sim_pulls (remote w))
    = [("Update dep - autoclosed", "closed", Some "2021-11-01T00:00:00.000Z")] /\
  List.filter (fun r => match r with PatchPull _ _ _ _ => true | _ => false end)
    (journal run.2)
    = [PatchPull (Some "acme/app") 4 "open" "Update dep"] /\
  (exists p, run.1 = Ok (Some p) /\ pr_title p = "Update dep" /\ pr_state p = "open").
Proof.
  vm_compute. repeat split; try discriminate. eexists. repeat split.
Qed.

(** * Further properties *)

(** ** Pull-request caches *)

Section Cache_properties.

Context `{E : Env}.

(** What [getOpenPrs] does on a session without open-PR cache. *)
Lemma getOpenPrs_fresh (w : World E) :
  openPrList (config w) = None ->
  let c := config w in
  let q := GraphqlOpenPrs (repositoryOwner c) (repositoryName c) in
  getOpenPrs w =
    match http q (remote w) with
    | (inr (Some (node :: nodes)), rem') =>
        let m := index_by_number (openPr_of_node c) (node :: nodes) in
        (Ok m, with_config (after w q rem') (set_openPrList (Some m) c))
    | (_, rem') =>
        (Ok ∅, with_config (after w q rem') (set_openPrList (Some ∅) c))
    end.
Proof.
  intros Hnone c q. unfold getOpenPrs.
  unfold mbind at 1, M_bind at 1, get_config at 1. rewrite Hnone. fold c.
  unfold mbind at 1, M_bind at 1, modify_config at 1.
  unfold mbind at 1, M_bind at 1. unfold try_catch at 1.
  unfold mbind at 1, M_bind at 1. unfold request at 1. cbn [remote]. fold q.
  destruct (http q (remote w)) as [[e|[[|node nodes]|]] rem']; reflexivity.
Qed.

Lemma getOpenPrs_cached (w : World E) m :
  openPrList (config w) = Some m -> getOpenPrs w = (Ok m, w).
Proof.
  intros H. unfold getOpenPrs. unfold mbind at 1, M_bind at 1, get_config at 1.
  rewrite H. reflexivity.
Qed.

(** X1. [getOpenPrs] never raises and fills the open-PR cache: the map
    it returns is the cache afterwards and a further call returns it
    without a request; a cache that is there is returned as it is, and a
    missing one costs exactly one query, also when that query fails. *)
Theorem getOpenPrs_populates_once (w : World E) :
  exists m w',
    getOpenPrs w = (Ok m, w') /\
    openPrList (config w') = Some m /\
    getOpenPrs w' = (Ok m, w') /\
    (forall m0, openPrList (config w) = Some m0 -> m = m0 /\ w' = w) /\
    (openPrList (config w) = None ->
     journal w' =
       (journal w ++
        [GraphqlOpenPrs (repositoryOwner (config w)) (repositoryName (config w))])%list).
Proof.
  destruct (openPrList (config w)) as [m0|] eqn:Hc.
  - exists m0, w. rewrite (getOpenPrs_cached w m0 Hc).
    repeat split; try assumption; try congruence.
  - rewrite (getOpenPrs_fresh w Hc). cbv zeta.
    destruct (http _ (remote w)) as [[e|[[|node nodes]|]] rem'];
      eexists _, _; (split; [reflexivity|]);
      (split; [reflexivity|]);
      (split; [apply getOpenPrs_cached; reflexivity|]);
      (split; [discriminate|reflexivity]).
Qed.

Lemma getClosedPrs_fresh (w : World E) :
  closedPrList (config w) = None ->
  let c := config w in
  let q := GraphqlClosedPrs (repositoryOwner c) (repositoryName c) in
  getClosedPrs w =
    match http q (remote w) with
    | (inr (Some (node :: nodes)), rem') =>
        let m := index_by_number closedPr_of_node (node :: nodes) in
        (Ok m, with_config (after w q rem') (set_closedPrList (Some m) c))
    | (_, rem') =>
        (Ok ∅, with_config (after w q rem') (set_closedPrList (Some ∅) c))
    end.
Proof.
  intros Hnone c q. unfold getClosedPrs.
  unfold mbind at 1, M_bind at 1, get_config at 1. rewrite Hnone. fold c.
  unfold mbind at 1, M_bind at 1, modify_config at 1.
  unfold mbind at 1, M_bind at 1. unfold try_catch at 1.
  unfold mbind at 1, M_bind at 1. unfold request at 1. cbn [remote]. fold q.
  destruct (http q (remote w)) as [[e|[[|node nodes]|]] rem']; reflexivity.
Qed.

Lemma getClosedPrs_cached (w : World E) m :
  closedPrList (config w) = Some m -> getClosedPrs w = (Ok m, w).
Proof.
  intros H. unfold getClosedPrs. unfold mbind at 1, M_bind at 1, get_config at 1.
  rewrite H. reflexivity.
Qed.

(** Every node is stored under its number; where several nodes bear one
    number, a node of that number is. *)
Lemma index_by_number_stored (conv : GhGraphQlPr -> Pr) (nodes : list GhGraphQlPr)
    (node : GhGraphQlPr) :
  In node nodes ->
  exists node', In node' nodes /\ gql_number node' = gql_number node /\
                index_by_number conv nodes !! gql_number node = Some (conv node').
Proof.
  unfold index_by_number. induction nodes as [|x l IH] using rev_ind; [intros []|].
  intros Hin. rewrite fold_left_app. cbn [fold_left].
  destruct (decide (gql_number x = gql_number node)) as [Heq|Hne].
  - exists x. split; [apply in_or_app; right; left; reflexivity|].
    split; [exact Heq|]. rewrite Heq. apply lookup_insert_eq.
  - apply in_app_or in Hin as [Hin|[->|[]]]; [|congruence].
    destruct (IH Hin) as (node' & Hin' & Hn & Hl).
    exists node'. split; [apply in_or_app; left; exact Hin'|]. split; [exact Hn|].
    rewrite lookup_insert_ne by exact Hne. exact Hl.
Qed.

Lemma same_number_same_node (nodes : list GhGraphQlPr) (a b : GhGraphQlPr) :
  List.NoDup (List.map gql_number nodes) -> In a nodes -> In b nodes ->
  gql_number a = gql_number b -> a = b.
Proof.
  induction nodes as [|x l IH]; intros Hnd Ha Hb Heq; [destruct Ha|].
  cbn [List.map] in Hnd. apply List.NoDup_cons_iff in Hnd as [Hx Hnd].
  destruct Ha as [<-|Ha], Hb as [<-|Hb]; [reflexivity| | |exact (IH Hnd Ha Hb Heq)].
  - exfalso. apply Hx. rewrite Heq. now apply in_map.
  - exfalso. apply Hx. rewrite <- Heq. now apply in_map.
Qed.

(** X2. [getClosedPrs] never raises and fills the closed-PR cache: the
    map it returns is the cache afterwards, a further call returns it
    without a request, a cache that is there is returned as it is, and
    a missing one costs exactly one query.  Of the nodes that query
    returns, every one is stored under its number (where two nodes bear
    one number, one of them is), and everything stored is the record of
    a node: its number, the placeholder body, and the comments the node
    came with.  A query that fails or returns nothing leaves an empty
    cache. *)
Theorem getClosedPrs_populates_once (w : World E) :
  let q := GraphqlClosedPrs (repositoryOwner (config w)) (repositoryName (config w)) in
  exists m w',
    getClosedPrs w = (Ok m, w') /\
    closedPrList (config w') = Some m /\
    getClosedPrs w' = (Ok m, w') /\
    (forall m0, closedPrList (config w) = Some m0 -> m = m0 /\ w' = w) /\
    (closedPrList (config w) = None -> journal w' = (journal w ++ [q])%list) /\
    (forall n p, closedPrList (config w) = None -> m !! n = Some p ->
       pr_number p = n /\ pr_body p = Some "dummy body" /\ is_Some (pr_comments p)) /\
    (closedPrList (config w) = None ->
     forall nodes rem', http q (remote w) = (inr (Some nodes), rem') ->
       (forall node, In node nodes ->
          exists node', In node' nodes /\ gql_number node' = gql_number node /\
                        m !! gql_number node = Some (closedPr_of_node node')) /\
       (List.NoDup (List.map gql_number nodes) ->
        forall node, In node nodes ->
          m !! gql_number node = Some (closedPr_of_node node)) /\
       (forall n p, m !! n = Some p ->
          exists node, In node nodes /\ gql_number node = n /\
                       pr_title p = gql_title node /\
                       pr_sourceBranch p = Some (gql_headRefName node) /\
                       pr_state p = Js.toLowerCase (gql_state node) /\
                       pr_body p = Some "dummy body" /\
                       pr_comments p = Some (gql_comments_nodes node))) /\
    (closedPrList (config w) = None ->
     (forall e rem', http q (remote w) = (inl e, rem') -> m = ∅) /\
     (forall rem', http q (remote w) = (inr None, rem') -> m = ∅)).
Proof.
  intros q. destruct (closedPrList (config w)) as [m0|] eqn:Hc.
  - exists m0, w. rewrite (getClosedPrs_cached w m0 Hc).
    repeat split; try assumption; try congruence; discriminate.
  - rewrite (getClosedPrs_fresh w Hc). cbv zeta. fold q.
    assert (Hrec : forall nodes n p,
              index_by_number closedPr_of_node nodes !! n = Some p ->
              pr_number p = n /\ pr_body p = Some "dummy body" /\ is_Some (pr_comments p)).
    { intros nodes n p Hp.
      destruct (index_by_number_lookup _ _ _ _ Hp) as (node & _ & Hn & ->).
      cbn. split; [exact Hn|]. split; [reflexivity|]. eexists. reflexivity. }
    assert (Hfetched : forall nodes,
       (forall node, In node nodes ->
          exists node', In node' nodes /\ gql_number node' = gql_number node /\
                        index_by_number closedPr_of_node nodes !! gql_number node
                        = Some (closedPr_of_node node')) /\
       (List.NoDup (List.map gql_number nodes) ->
        forall node, In node nodes ->
          index_by_number closedPr_of_node nodes !! gql_number node
          = Some (closedPr_of_node node)) /\
       (forall n p, index_by_number closedPr_of_node nodes !! n = Some p ->
          exists node, In node nodes /\ gql_number node = n /\
                       pr_title p = gql_title node /\
                       pr_sourceBranch p = Some (gql_headRefName node) /\
                       pr_state p = Js.toLowerCase (gql_state node) /\
                       pr_body p = Some "dummy body" /\
                       pr_comments p = Some (gql_comments_nodes node))).
    { intros nodes. split; [|split].
      - intros node Hin. exact (index_by_number_stored closedPr_of_node nodes node Hin).
      - intros Hnd node Hin.
        destruct (index_by_number_stored closedPr_of_node nodes node Hin)
          as (node' & Hin' & Hn & Hl).
        rewrite (same_number_same_node nodes node node' Hnd Hin Hin' (eq_sym Hn)).
        rewrite Hn. exact Hl.
      - intros n p Hp.
        destruct (index_by_number_lookup _ _ _ _ Hp) as (node & Hin & Hn & ->).
        exists node. repeat split; assumption. }
    destruct (http q (remote w)) as [[e|[[|node nodes]|]] rem'];
      eexists _, _; (split; [reflexivity|]);
      (split; [reflexivity|]);
      (split; [apply getClosedPrs_cached; reflexivity|]);
      (split; [discriminate|]); (split; [reflexivity|]);
      (split; [intros n p _ Hp; try (rewrite lookup_empty in Hp; discriminate);
               exact (Hrec _ _ _ Hp)|]);
      (split; [intros _ nodes0 rem0 [= <- _]; try exact (Hfetched _);
               try exact (Hfetched [])
              |intros _; split; [intros e0 rem0 Hq|intros rem0 Hq];
               try reflexivity; discriminate Hq]).
Qed.

(** The record built from one node of the open-PR query. *)
Lemma openPr_of_node_facts (c : LocalRepoConfig) (node : GhGraphQlPr) :
  let p := openPr_of_node c node in
  pr_number p = gql_number node /\
  pr_state p = PrState_Open /\
  (pr_canMerge p = Some false <-> is_Some (pr_canMergeReason p)) /\
  (pr_canMerge p = Some true <-> pr_canMergeReason p = None) /\
  (pr_isConflicted p = Some true <-> gql_mergeStateStatus node = Some "DIRTY") /\
  (pr_isConflicted p = Some true -> pr_canMerge p = Some false) /\
  (forall r rs, gql_reviews_nodes node = Some (r :: rs) ->
     pr_canMerge p = Some false /\ pr_canMergeReason p = Some "hasNegativeReview").
Proof.
  intros p. subst p. unfold openPr_of_node.
  cbn [pr_number pr_state pr_canMerge pr_canMergeReason pr_isConflicted].
  set (neg := match gql_reviews_nodes node with
              | Some l => (0 <? length l)%nat
              | None => false
              end).
  set (inc := match gql_mergeStateStatus node with
              | Some s => Js.includes canMergeStates s
              | None => false
              end).
  set (blk := Js.truthy_opt (forkToken c)
              && Js.strict_eq_opt (gql_mergeStateStatus node) (Some "BLOCKED")).
  assert (Hdirty : Js.strict_eq_opt (gql_mergeStateStatus node) (Some "DIRTY") = true
                   <-> gql_mergeStateStatus node = Some "DIRTY").
  { rewrite strict_eq_opt_true. split.
    - intros (x & -> & [= <-]). reflexivity.
    - intros ->. eauto. }
  assert (Hd : gql_mergeStateStatus node = Some "DIRTY" -> inc = false /\ blk = false).
  { intros Hm. subst inc blk. rewrite Hm. split; [reflexivity|apply andb_false_r]. }
  split; [reflexivity|]. split; [reflexivity|].
  split; [|split; [|split; [|split]]].
  - destruct neg, inc, blk; cbn [fst snd]; split; try discriminate;
      try (intros [x [=]]); try (intros _; eexists; reflexivity); reflexivity.
  - destruct neg, inc, blk; cbn [fst snd]; split; try discriminate; reflexivity.
  - split.
    + intros [= H]. apply Hdirty, H.
    + intros H%Hdirty. rewrite H. reflexivity.
  - intros [= H]. apply Hdirty in H. destruct (Hd H) as [-> ->].
    destruct neg; reflexivity.
  - intros r rs Hr. subst neg. rewrite Hr. cbn. split; reflexivity.
Qed.

(** X3. Every record [getOpenPrs] fetches is stored under its own
    number and is open; it is marked as not mergeable exactly when a
    reason says why, and a conflicted pull request is never mergeable. *)
Theorem getOpenPrs_fetched_records (w w' : World E) (m : gmap Z Pr) :
  openPrList (config w) = None ->
  getOpenPrs w = (Ok m, w') ->
  forall n p, m !! n = Some p ->
    pr_number p = n /\
    pr_state p = PrState_Open /\
    (pr_canMerge p = Some false <-> is_Some (pr_canMergeReason p)) /\
    (pr_canMerge p = Some true <-> pr_canMergeReason p = None) /\
    (pr_isConflicted p = Some true -> pr_canMerge p = Some false).
Proof.
  intros Hnone Hrun n p Hp. rewrite (getOpenPrs_fresh w Hnone) in Hrun. cbv zeta in Hrun.
  assert (Hidx : exists nodes, m = index_by_number (openPr_of_node (config w)) nodes).
  { destruct (http _ (remote w)) as [[e|[[|node nodes]|]] rem'];
      injection Hrun as <- _; try (exists []; reflexivity).
    eexists. reflexivity. }
  destruct Hidx as (nodes & ->).
  destruct (index_by_number_lookup _ _ _ _ Hp) as (node & _ & Hn & ->).
  destruct (openPr_of_node_facts (config w) node) as (H1 & H2 & H3 & H4 & _ & H6 & _).
  rewrite <- Hn. repeat split; try assumption; try apply H3; try apply H4.
Qed.

(** [getPr] when both caches are there. *)
Lemma getPr_with_caches (w : World E) prNo mo mc :
  prNo <> 0 ->
  openPrList (config w) = Some mo ->
  closedPrList (config w) = Some mc ->
  getPr prNo w =
    match mo !! prNo with
    | Some p => (Ok (Some p), w)
    | None =>
        match mc !! prNo with
        | Some p => (Ok (Some p), w)
        | None =>
            let q := GetPull (parentOrRepository (config w)) prNo in
            match http q (remote w) with
            | (inl e, rem') => (Throw e, after w q rem')
            | (inr None, rem') => (Ok None, after w q rem')
            | (inr (Some pr), rem') => (Ok (Some (restPr_harmonise pr)), after w q rem')
            end
        end
    end.
Proof.
  intros Hn Ho Hc. unfold getPr. apply Z.eqb_neq in Hn. rewrite Hn.
  unfold mbind at 1, M_bind at 1. unfold getOpenPrs.
  unfold mbind at 1, M_bind at 1, get_config at 1. rewrite Ho.
  unfold mret at 1, M_ret at 1.
  destruct (mo !! prNo) as [p|]; [reflexivity|].
  unfold mbind at 1, M_bind at 1. unfold getClosedPrs.
  unfold mbind at 1, M_bind at 1, get_config at 1. rewrite Hc.
  unfold mret at 1, M_ret at 1.
  destruct (mc !! prNo) as [p|]; [reflexivity|].
  unfold mbind at 1, M_bind at 1, get_config at 1.
  unfold mbind at 1, M_bind at 1, request at 1. cbv zeta.
  destruct (http _ (remote w)) as [[e|[pr|]] rem']; reflexivity.
Qed.

(** X4. With both caches populated, [getPr] answers from the open-PR
    cache first and from the closed-PR cache next, in either case without
    a request and without touching the session; only a number that is in
    neither cache is fetched on its own, from the parent repository when
    there is one: a failure of that request is raised, an empty body
    gives null, and the record of a pull request that is not open carries
    neither source branch nor mergeability. *)
Theorem getPr_lookup_order (w : World E) prNo mo mc :
  prNo <> 0 ->
  openPrList (config w) = Some mo ->
  closedPrList (config w) = Some mc ->
  (forall p, mo !! prNo = Some p -> getPr prNo w = (Ok (Some p), w)) /\
  (forall p, mo !! prNo = None -> mc !! prNo = Some p ->
     getPr prNo w = (Ok (Some p), w)) /\
  (mo !! prNo = None -> mc !! prNo = None ->
   let q := GetPull (parentOrRepository (config w)) prNo in
   (forall e rem', http q (remote w) = (inl e, rem') ->
      getPr prNo w = (Throw e, after w q rem')) /\
   (forall rem', http q (remote w) = (inr None, rem') ->
      getPr prNo w = (Ok None, after w q rem')) /\
   (forall pr rem', http q (remote w) = (inr (Some pr), rem') ->
      exists p,
        getPr prNo w = (Ok (Some p), after w q rem') /\
        pr_title p = rest_title pr /\ pr_state p = rest_state pr /\
        (rest_state pr <> PrState_Open ->
         pr_sourceBranch p = None /\ pr_sha p = None /\ pr_canMerge p = None) /\
        (rest_state pr = PrState_Open ->
         pr_sourceBranch p = Some (head_ref (rest_head pr)) /\
         (pr_canMerge p = Some true <-> rest_mergeable pr = Some true) /\
         (pr_canMerge p = Some false <-> rest_mergeable pr <> Some true)))).
Proof.
  intros Hn Ho Hc. pose proof (getPr_with_caches w prNo mo mc Hn Ho Hc) as Hrun.
  split; [|split].
  - intros p Hp. rewrite Hp in Hrun. exact Hrun.
  - intros p Hnone Hp. rewrite Hnone, Hp in Hrun. exact Hrun.
  - intros Hnone Hnone' q. rewrite Hnone, Hnone' in Hrun. cbv zeta in Hrun. fold q in Hrun.
    split; [|split].
    + intros e rem' Hh. rewrite Hh in Hrun. exact Hrun.
    + intros rem' Hh. rewrite Hh in Hrun. exact Hrun.
    + intros pr rem' Hh. rewrite Hh in Hrun. eexists. split; [exact Hrun|].
      unfold restPr_harmonise. cbn [pr_title pr_state pr_sourceBranch pr_sha pr_canMerge].
      split; [reflexivity|]. split; [reflexivity|]. split.
      * intros Hs. apply String.eqb_neq in Hs. rewrite Hs. repeat split.
      * intros Hs. rewrite Hs, String.eqb_refl. split; [reflexivity|].
        destruct (rest_mergeable pr) as [[|]|]; split; split; congruence.
Qed.

(** X5. [getPrList] keeps what it fetched: after a successful call the
    list is cached and a further call returns it without any request.
    Without a cache it sends one listing request: when the remote
    answers, the call succeeds and caches the list; when the remote
    refuses, the call raises the failure wrapped as an
    [ExternalHostError] and leaves the session without cache, so that
    the next call asks again.  It raises in no other way. *)
Theorem getPrList_cache (w : World E) :
  let q := GetPullsAll (parentOrRepository (config w)) in
  (forall l w', getPrList w = (Ok l, w') ->
     prList (config w') = Some l /\ getPrList w' = (Ok l, w')) /\
  (forall e w', getPrList w = (Throw e, w') ->
     instanceof_ExternalHostError e = true /\
     prList (config w) = None /\ prList (config w') = None /\
     journal w' = (journal w ++ [q])%list /\
     exists e0 rem', http q (remote w) = (inl e0, rem') /\
                     e = ExternalHostError e0 /\ w' = after w q rem') /\
  (prList (config w) = None ->
   (forall e0 rem', http q (remote w) = (inl e0, rem') ->
      getPrList w = (Throw (ExternalHostError e0), after w q rem') /\
      prList (config (after w q rem')) = None) /\
   (forall raw rem', http q (remote w) = (inr raw, rem') ->
      let l := List.map listPr_of_rest (List.filter (keeps_author (config w)) raw) in
      getPrList w = (Ok l, with_config (after w q rem') (set_prList (Some l) (config w))))).
Proof.
  intros q. rewrite getPrList_run. split; [|split].
  - intros l w' Hrun.
    assert (Hc : prList (config w') = Some l).
    { destruct (prList (config w)) as [l0|] eqn:Hp.
      - injection Hrun as <- <-. exact Hp.
      - cbv zeta in Hrun. destruct (http _ (remote w)) as [[e|raw] rem'];
          [discriminate|]. injection Hrun as <- <-. reflexivity. }
    split; [exact Hc|]. rewrite getPrList_run, Hc. reflexivity.
  - intros e w' Hrun. destruct (prList (config w)) as [l0|] eqn:Hp; [discriminate|].
    cbv zeta in Hrun. fold q in Hrun.
    destruct (http q (remote w)) as [[e0|raw] rem']; [|discriminate].
    injection Hrun as <- <-. repeat split; try assumption.
    exists e0, rem'. repeat split.
  - intros Hp. rewrite Hp. cbv zeta. fold q. split.
    + intros e0 rem' Hq. rewrite Hq. split; [reflexivity|exact Hp].
    + intros raw rem' Hq. rewrite Hq. reflexivity.
Qed.

Lemma find_first_match {A : Type} (f : A -> bool) (l : list A) :
  match List.find f l with
  | Some x => exists l1 l2, l = (l1 ++ x :: l2)%list /\ f x = true /\
                            forall y, In y l1 -> f y = false
  | None => forall y, In y l -> f y = false
  end.
Proof.
  induction l as [|a l IH]; cbn [List.find]; [intros y []|].
  destruct (f a) eqn:Ha.
  - exists [], l. split; [reflexivity|]. split; [exact Ha|]. intros y [].
  - destruct (List.find f l) as [x|].
    + destruct IH as (l1 & l2 & -> & Hx & Hl1).
      exists (a :: l1), l2. split; [reflexivity|]. split; [exact Hx|].
      intros y [<-|Hy]; auto.
    + intros y [<-|Hy]; auto.
Qed.

(** X6. [findPr] scans the list [getPrList] returns in order: the pull
    request it returns is the first one that fits, and it returns nothing
    only when no pull request of the list fits. *)
Theorem findPr_first_match (w w' : World E) branchName prTitle state found :
  findPr branchName prTitle state w = (Ok found, w') ->
  let fits := findPr_match (config w') branchName prTitle (default PrState_All state) in
  exists l,
    getPrList w = (Ok l, w') /\
    match found with
    | Some p =>
        exists l1 l2, l = (l1 ++ p :: l2)%list /\ fits p = true /\
                      forall q, In q l1 -> fits q = false
    | None => forall q, In q l -> fits q = false
    end.
Proof.
  intros Hrun fits. rewrite findPr_run in Hrun.
  destruct (getPrList w) as [[l|e] w1]; [|discriminate].
  injection Hrun as <- <-. exists l. split; [reflexivity|].
  apply find_first_match.
Qed.

End Cache_properties.

Lemma getOpenPrs_fetched_records_witness :
  exists m w',
    getOpenPrs Examples.mixed_authors = (Ok m, w') /\
    forall n p, m !! n = Some p -> pr_number p = n /\ pr_state p = "open".
Proof.
  assert (Hrun : exists m w', getOpenPrs Examples.mixed_authors = (Ok m, w')).
  { vm_compute. eexists _, _. reflexivity. }
  destruct Hrun as (m & w' & Hrun). exists m, w'. split; [exact Hrun|].
  intros n p Hp.
  destruct (getOpenPrs_fetched_records Examples.mixed_authors w' m eq_refl Hrun n p Hp)
    as (Hn & Hs & _).
  split; [exact Hn|exact Hs].
Defined.

Lemma getPr_lookup_order_witness :
  exists p, getPr 3 More_examples.both_caches = (Ok (Some p), More_examples.both_caches).
Proof.
  assert (Ho : exists mo, openPrList (config More_examples.both_caches) = Some mo /\
                          mo !! 3 = None).
  { vm_compute. eexists. split; reflexivity. }
  assert (Hc : exists mc p, closedPrList (config More_examples.both_caches) = Some mc /\
                            mc !! 3 = Some p).
  { vm_compute. eexists _, _. split; reflexivity. }
  destruct Ho as (mo & Ho & Hmo). destruct Hc as (mc & p & Hc & Hmc).
  exists p.
  destruct (getPr_lookup_order More_examples.both_caches 3 mo mc ltac:(discriminate) Ho Hc)
    as (_ & H & _).
  exact (H p Hmo Hmc).
Defined.

Lemma findPr_first_match_witness :
  exists p w',
    findPr "renovate/a" None (Some "open") Examples.mixed_authors = (Ok (Some p), w') /\
    exists l l1 l2, getPrList Examples.mixed_authors = (Ok l, w') /\
                    l = (l1 ++ p :: l2)%list.
Proof.
  assert (Hrun : exists p w',
             findPr "renovate/a" None (Some "open") Examples.mixed_authors
             = (Ok (Some p), w')).
  { vm_compute. eexists _, _. reflexivity. }
  destruct Hrun as (p & w' & Hrun). exists p, w'. split; [exact Hrun|].
  destruct (findPr_first_match _ _ _ _ _ _ Hrun) as (l & Hl & l1 & l2 & Hsplit & _).
  exists l, l1, l2. split; [exact Hl|exact Hsplit].
Defined.

(** ** The pointer and the status of a branch *)

Section Branch_properties.

Context `{E : Env}.

Lemma remember_pointer (w w' : World E) branchName number p :
  (pr ← getPr number;
   modify_config (fun c => set_branchPrs (<[branchName := pr]> (branchPrs c)) c) ;;
   mret pr) w = (Ok (Some p), w') ->
  branchPrs (config w') !! branchName = Some (Some p).
Proof.
  unfold mbind at 1, M_bind at 1.
  destruct (getPr number w) as [[o|e] w1]; [|discriminate].
  unfold mbind, M_bind, modify_config, mret, M_ret.
  intros [= -> <-]. cbn [config branchPrs set_branchPrs]. apply lookup_insert_eq.
Qed.

Lemma getBranchPr_pointer (w w' : World E) branchName p :
  getBranchPr branchName w = (Ok (Some p), w') ->
  branchPrs (config w') !! branchName = Some (Some p).
Proof.
  unfold getBranchPr. unfold mbind at 1, M_bind at 1, get_config at 1. cbn [config].
  assert (Hsearch :
    (openPr ← findPr branchName None (Some PrState_Open);
     match openPr with
     | Some openPr =>
         pr ← getPr (pr_number openPr);
         modify_config (fun c => set_branchPrs (<[branchName := pr]> (branchPrs c)) c) ;;
         mret pr
     | None =>
         autoclosedPr ← findPr branchName None (Some PrState_Closed);
         match autoclosedPr with
         | None => mret None
         | Some autoclosedPr =>
             if Js.endsWith (pr_title autoclosedPr) autoclosed_suffix
                && Js.truthy_opt (pr_closedAt autoclosedPr)
             then
               t ← get_now;
               if closed_too_long_ago t (default "" (pr_closedAt autoclosedPr))
               then mret None
               else
                 let sha := pr_sha autoclosedPr in
                 let number := pr_number autoclosedPr in
                 c ← get_config;
                 recreated ← try_catch
                   (request (PostGitRef (repository c) ("refs/heads/" +:+ branchName) sha) ;;
                    mret true)
                   (fun err => mret false);
                 if negb recreated then mret None
                 else
                   let title := strip_autoclosed (pr_title autoclosedPr) in
                   reopened ← try_catch
                     (request (PatchPull (repository c) number "open" title) ;;
                      mret true)
                     (fun err => mret false);
                   if negb reopened then mret None
                   else
                     modify_config (set_openPrList None) ;;
                     modify_config
                       (fun c => set_closedPrList (delete number <$> closedPrList c) c) ;;
                     pr ← getPr number;
                     modify_config
                       (fun c => set_branchPrs (<[branchName := pr]> (branchPrs c)) c) ;;
                     mret pr
             else mret None
         end
     end) w = (Ok (Some p), w') ->
    branchPrs (config w') !! branchName = Some (Some p)).
  { unfold mbind at 1, M_bind at 1.
    destruct (findPr branchName None (Some PrState_Open) w) as [[[openPr|]|e] w1];
      [apply remember_pointer| |discriminate].
    unfold mbind at 1, M_bind at 1.
    destruct (findPr branchName None (Some PrState_Closed) w1) as [[[ap|]|e] w2];
      [|discriminate|discriminate].
    destruct (Js.endsWith _ _ && _); [|discriminate].
    unfold mbind at 1, M_bind at 1, get_now at 1.
    destruct (closed_too_long_ago _ _); [discriminate|].
    unfold mbind at 1, M_bind at 1, get_config at 1.
    unfold mbind at 1, M_bind at 1. unfold try_catch at 1.
    unfold mbind at 1, M_bind at 1. unfold request at 1.
    destruct (http _ (remote w2)) as [[e|a] r3]; [discriminate|].
    unfold mret at 1, M_ret at 1. cbn [negb].
    unfold mbind at 1, M_bind at 1. unfold try_catch at 1.
    unfold mbind at 1, M_bind at 1. unfold request at 1. cbn [remote].
    destruct (http _ r3) as [[e|a'] r4]; [discriminate|].
    unfold mret at 1, M_ret at 1. cbn [negb].
    unfold mbind at 1, M_bind at 1, modify_config at 1.
    unfold mbind at 1, M_bind at 1, modify_config at 1.
    apply remember_pointer. }
  destruct (branchPrs (config w) !! branchName) as [[cached|]|] eqn:Hb;
    [|exact Hsearch|exact Hsearch].
  intros [= -> <-]. exact Hb.
Qed.

(** X7. A pull request [getBranchPr] returns is kept as the pointer of
    the branch, and a further call for the branch returns the same
    record without any request and without touching the session. *)
Theorem getBranchPr_remembers (w w' : World E) branchName p :
  getBranchPr branchName w = (Ok (Some p), w') ->
  branchPrs (config w') !! branchName = Some (Some p) /\
  getBranchPr branchName w' = (Ok (Some p), w').
Proof.
  intros Hrun. pose proof (getBranchPr_pointer _ _ _ _ Hrun) as Hp.
  split; [exact Hp|].
  unfold getBranchPr. unfold mbind at 1, M_bind at 1, get_config at 1. cbn [config].
  rewrite Hp. reflexivity.
Qed.

(** X8. The failures of [getBranchStatus].  A 404 on the combined
    status is raised as a changed repository, any other failure of that
    request as it is.  When the check-runs cannot be read, an
    external-host error is raised, and any other failure is taken for
    no check-runs at all: the legacy state alone decides. *)
Theorem getBranchStatus_failures (w : World E) branchName :
  let c := config w in
  let q1 := GetCommitStatus (repository c) (escapeHash branchName) true in
  let q2 := GetCheckRuns (repository c) (escapeHash branchName) in
  (forall e r1, http q1 (remote w) = (inl e, r1) ->
     getBranchStatus branchName w =
       (Throw (if statusCode_is e 404 then new_Error REPOSITORY_CHANGED else e),
        after w q1 r1)) /\
  (forall cs r1 e r2,
     http q1 (remote w) = (inr cs, r1) -> http q2 r1 = (inl e, r2) ->
     getBranchStatus branchName w =
       if instanceof_ExternalHostError e
       then (Throw e, after (after w q1 r1) q2 r2)
       else (Ok (if String.eqb (cbs_state cs) "success" then green
                 else if String.eqb (cbs_state cs) "failure" then red
                 else yellow),
             after (after w q1 r1) q2 r2)).
Proof.
  intros c q1 q2. split.
  - intros e r1 H1. unfold getBranchStatus.
    unfold mbind at 1, M_bind at 1. unfold try_catch at 1. unfold getStatus.
    unfold mbind at 1, M_bind at 1, get_config at 1. fold c q1.
    rewrite (request_throw _ _ _ _ H1).
    destruct (statusCode_is e 404); reflexivity.
  - intros cs r1 e r2 H1 H2. unfold getBranchStatus.
    unfold mbind at 1, M_bind at 1. unfold try_catch at 1. unfold getStatus.
    unfold mbind at 1, M_bind at 1, get_config at 1. fold c q1.
    rewrite (request_ok _ _ _ _ H1).
    unfold mbind at 1, M_bind at 1, get_config at 1. cbn [config after]. fold c.
    unfold mbind at 1, M_bind at 1. unfold try_catch at 1.
    unfold mbind at 1, M_bind at 1. fold q2.
    rewrite (request_throw (E:=E) q2 (after w q1 r1) e r2 H2).
    destruct (instanceof_ExternalHostError e); [reflexivity|].
    unfold mret at 1, M_ret at 1. cbn [length Nat.eqb].
    destruct (String.eqb (cbs_state cs) "success"); [reflexivity|].
    destruct (String.eqb (cbs_state cs) "failure"); reflexivity.
Qed.

End Branch_properties.

Lemma getBranchPr_remembers_witness :
  exists p w',
    getBranchPr "renovate/a" Examples.mixed_authors = (Ok (Some p), w') /\
    getBranchPr "renovate/a" w' = (Ok (Some p), w').
Proof.
  assert (Hrun : exists p w',
             getBranchPr "renovate/a" Examples.mixed_authors = (Ok (Some p), w')).
  { vm_compute. eexists _, _. reflexivity. }
  destruct Hrun as (p & w' & Hrun). exists p, w'. split; [exact Hrun|].
  exact (proj2 (getBranchPr_remembers _ _ _ _ Hrun)).
Defined.

(** ** The outcome of a merge *)

Section Merge_outcome_properties.

Context `{E : Env}.

(** X9. The output of [escapeHash] holds no [#] at any position, and a
    string without [#] is returned as it is. *)
Theorem escapeHash_no_hash (input : string) :
  (forall n, String.get n (escapeHash input) <> Some "#"%char) /\
  ((forall n, String.get n input <> Some "#"%char) -> escapeHash input = input).
Proof.
  split.
  - induction input as [|c r IH]; intros n; [destruct n; discriminate|].
    cbn [escapeHash]. destruct (Ascii.eqb_spec c "#"%char) as [->|Hc].
    + destruct n as [|[|[|n]]]; try discriminate. apply IH.
    + destruct n as [|n]; [cbn; congruence|apply IH].
  - induction input as [|c r IH]; intros Hfree; [reflexivity|].
    cbn [escapeHash]. destruct (Ascii.eqb_spec c "#"%char) as [->|Hc].
    + exfalso. exact (Hfree 0%nat eq_refl).
    + f_equal. apply IH. intros n. exact (Hfree (S n)).
Qed.

Lemma mergePr_unapproved (w : World E) branchName prNo reviews rem' :
  prReviewsRequired (config w) = true ->
  let q := GetPullReviews (parentOrRepository (config w)) prNo in
  http q (remote w) = (inr reviews, rem') ->
  (forall state, In state reviews -> state <> "APPROVED") ->
  mergePr branchName prNo w = (Ok false, after w q rem').
Proof.
  intros Hr q Hh Hno. unfold mergePr.
  unfold mbind at 1, M_bind at 1, get_config at 1. rewrite Hr.
  unfold mbind at 1, M_bind at 1. unfold mbind at 1, M_bind at 1.
  fold q. rewrite (request_ok _ _ _ _ Hh). unfold mret at 1, M_ret at 1.
  replace (existsb _ reviews) with false; [reflexivity|].
  symmetry. apply not_true_is_false. intros (s & Hin & Hs%String.eqb_eq)%existsb_exists.
  exact (Hno s Hin Hs).
Qed.

(** X10. With reviews required, [mergePr] asks for the reviews of the
    pull request first.  When none of them approves, it answers false
    and no merge is attempted; when the reviews cannot be read, the
    failure is raised, again without a merge attempt. *)
Theorem mergePr_needs_approval (w : World E) branchName prNo :
  prReviewsRequired (config w) = true ->
  let q := GetPullReviews (parentOrRepository (config w)) prNo in
  (forall reviews rem',
     http q (remote w) = (inr reviews, rem') ->
     (forall state, In state reviews -> state <> "APPROVED") ->
     mergePr branchName prNo w = (Ok false, after w q rem')) /\
  (forall e rem',
     http q (remote w) = (inl e, rem') ->
     mergePr branchName prNo w = (Throw e, after w q rem')).
Proof.
  intros Hr q. split.
  - intros reviews rem' Hh Hno. exact (mergePr_unapproved w branchName prNo reviews rem' Hr Hh Hno).
  - intros e rem' Hh. unfold mergePr.
    unfold mbind at 1, M_bind at 1, get_config at 1. rewrite Hr.
    unfold mbind at 1, M_bind at 1. unfold mbind at 1, M_bind at 1.
    fold q. rewrite (request_throw _ _ _ _ Hh). reflexivity.
Qed.

(** What the merge part of [mergePr] leaves behind. *)
Lemma attempt_in_order_outcome (put : string -> Req) (methods : list string)
    (w1 : World E) :
  let out := attempt_in_order put methods w1 in
  config out.2 = config w1 /\
  (length (merge_attempts (journal out.2))
   <= length (merge_attempts (journal w1)) + length methods)%nat /\
  (out.1 = true ->
   exists m j rem a,
     In m methods /\ journal out.2 = (j ++ [put m])%list /\
     http (put m) rem = (inr a, remote out.2)).
Proof.
  revert w1. induction methods as [|m rest IH]; intros w1; cbn [attempt_in_order].
  - cbn. split; [reflexivity|]. split; [lia|discriminate].
  - destruct (http (put m) (remote w1)) as [[e|a] rem'] eqn:Hh.
    + destruct (IH (after w1 (put m) rem')) as (Hc & Hl & Ht). cbv zeta.
      split; [exact Hc|]. split.
      * etransitivity; [exact Hl|]. cbn [journal after length].
        unfold merge_attempts. rewrite omap_app, length_app. cbn.
        destruct (merge_method_of (put m)); cbn; lia.
      * intros Htrue. destruct (Ht Htrue) as (m' & j & rem & a & Hin & Hj & Hacc).
        exists m', j, rem, a. split; [right; exact Hin|]. split; assumption.
    + cbn [fst snd config after journal remote]. split; [reflexivity|]. split.
      * unfold merge_attempts. rewrite omap_app, length_app. cbn.
        destruct (merge_method_of (put m)); cbn; lia.
      * intros _. exists m, (journal w1), (remote w1), a.
        split; [left; reflexivity|]. split; [reflexivity|exact Hh].
Qed.

Lemma merge_attempts_snoc (j : list Req) (r : Req) :
  length (merge_attempts (j ++ [r]))
  = (length (merge_attempts j) + match merge_method_of r with Some _ => 1 | None => 0 end)%nat.
Proof.
  unfold merge_attempts. rewrite omap_app, length_app. cbn.
  destruct (merge_method_of r); reflexivity.
Qed.

(** X11. Whatever the answers of the remote service, [mergePr] leaves
    the session as it was and attempts at most four merges; when it
    answers true, the last request it sent is a merge attempt that the
    remote accepted. *)
Theorem mergePr_outcome (w w' : World E) branchName prNo result :
  mergePr branchName prNo w = (result, w') ->
  config w' = config w /\
  (length (merge_attempts (journal w'))
   <= length (merge_attempts (journal w)) + 4)%nat /\
  (result = Ok true ->
   exists m j rem a,
     journal w' = (j ++ [put_merge (config w) prNo m])%list /\
     http (put_merge (config w) prNo m) rem = (inr a, remote w')).
Proof.
  assert (Hpart : forall w0 : World E,
    config w0 = config w ->
    review_gate w prNo w0 ->
    mergePr branchName prNo w = (result, w') ->
    config w' = config w /\
    (length (merge_attempts (journal w'))
     <= length (merge_attempts (journal w0)) + 4)%nat /\
    (result = Ok true ->
     exists m j rem a,
       journal w' = (j ++ [put_merge (config w) prNo m])%list /\
       http (put_merge (config w) prNo m) rem = (inr a, remote w'))).
  { intros w0 Hc0 Hg. rewrite (mergePr_after_gate _ _ _ _ Hg). cbv zeta.
    set (put := put_merge (config w) prNo).
    assert (Hfb : forall w1 : World E,
      config w1 = config w ->
      (length (merge_attempts (journal w1))
       <= length (merge_attempts (journal w0)) + 1)%nat ->
      (let '(b, w2) := attempt_in_order put fallback_order w1 in (Ok b, w2))
        = (result, w') ->
      config w' = config w /\
      (length (merge_attempts (journal w'))
       <= length (merge_attempts (journal w0)) + 4)%nat /\
      (result = Ok true ->
       exists m j rem a,
         journal w' = (j ++ [put m])%list /\ http (put m) rem = (inr a, remote w'))).
    { intros w1 Hc1 Hl1 Hrun.
      destruct (attempt_in_order_outcome put fallback_order w1) as (Hc & Hl & Ht).
      destruct (attempt_in_order put fallback_order w1) as [b w2].
      injection Hrun as <- <-. cbn [fst snd] in *.
      split; [congruence|]. split; [cbn [length fallback_order] in Hl; lia|].
      intros [= ->]. destruct (Ht eq_refl) as (m & j & rem & a & _ & Hj & Hacc).
      eauto 8. }
    destruct (Js.truthy_opt (mergeMethod (config w))).
    - unfold mbind at 1, M_bind at 1. unfold try_catch at 1.
      unfold mbind at 1, M_bind at 1. unfold request at 1.
      destruct (http _ (remote w0)) as [[e|a] rem'] eqn:Hh.
      + destruct (statusCode_is e 404 || statusCode_is e 405).
        * unfold mret at 1, M_ret at 1. rewrite fallback_nested.
          apply Hfb; [exact Hc0|].
          cbn [journal]. rewrite merge_attempts_snoc. cbn. lia.
        * unfold mret at 1, M_ret at 1. intros [= <- <-]. cbn [config journal].
          split; [exact Hc0|]. split; [|discriminate].
          rewrite merge_attempts_snoc. cbn. lia.
      + unfold mret at 1, M_ret at 1. intros [= <- <-]. cbn [config journal remote].
        split; [exact Hc0|]. split; [rewrite merge_attempts_snoc; cbn; lia|].
        intros _. eexists _, (journal w0), (remote w0), a. split; [reflexivity|exact Hh].
    - unfold mbind at 1, M_bind at 1. unfold mret at 1, M_ret at 1.
      rewrite fallback_nested. apply Hfb; [exact Hc0|lia]. }
  destruct (prReviewsRequired (config w)) eqn:Hr.
  - set (q := GetPullReviews (parentOrRepository (config w)) prNo).
    destruct (http q (remote w)) as [[e|reviews] rem'] eqn:Hh.
    + unfold mergePr. unfold mbind at 1, M_bind at 1, get_config at 1. rewrite Hr.
      unfold mbind at 1, M_bind at 1. unfold mbind at 1, M_bind at 1.
      fold q. rewrite (request_throw _ _ _ _ Hh). intros [= <- <-].
      cbn [config journal after]. split; [reflexivity|].
      split; [rewrite merge_attempts_snoc; cbn; lia|discriminate].
    + destruct (existsb (fun state => String.eqb state "APPROVED") reviews) eqn:Hap.
      * intros Hrun.
        destruct (Hpart (after w q rem') eq_refl) as (H1 & H2 & H3); [|exact Hrun|].
        { right. split; [exact Hr|]. exists reviews, rem'. repeat split; assumption. }
        split; [exact H1|]. split; [|exact H3].
        cbn [journal after] in H2. rewrite merge_attempts_snoc in H2. cbn in H2. lia.
      * unfold mergePr. unfold mbind at 1, M_bind at 1, get_config at 1. rewrite Hr.
        unfold mbind at 1, M_bind at 1. unfold mbind at 1, M_bind at 1.
        fold q. rewrite (request_ok _ _ _ _ Hh). unfold mret at 1, M_ret at 1.
        rewrite Hap. intros [= <- <-]. cbn [config journal after].
        split; [reflexivity|]. split; [rewrite merge_attempts_snoc; cbn; lia|discriminate].
  - intros Hrun. apply (Hpart w eq_refl); [|exact Hrun]. left. split; [exact Hr|reflexivity].
Qed.

End Merge_outcome_properties.

Lemma mergePr_needs_approval_witness :
  (mergePr (Some "renovate/a") 7 More_examples.changes_requested).1 = Ok false.
Proof.
  destruct (mergePr_needs_approval More_examples.changes_requested (Some "renovate/a") 7
              eq_refl) as [H _].
  rewrite (H ["CHANGES_REQUESTED"] _ eq_refl); [reflexivity|].
  intros state [<-|[]]. discriminate.
Defined.

Lemma mergePr_outcome_witness :
  exists w',
    mergePr (Some "renovate/lodash") 7 Examples.rebase_refused_once = (Ok true, w') /\
    config w' = config Examples.rebase_refused_once /\
    (length (merge_attempts (journal w')) <= 4)%nat.
Proof.
  assert (Hrun : exists w',
             mergePr (Some "renovate/lodash") 7 Examples.rebase_refused_once
             = (Ok true, w')).
  { vm_compute. eexists. reflexivity. }
  destruct Hrun as (w' & Hrun). exists w'. split; [exact Hrun|].
  destruct (mergePr_outcome _ _ _ _ _ Hrun) as (Hc & Hn & _).
  split; [exact Hc|exact Hn].
Defined.

(** ** Issues *)

Section Issue_properties.

Context `{E : Env}.

Lemma lower_ascii_idem (c : ascii) : Js.lower_ascii (Js.lower_ascii c) = Js.lower_ascii c.
Proof.
  unfold Js.lower_ascii.
  destruct ((65 <=? nat_of_ascii c) && (nat_of_ascii c <=? 90))%nat eqn:Hc;
    [|now rewrite Hc].
  apply andb_true_iff in Hc as [H1%Nat.leb_le H2%Nat.leb_le].
  rewrite nat_ascii_embedding by lia.
  replace ((65 <=? nat_of_ascii c + 32) && (nat_of_ascii c + 32 <=? 90))%nat with false;
    [reflexivity|].
  symmetry. apply andb_false_iff. right. apply Nat.leb_gt. lia.
Qed.

Lemma toLowerCase_idem (s : string) : Js.toLowerCase (Js.toLowerCase s) = Js.toLowerCase s.
Proof.
  induction s as [|c s IH]; [reflexivity|].
  cbn [Js.toLowerCase]. now rewrite lower_ascii_idem, IH.
Qed.

Lemma getIssueList_run (w : World E) :
  getIssueList w =
    if issues_disabled (config w) then (Ok [], w)
    else
      match issueList (config w) with
      | Some l => (Ok l, w)
      | None =>
          let c := config w in
          let q := GraphqlIssues (repositoryOwner c) (repositoryName c)
                     (renovateUsername c) in
          match http q (remote w) with
          | (inl e, rem') => (Throw e, after w q rem')
          | (inr raw, rem') =>
              let l := List.map
                         (fun issue =>
                            mkIssue (issue_number issue)
                              (Js.toLowerCase (issue_state issue)) (issue_title issue))
                         raw in
              (Ok l, with_config (after w q rem') (set_issueList (Some l) c))
          end
      end.
Proof.
  unfold getIssueList. unfold mbind at 1, M_bind at 1, get_config at 1.
  destruct (issues_disabled (config w)); [reflexivity|].
  destruct (issueList (config w)) as [l|]; [reflexivity|].
  unfold mbind at 1, M_bind at 1. unfold getIssues.
  unfold mbind at 1, M_bind at 1, get_config at 1.
  unfold mbind at 1, M_bind at 1, request at 1. cbv zeta.
  destruct (http _ (remote w)) as [[e|raw] rem']; reflexivity.
Qed.

(** X12. With issues disabled [getIssueList] answers with the empty
    list and asks nothing.  Otherwise a list it returns is the cache
    afterwards, a further call returns it without a request, and the
    states of a fetched list are in lower case.  Without a cache it
    sends one query: when the remote answers, the issues it returned
    are the list, their states in lower case, and the list is cached;
    when the remote refuses, that failure is raised as it is and the
    session stays without cache.  It raises in no other way. *)
Theorem getIssueList_cache (w : World E) :
  let c := config w in
  let q := GraphqlIssues (repositoryOwner c) (repositoryName c) (renovateUsername c) in
  (issues_disabled c = true -> getIssueList w = (Ok [], w)) /\
  (issues_disabled c = false ->
   forall l w', getIssueList w = (Ok l, w') ->
     issueList (config w') = Some l /\ getIssueList w' = (Ok l, w') /\
     (issueList c = None ->
      forall i, In i l -> Js.toLowerCase (issue_state i) = issue_state i)) /\
  (forall e w', getIssueList w = (Throw e, w') ->
     issueList c = None /\ issueList (config w') = None /\
     exists rem', http q (remote w) = (inl e, rem') /\ w' = after w q rem') /\
  (issues_disabled c = false -> issueList c = None ->
   (forall e rem', http q (remote w) = (inl e, rem') ->
      getIssueList w = (Throw e, after w q rem') /\
      issueList (config (after w q rem')) = None) /\
   (forall raw rem', http q (remote w) = (inr raw, rem') ->
      let l := List.map
                 (fun issue =>
                    mkIssue (issue_number issue) (Js.toLowerCase (issue_state issue))
                      (issue_title issue))
                 raw in
      getIssueList w = (Ok l, with_config (after w q rem') (set_issueList (Some l) c)))).
Proof.
  intros c q. rewrite getIssueList_run. fold c. split; [|split; [|split]].
  - intros ->. reflexivity.
  - intros Hd l w' Hrun. rewrite Hd in Hrun.
    assert (Hw : issues_disabled (config w') = false /\ issueList (config w') = Some l).
    { destruct (issueList c) as [l0|] eqn:Hl.
      - injection Hrun as <- <-. split; assumption.
      - cbv zeta in Hrun. destruct (http _ (remote w)) as [[e|raw] rem'];
          [discriminate|]. injection Hrun as <- <-. split; [exact Hd|reflexivity]. }
    destruct Hw as [Hd' Hl']. split; [exact Hl'|]. split.
    + rewrite getIssueList_run, Hd', Hl'. reflexivity.
    + intros Hnone i Hin. rewrite Hnone in Hrun. cbv zeta in Hrun.
      destruct (http _ (remote w)) as [[e|raw] rem']; [discriminate|].
      injection Hrun as <- _. apply in_map_iff in Hin as (x & <- & _).
      cbn [issue_state]. apply toLowerCase_idem.
  - intros e w' Hrun. destruct (issues_disabled c); [discriminate|].
    destruct (issueList c) as [l0|] eqn:Hl; [discriminate|].
    cbv zeta in Hrun. fold q in Hrun.
    destruct (http q (remote w)) as [[e0|raw] rem']; [|discriminate].
    injection Hrun as <- <-. split; [reflexivity|]. split; [exact Hl|].
    exists rem'. split; reflexivity.
  - intros Hd Hl. rewrite Hd, Hl. cbv zeta. fold q. split.
    + intros e rem' Hq. rewrite Hq. split; [reflexivity|exact Hl].
    + intros raw rem' Hq. rewrite Hq. reflexivity.
Qed.

(** X13. [ensureIssue] never raises: whatever the arguments and the
    answers of the remote service, it returns a value; and when issues
    are disabled for the repository it returns null without any request
    and without touching the session. *)
Theorem ensureIssue_never_raises (w : World E) title reuseTitle rawBody labels
    once shouldReOpen :
  exists r w',
    ensureIssue title reuseTitle rawBody labels once shouldReOpen w = (Ok r, w') /\
    (issues_disabled (config w) = true -> r = None /\ w' = w).
Proof.
  unfold ensureIssue. unfold mbind at 1, M_bind at 1, get_config at 1.
  destruct (issues_disabled (config w)).
  - exists None, w. split; [reflexivity|]. intros _. split; reflexivity.
  - cbv zeta. unfold try_catch.
    match goal with |- context [match ?m w with _ => _ end] => destruct (m w) as [[r|e] w'] end.
    + exists r, w'. split; [reflexivity|discriminate].
    + exists None, w'. split; [reflexivity|discriminate].
Qed.

(** [ensureIssue] once the issue list is there. *)
Lemma ensureIssue_with_list (w w1 : World E) title reuseTitle rawBody labels
    once shouldReOpen il :
  issues_disabled (config w) = false ->
  getIssueList w = (Ok il, w1) ->
  let body := sanitize rawBody in
  let repo := parentOrRepository (config w1) in
  let create : Result (option EnsureIssueResult) * World E :=
    let post := PostIssue repo title body (default [] labels) in
    match http post (remote w1) with
    | (inl e, rem') => (Ok None, after w1 post rem')
    | (inr _, rem') =>
        (Ok (Some created),
         with_config (after w1 post rem') (set_issueList None (config w1)))
    end in
  match issues_for title reuseTitle il with
  | [] =>
      ensureIssue title reuseTitle rawBody labels once shouldReOpen w = create
  | [issue] =>
      if is_open issue then
        let get := GetIssue repo (issue_number issue) in
        match http get (remote w1) with
        | (inl e, rem') =>
            ensureIssue title reuseTitle rawBody labels once shouldReOpen w
            = (Ok None, after w1 get rem')
        | (inr issueBody, rem') =>
            let w2 := after w1 get rem' in
            if String.eqb (issue_title issue) title && String.eqb issueBody body
            then ensureIssue title reuseTitle rawBody labels once shouldReOpen w
                 = (Ok None, w2)
            else if shouldReOpen then
              let patch := PatchIssue repo (issue_number issue) (Some body) "open"
                             (Some title) labels in
              match http patch rem' with
              | (inl e, rem2) =>
                  ensureIssue title reuseTitle rawBody labels once shouldReOpen w
                  = (Ok None, after w2 patch rem2)
              | (inr _, rem2) =>
                  ensureIssue title reuseTitle rawBody labels once shouldReOpen w
                  = (Ok (Some updated), after w2 patch rem2)
              end
            else
              let post := PostIssue repo title body (default [] labels) in
              match http post rem' with
              | (inl e, rem2) =>
                  ensureIssue title reuseTitle rawBody labels once shouldReOpen w
                  = (Ok None, after w2 post rem2)
              | (inr _, rem2) =>
                  ensureIssue title reuseTitle rawBody labels once shouldReOpen w
                  = (Ok (Some created),
                     with_config (after w2 post rem2) (set_issueList None (config w1)))
              end
        end
      else if once then
        ensureIssue title reuseTitle rawBody labels once shouldReOpen w = (Ok None, w1)
      else True
  | issues =>
      List.find is_open issues = None -> once = true ->
      ensureIssue title reuseTitle rawBody labels once shouldReOpen w = (Ok None, w1)
  end.
Proof.
  intros Hd Hl body repo create.
  assert (Henter : forall issues X,
    issues_for title reuseTitle il = issues ->
    try_catch
      (returned ←
         match issues with
         | [] => mret None
         | first :: _ =>
             let openIssue := List.find is_open issues in
             match openIssue, once with
             | None, true => mret (Some None)
             | _, _ =>
                 let issue := default (List.last issues first) openIssue in
                 forEachM
                   (fun i =>
                      if is_open i && negb (issue_number i =? issue_number issue)
                      then closeIssue (issue_number i)
                      else mret tt)
                   issues ;;
                 c ← get_config;
                 issueBody ← request (GetIssue (parentOrRepository c) (issue_number issue));
                 if String.eqb (issue_title issue) title
                    && String.eqb issueBody body
                    && is_open issue
                 then mret (Some None)
                 else if shouldReOpen then
                   request (PatchIssue (parentOrRepository c) (issue_number issue)
                              (Some body) "open" (Some title) labels) ;;
                   mret (Some (Some updated))
                 else mret None
             end
         end;
       match returned with
       | Some r => mret r
       | None =>
           c ← get_config;
           request (PostIssue (parentOrRepository c) title body (default [] labels)) ;;
           modify_config (set_issueList None) ;;
           mret (Some created)
       end)
      (fun err => mret None) w1 = X ->
    ensureIssue title reuseTitle rawBody labels once shouldReOpen w = X).
  { intros issues X Hi HX. unfold ensureIssue.
    unfold mbind at 1, M_bind at 1, get_config at 1. rewrite Hd.
    cbv zeta. unfold try_catch at 1. unfold mbind at 1, M_bind at 1. rewrite Hl.
    fold body.
    change (match List.filter (fun i => String.eqb (issue_title i) title) il with
            | [] => List.filter
                      (fun i => Js.strict_eq_opt (Some (issue_title i)) reuseTitle) il
            | _ :: _ => List.filter (fun i => String.eqb (issue_title i) title) il
            end) with (issues_for title reuseTitle il).
    rewrite Hi. exact HX. }
  destruct (issues_for title reuseTitle il) as [|issue [|issue2 rest]] eqn:Hi.
  - apply (Henter _ _ eq_refl). unfold try_catch.
    unfold mbind at 1, M_bind at 1. unfold mret at 1, M_ret at 1.
    unfold mbind at 1, M_bind at 1, get_config at 1.
    unfold mbind at 1, M_bind at 1, request at 1. subst create. cbv zeta. fold repo.
    destruct (http _ (remote w1)) as [[e|a] rem']; reflexivity.
  - destruct (is_open issue) eqn:Ho.
    + cbv zeta.
      assert (Hget : forall X,
        (let w2 := w1 in
         match http (GetIssue repo (issue_number issue)) (remote w1) with
         | (inl e, rem') => (Ok None, after w1 (GetIssue repo (issue_number issue)) rem')
         | (inr issueBody, rem') =>
             (if String.eqb (issue_title issue) title && String.eqb issueBody body
              then mret None
              else if shouldReOpen then
                try_catch
                  (request (PatchIssue repo (issue_number issue) (Some body) "open"
                              (Some title) labels) ;;
                   mret (Some updated))
                  (fun _ => mret None)
              else
                try_catch
                  (request (PostIssue repo title body (default [] labels)) ;;
                   modify_config (set_issueList None) ;;
                   mret (Some created))
                  (fun _ => mret None))
               (after w1 (GetIssue repo (issue_number issue)) rem')
         end) = X ->
        ensureIssue title reuseTitle rawBody labels once shouldReOpen w = X).
      { intros X HX. apply (Henter _ _ eq_refl). rewrite <- HX. clear HX. cbv zeta.
        cbn [List.find]. rewrite Ho. cbn [from_option id forEachM].
        rewrite Ho, Z.eqb_refl. cbn [negb andb].
        unfold try_catch at 1.
        unfold mbind at 1, M_bind at 1. unfold mbind at 1, M_bind at 1.
        unfold mbind at 1, M_bind at 1. unfold mret at 1 2, M_ret at 1 2.
        unfold mbind at 1, M_bind at 1, get_config at 1.
        unfold mbind at 1, M_bind at 1, request at 1. fold repo.
        destruct (http _ (remote w1)) as [[e|issueBody] rem']; [reflexivity|].
        rewrite andb_true_r.
        destruct (String.eqb (issue_title issue) title && String.eqb issueBody body);
          [reflexivity|].
        destruct shouldReOpen.
        - unfold try_catch, mbind, M_bind, request. cbn [remote after].
          destruct (http _ rem') as [[e|a] rem2]; reflexivity.
        - unfold mret at 1, M_ret at 1. unfold try_catch.
          unfold mbind at 1, M_bind at 1, get_config at 1.
          unfold mbind, M_bind, request. cbn [remote config after]. fold repo.
          destruct (http _ rem') as [[e|a] rem2]; reflexivity. }
      destruct (http (GetIssue repo (issue_number issue)) (remote w1))
        as [[e|issueBody] rem'] eqn:Hg.
      * apply Hget. reflexivity.
      * destruct (String.eqb (issue_title issue) title && String.eqb issueBody body)
          eqn:Hup.
        { apply Hget. reflexivity. }
        destruct shouldReOpen.
        { destruct (http _ rem') as [[e|a] rem2] eqn:Hp; apply Hget;
            unfold try_catch, mbind, M_bind, request; cbn [remote after];
            rewrite Hp; reflexivity. }
        { destruct (http _ rem') as [[e|a] rem2] eqn:Hp; apply Hget;
            unfold try_catch, mbind, M_bind, request; cbn [remote after];
            rewrite Hp; reflexivity. }
    + destruct once; [|exact I].
      apply (Henter _ _ eq_refl). cbv zeta. cbn [List.find]. rewrite Ho. reflexivity.
  - intros Hf ->. apply (Henter _ _ eq_refl). cbv zeta. rewrite Hf. reflexivity.
Qed.

(** X14. One open issue bears the title (or, failing that, the title to
    reuse).  [ensureIssue] reads its body: a refused read gives null;
    when title and body are as wanted nothing is written; otherwise,
    with [shouldReOpen], the issue is patched and the answer is updated
    (null when the patch is refused), the issue cache staying as it was;
    without [shouldReOpen] the issue is left alone and a new issue with
    the title is created. *)
Theorem ensureIssue_single_open_issue (w w1 : World E) title reuseTitle rawBody
    labels once shouldReOpen il issue :
  issues_disabled (config w) = false ->
  getIssueList w = (Ok il, w1) ->
  issues_for title reuseTitle il = [issue] ->
  is_open issue = true ->
  let run := ensureIssue title reuseTitle rawBody labels once shouldReOpen w in
  let body := sanitize rawBody in
  let repo := parentOrRepository (config w1) in
  let get := GetIssue repo (issue_number issue) in
  let patch := PatchIssue repo (issue_number issue) (Some body) "open" (Some title) labels in
  let post := PostIssue repo title body (default [] labels) in
  (forall e rem', http get (remote w1) = (inl e, rem') ->
     run = (Ok None, after w1 get rem')) /\
  (forall issueBody rem', http get (remote w1) = (inr issueBody, rem') ->
     let w2 := after w1 get rem' in
     (issue_title issue = title -> issueBody = body -> run = (Ok None, w2)) /\
     (issue_title issue <> title \/ issueBody <> body ->
      (shouldReOpen = true ->
       (forall a rem2, http patch rem' = (inr a, rem2) ->
          run = (Ok (Some updated), after w2 patch rem2)) /\
       (forall e rem2, http patch rem' = (inl e, rem2) ->
          run = (Ok None, after w2 patch rem2))) /\
      (shouldReOpen = false ->
       (forall a rem2, http post rem' = (inr a, rem2) ->
          run = (Ok (Some created),
                 with_config (after w2 post rem2) (set_issueList None (config w1)))) /\
       (forall e rem2, http post rem' = (inl e, rem2) ->
          run = (Ok None, after w2 post rem2))))).
Proof.
  intros Hd Hl Hi Ho run body repo get patch post.
  pose proof (ensureIssue_with_list w w1 title reuseTitle rawBody labels once
                shouldReOpen il Hd Hl) as H.
  cbv zeta in H. rewrite Hi, Ho in H. fold body repo get patch post run in H.
  split.
  - intros e rem' Hg. rewrite Hg in H. exact H.
  - intros issueBody rem' Hg w2. rewrite Hg in H. split.
    + intros Ht Hb. rewrite Ht, Hb, !String.eqb_refl in H. exact H.
    + intros Hne.
      assert (Hf : String.eqb (issue_title issue) title && String.eqb issueBody body = false).
      { apply andb_false_iff.
        destruct Hne as [Hne|Hne]; [left|right]; now apply String.eqb_neq. }
      rewrite Hf in H. split.
      * intros ->. split.
        { intros a rem2 Hp. rewrite Hp in H. exact H. }
        { intros e rem2 Hp. rewrite Hp in H. exact H. }
      * intros ->. split.
        { intros a rem2 Hp. rewrite Hp in H. exact H. }
        { intros e rem2 Hp. rewrite Hp in H. exact H. }
Qed.

(** X15. No issue bears the title or the title to reuse: [ensureIssue]
    creates one, with an empty label list when no labels are given, and
    drops the issue cache so that it is fetched again; a refused creation
    gives null and keeps the cache.  Issues bear the title but none of
    them is open: with [once] nothing is sent and the answer is null. *)
Theorem ensureIssue_create_or_skip (w w1 : World E) title reuseTitle rawBody
    labels once shouldReOpen il :
  issues_disabled (config w) = false ->
  getIssueList w = (Ok il, w1) ->
  let run := ensureIssue title reuseTitle rawBody labels once shouldReOpen w in
  let post :=
    PostIssue (parentOrRepository (config w1)) title (sanitize rawBody)
      (default [] labels) in
  (issues_for title reuseTitle il = [] ->
   (forall a rem', http post (remote w1) = (inr a, rem') ->
      run = (Ok (Some created),
             with_config (after w1 post rem') (set_issueList None (config w1)))) /\
   (forall e rem', http post (remote w1) = (inl e, rem') ->
      run = (Ok None, after w1 post rem'))) /\
  (issues_for title reuseTitle il <> [] ->
   List.find is_open (issues_for title reuseTitle il) = None ->
   once = true ->
   run = (Ok None, w1)).
Proof.
  intros Hd Hl run post.
  pose proof (ensureIssue_with_list w w1 title reuseTitle rawBody labels once
                shouldReOpen il Hd Hl) as H.
  cbv zeta in H. fold run post in H. split.
  - intros Hi. rewrite Hi in H. split.
    + intros a rem' Hp. rewrite Hp in H. exact H.
    + intros e rem' Hp. rewrite Hp in H. exact H.
  - intros Hne Hf ->.
    destruct (issues_for title reuseTitle il) as [|issue [|issue2 rest]];
      [congruence| |exact (H Hf eq_refl)].
    cbn [List.find] in Hf. destruct (is_open issue); [discriminate|exact H].
Qed.

Lemma closeIssue_run (n : Z) (w : World E) :
  closeIssue n w =
  let r := PatchIssue (parentOrRepository (config w)) n None "closed" None None in
  match http r (remote w) with
  | (inl e, rem') => (Throw e, after w r rem')
  | (inr a, rem') => (Ok a, after w r rem')
  end.
Proof.
  unfold closeIssue, mbind, M_bind, get_config, request, after. cbv zeta.
  destruct (http _ (remote w)) as [[e|a] rem']; reflexivity.
Qed.

Lemma send_in_order_facts (rs : list Req) :
  forall w : World E,
    let s := send_in_order rs w in
    config s.2 = config w /\
    (s.1 = None -> journal s.2 = (journal w ++ rs)%list) /\
    (forall e, s.1 = Some e ->
       exists before r rest rem rem',
         rs = (before ++ r :: rest)%list /\
         journal s.2 = (journal w ++ before ++ [r])%list /\
         http r rem = (inl e, rem') /\ remote s.2 = rem').
Proof.
  induction rs as [|r rs IH]; intros w; cbn [send_in_order].
  - cbn. split; [reflexivity|]. split; [intros _; now rewrite app_nil_r|discriminate].
  - destruct (http r (remote w)) as [[e|a] rem'] eqn:Hh.
    + cbn. split; [reflexivity|]. split; [discriminate|].
      intros e0 [= <-]. exists [], r, rs, (remote w), rem'. repeat split. exact Hh.
    + destruct (IH (after w r rem')) as (Hc & Hnone & Hsome).
      split; [exact Hc|]. split.
      * intros Hn. rewrite (Hnone Hn). cbn. now rewrite <- app_assoc.
      * intros e He. destruct (Hsome e He) as (before & r0 & rest & rem & rem2 & -> & Hj & Hr & Hrem).
        exists (r :: before), r0, rest, rem, rem2. split; [reflexivity|].
        split; [|split; assumption]. rewrite Hj. cbn. now rewrite <- app_assoc.
Qed.

Lemma ensureIssueClosing_loop (c : LocalRepoConfig) title (il : list Issue) :
  forall w1 : World E,
    config w1 = c ->
    let sent :=
      send_in_order
        (List.map (close_request c)
           (List.filter (fun i => is_open i && String.eqb (issue_title i) title) il))
        w1 in
    forEachM
      (fun issue =>
         if is_open issue && String.eqb (issue_title issue) title
         then closeIssue (issue_number issue)
         else mret tt)
      il w1 =
      (match sent.1 with None => Ok tt | Some e => Throw e end, sent.2).
Proof.
  induction il as [|i il IH]; intros w1 Hc; [reflexivity|].
  cbn [forEachM List.filter].
  destruct (is_open i && String.eqb (issue_title i) title).
  - cbn [List.map send_in_order].
    unfold mbind at 1, M_bind at 1. rewrite closeIssue_run.
    cbv zeta. rewrite Hc. fold (close_request c i).
    destruct (http (close_request c i) (remote w1)) as [[e|a] rem']; [reflexivity|].
    exact (IH (after w1 (close_request c i) rem') Hc).
  - unfold mbind at 1, M_bind at 1. unfold mret at 1, M_ret at 1.
    exact (IH w1 Hc).
Qed.

(** X16. Once the issue list is there, [ensureIssueClosing] sends, in
    the order of the list, one closing request for each open issue that
    bears the title, and nothing else.  As long as the remote accepts
    it goes on; the first request the remote refuses is the last one
    sent, and its failure is raised.  It leaves the session as
    [getIssueList] left it, so the issue cache still shows the issues it
    closed as open. *)
Theorem ensureIssueClosing_requests (w w1 : World E) title il :
  issues_disabled (config w) = false ->
  getIssueList w = (Ok il, w1) ->
  let targets :=
    List.filter (fun i => is_open i && String.eqb (issue_title i) title) il in
  let closes := List.map (close_request (config w1)) targets in
  let sent := send_in_order closes w1 in
  ensureIssueClosing title w =
    (match sent.1 with None => Ok tt | Some e => Throw e end, sent.2) /\
  config sent.2 = config w1 /\
  (closes = [] -> ensureIssueClosing title w = (Ok tt, w1)) /\
  (forall r rest e rem',
     closes = r :: rest -> http r (remote w1) = (inl e, rem') ->
     ensureIssueClosing title w = (Throw e, after w1 r rem')) /\
  (forall r rest a rem',
     closes = r :: rest -> http r (remote w1) = (inr a, rem') ->
     sent = send_in_order rest (after w1 r rem')) /\
  (sent.1 = None -> journal sent.2 = (journal w1 ++ closes)%list) /\
  (forall e, sent.1 = Some e ->
     exists before r rest rem rem',
       closes = (before ++ r :: rest)%list /\
       journal sent.2 = (journal w1 ++ before ++ [r])%list /\
       http r rem = (inl e, rem') /\ remote sent.2 = rem').
Proof.
  intros Hd Hl targets closes sent.
  assert (Hrun : ensureIssueClosing title w =
                 (match sent.1 with None => Ok tt | Some e => Throw e end, sent.2)).
  { unfold ensureIssueClosing.
    unfold mbind at 1, M_bind at 1, get_config at 1. rewrite Hd.
    unfold mbind at 1, M_bind at 1. rewrite Hl.
    exact (ensureIssueClosing_loop (config w1) title il w1 eq_refl). }
  destruct (send_in_order_facts closes w1) as (Hc & Hnone & Hsome).
  fold sent in Hc, Hnone, Hsome.
  split; [exact Hrun|]. split; [exact Hc|]. split; [|split; [|split; [|split]]].
  - intros Hempty. rewrite Hrun. subst sent. rewrite Hempty. reflexivity.
  - intros r rest e rem' Hcl Hq. rewrite Hrun. subst sent. rewrite Hcl.
    cbn [send_in_order]. rewrite Hq. reflexivity.
  - intros r rest a rem' Hcl Hq. subst sent. rewrite Hcl.
    cbn [send_in_order]. rewrite Hq. reflexivity.
  - exact Hnone.
  - exact Hsome.
Qed.

End Issue_properties.

Lemma ensureIssue_single_open_issue_witness :
  exists w',
    ensureIssue "Dependency Dashboard" None "new body" None false true
      More_examples.open_dashboard = (Ok (Some updated), w').
Proof.
  assert (Hl : exists w1,
             getIssueList More_examples.open_dashboard
             = (Ok [mkIssue 2 "open" "Dependency Dashboard"], w1) /\
             remote w1 = remote More_examples.open_dashboard /\
             config w1 = set_issueList (Some [mkIssue 2 "open" "Dependency Dashboard"])
                           Sim.session).
  { vm_compute. eexists. repeat split. }
  destruct Hl as (w1 & Hl & Hrem & Hcfg).
  destruct (ensureIssue_single_open_issue More_examples.open_dashboard w1
              "Dependency Dashboard" None "new body" None false true
              [mkIssue 2 "open" "Dependency Dashboard"]
              (mkIssue 2 "open" "Dependency Dashboard")
              eq_refl Hl eq_refl eq_refl) as [_ H].
  rewrite Hrem, Hcfg in H.
  destruct (H "old body" _ eq_refl) as [_ Hdiff].
  assert (Hne : "old body" <> "new body") by discriminate.
  destruct (Hdiff (or_intror Hne)) as [Hre _].
  destruct (Hre eq_refl) as [Hok _].
  eexists. exact (Hok tt _ eq_refl).
Defined.

Lemma ensureIssue_create_or_skip_witness :
  exists w1,
    ensureIssue "Dependency Dashboard" None "new body" None true true
      Examples.closed_issue = (Ok None, w1).
Proof.
  assert (Hl : exists w1,
             getIssueList Examples.closed_issue
             = (Ok [mkIssue 1 "closed" "Dependency Dashboard"], w1)).
  { vm_compute. eexists. reflexivity. }
  destruct Hl as (w1 & Hl). exists w1.
  destruct (ensureIssue_create_or_skip Examples.closed_issue w1
              "Dependency Dashboard" None "new body" None true true _ eq_refl Hl)
    as [_ H].
  apply H; [discriminate|reflexivity|reflexivity].
Defined.

Lemma ensureIssueClosing_requests_witness :
  exists w',
    ensureIssueClosing "Dependency Dashboard" More_examples.dashboards = (Ok tt, w') /\
    journal w' =
      [GraphqlIssues "acme" (Some "app") (Some "renovate-bot");
       PatchIssue (Some "acme/app") 2 None "closed" None None;
       PatchIssue (Some "acme/app") 4 None "closed" None None].
Proof.
  assert (Hl : exists w1,
             getIssueList More_examples.dashboards
             = (Ok [mkIssue 1 "closed" "Dependency Dashboard";
                    mkIssue 2 "open" "Dependency Dashboard";
                    mkIssue 3 "open" "Unrelated";
                    mkIssue 4 "open" "Dependency Dashboard"], w1) /\
             w1 = (getIssueList More_examples.dashboards).2).
  { eexists. split; [vm_compute; reflexivity|reflexivity]. }
  destruct Hl as (w1 & Hl & Hw1).
  destruct (ensureIssueClosing_requests More_examples.dashboards w1
              "Dependency Dashboard" _ eq_refl Hl) as (Hrun & _).
  eexists. split; [rewrite Hrun, Hw1; vm_compute; reflexivity|].
  vm_compute. reflexivity.
Defined.

(** ** Comments and the start of a session *)

Section Comment_source_properties.

Context `{E : Env}.

(** X17. Where [getComments] takes the comments from.  For a number in
    the closed-PR cache it answers with what the cached record carries
    and asks the remote nothing more; for any other number it fetches
    the comments, and a 404 on that request is raised wrapped as an
    external-host error, any other failure as it is. *)
Theorem getComments_sources (w w1 : World E) (closed : gmap Z Pr) (issueNo : Z) :
  getClosedPrs w = (Ok closed, w1) ->
  (forall pr, closed !! issueNo = Some pr ->
     getComments issueNo w = (Ok (pr_comments pr), w1)) /\
  (closed !! issueNo = None ->
   let q := GetIssueComments (parentOrRepository (config w1)) issueNo in
   (forall comments rem', http q (remote w1) = (inr comments, rem') ->
      getComments issueNo w = (Ok (Some comments), after w1 q rem')) /\
   (forall err rem', http q (remote w1) = (inl err, rem') ->
      getComments issueNo w =
        (Throw (if statusCode_is err 404 then ExternalHostError err else err),
         after w1 q rem'))).
Proof.
  intros Hc. split.
  - intros pr Hpr. unfold getComments.
    unfold mbind at 1, M_bind at 1. rewrite Hc, Hpr. reflexivity.
  - intros Hnone q. split.
    + intros comments rem' Hq. unfold getComments.
      unfold mbind at 1, M_bind at 1. rewrite Hc, Hnone.
      unfold mbind at 1, M_bind at 1, get_config at 1. fold q.
      unfold try_catch, mbind, M_bind. rewrite (request_ok q w1 comments rem' Hq).
      reflexivity.
    + intros err rem' Hq. unfold getComments.
      unfold mbind at 1, M_bind at 1. rewrite Hc, Hnone.
      unfold mbind at 1, M_bind at 1, get_config at 1. fold q.
      unfold try_catch, mbind, M_bind. rewrite (request_throw q w1 err rem' Hq).
      destruct (statusCode_is err 404); reflexivity.
Qed.

Section Init_session.

Variable setUp : RepoParams -> GhRepo -> M E RepoResult.

(** X18. [initRepo] begins with a session of its own: what an earlier
    session held has no influence.  When the repository query succeeds
    for a repository that has a default branch, is not archived and
    bears the expected name (or none), the rest of the set-up starts
    after that one request, in a session whose caches are all empty,
    whose default branch is the repository's, and whose merge method is
    the first allowed one of rebase, squash and merge. *)
Theorem initRepo_session (params : RepoParams) (w : World E) (repo : GhRepo)
    (rem' : Remote) :
  let c0 := fresh_config params in
  let q := GraphqlRepoInfo (repositoryOwner c0) (repositoryName c0) in
  http q (remote w) = (inr (Some repo), rem') ->
  Js.truthy_opt (defaultBranchName repo) = true ->
  Js.truthy_opt (gh_nameWithOwner repo) = false \/
    gh_nameWithOwner repo = Some (rp_repository params) ->
  gh_isArchived repo = false ->
  (forall c, initRepo setUp params (with_config w c) = initRepo setUp params w) /\
  exists c,
    initRepo setUp params w =
      setUp params repo (mkWorld c rem' (journal w ++ [q]) (now w)) /\
    repository c = Some (rp_repository params) /\
    parentRepo c = None /\
    defaultBranch c = defaultBranchName repo /\
    forkMode c = Js.truthy_opt (rp_forkMode params) /\
    hasIssuesEnabled c = gh_hasIssuesEnabled repo /\
    autoMergeAllowed c = gh_autoMergeAllowed repo /\
    issueList c = None /\ prList c = None /\
    openPrList c = None /\ closedPrList c = None /\ branchPrs c = ∅ /\
    (gh_rebaseMergeAllowed repo = true -> mergeMethod c = Some "rebase") /\
    (gh_rebaseMergeAllowed repo = false -> gh_squashMergeAllowed repo = true ->
     mergeMethod c = Some "squash") /\
    (gh_rebaseMergeAllowed repo = false -> gh_squashMergeAllowed repo = false ->
     gh_mergeCommitAllowed repo = true -> mergeMethod c = Some "merge") /\
    (gh_rebaseMergeAllowed repo = false -> gh_squashMergeAllowed repo = false ->
     gh_mergeCommitAllowed repo = false -> mergeMethod c = None).
Proof.
  intros c0 q Hq Hbranch Hname Harch. split.
  - intros c. rewrite !initRepo_run. reflexivity.
  - exists (reset_caches (Js.truthy_opt (rp_forkMode params)) (record_repo repo c0)).
    split.
    + rewrite initRepo_run. cbv zeta. fold c0 q. rewrite Hq, Hbranch, Harch.
      cbn [negb].
      assert (Hn : Js.truthy_opt (gh_nameWithOwner repo)
                   && negb (Js.strict_eq_opt (gh_nameWithOwner repo)
                              (Some (rp_repository params))) = false).
      { destruct Hname as [Hn|Hn]; [now rewrite Hn|].
        rewrite Hn. apply andb_false_iff. right. apply negb_false_iff.
        cbn. apply String.eqb_refl. }
      rewrite Hn.
      unfold mbind, M_bind, modify_config, with_config, after. cbn. reflexivity.
    + cbn. unfold detect_mergeMethod.
      repeat split; try reflexivity.
      * now intros ->.
      * now intros -> ->.
      * now intros -> -> ->.
      * now intros -> -> ->.
Qed.

End Init_session.

End Comment_source_properties.

Lemma getComments_sources_witness :
  exists w1,
    getComments 5 Examples.topic_comment
    = (Ok (Some [mkComment 11 (topic_header "Notice" +:+ "Hello")]),
       after w1 (GetIssueComments (parentOrRepository (config w1)) 5) (remote w1)).
Proof.
  assert (Hc : exists w1,
             getClosedPrs Examples.topic_comment = (Ok ∅, w1) /\
             http (GetIssueComments (parentOrRepository (config w1)) 5) (remote w1)
             = (inr [mkComment 11 (topic_header "Notice" +:+ "Hello")], remote w1)).
  { vm_compute. eexists. split; reflexivity. }
  destruct Hc as (w1 & Hc & Hq). exists w1.
  destruct (getComments_sources Examples.topic_comment w1 ∅ 5 Hc) as [_ H].
  destruct (H (lookup_empty 5)) as [Hok _].
  exact (Hok _ _ Hq).
Defined.

Lemma initRepo_session_witness :
  exists c,
    initRepo Examples.finish_init Examples.acme_app More_examples.before_init
    = Examples.finish_init Examples.acme_app More_examples.acme_repo
        (mkWorld c (remote More_examples.before_init)
           [GraphqlRepoInfo "acme" (Some "app")] 0) /\
    mergeMethod c = Some "squash" /\ issueList c = None.
Proof.
  destruct (initRepo_session Examples.finish_init Examples.acme_app
              More_examples.before_init More_examples.acme_repo
              (remote More_examples.before_init) eq_refl eq_refl
              (or_intror eq_refl) eq_refl)
    as (_ & c & Hrun & _ & _ & _ & _ & _ & _ & Hil & _ & _ & _ & _ & _ & Hsq & _).
  exists c. split; [exact Hrun|]. split; [exact (Hsq eq_refl eq_refl)|exact Hil].
Defined.

(** ** Status checks *)

Section Rest_facts.

Context `{E : Env} {X : EnvX E}.

Lemma requestX_ok (r : ReqX) (x : WorldX E) a rem' :
  httpX r (remote (base x)) = (inr a, rem') -> requestX r x = (Ok a, afterX x r rem').
Proof. intros H. unfold requestX. now rewrite H. Qed.

Lemma requestX_throw (r : ReqX) (x : WorldX E) e rem' :
  httpX r (remote (base x)) = (inl e, rem') -> requestX r x = (Throw e, afterX x r rem').
Proof. intros H. unfold requestX. now rewrite H. Qed.

Lemma requestX_cases (r : ReqX) (x : WorldX E) :
  exists o rem', httpX r (remote (base x)) = (o, rem') /\
    requestX r x = (match o with inl e => Throw e | inr a => Ok a end, afterX x r rem').
Proof.
  unfold requestX. destruct (httpX r (remote (base x))) as [o rem'].
  exists o, rem'. split; reflexivity.
Qed.

Lemma with_base_base (x : WorldX E) : with_base x (base x) = x.
Proof. destruct x; reflexivity. Qed.

Lemma lift_get_config (x : WorldX E) :
  lift get_config x = (Ok (config (base x)), x).
Proof. unfold lift, get_config. now rewrite with_base_base. Qed.

Lemma getStatusCheck_run (x : WorldX E) branchName useCache :
  getStatusCheck branchName useCache x =
    requestX (GetCommitStatuses (repository (config (base x)))
                (getBranchCommit branchName) useCache) x.
Proof.
  unfold getStatusCheck. cbv zeta. unfold mbind, MX_bind.
  now rewrite lift_get_config.
Qed.

Lemma getBranchStatusCheck_run (x : WorldX E) branchName context :
  let q := GetCommitStatuses (repository (config (base x)))
             (getBranchCommit branchName) true in
  getBranchStatusCheck branchName context x =
    match httpX q (remote (base x)) with
    | (inr res, rem') => (Ok (check_of_context context res), afterX x q rem')
    | (inl err, rem') =>
        (Throw (if statusCode_is err 404 then new_Error REPOSITORY_CHANGED else err),
         afterX x q rem')
    end.
Proof.
  intros q. unfold getBranchStatusCheck, try_catchX.
  unfold mbind, MX_bind. rewrite getStatusCheck_run. fold q.
  unfold requestX. destruct (httpX q (remote (base x))) as [[err|res] rem'].
  - unfold throwX. destruct (statusCode_is err 404); reflexivity.
  - reflexivity.
Qed.

End Rest_facts.

Section Status_check_properties.

Context `{E : Env} {X : EnvX E}.

(** X19. What [setBranchStatus] writes for a status,
    [getBranchStatusCheck] reads back as that status; [error] is read
    as red as well.  The check that decides is the first one of the
    context in the answer, whatever follows it, and without a check of
    the context the answer is null. *)
Theorem check_of_context_first (context : string) (res : list GhBranchStatus) :
  (forall state, githubToRenovateStatusMapping (renovateToGitHubStateMapping state)
                 = Some state) /\
  (forall before check rest,
     res = (before ++ check :: rest)%list ->
     (forall c, In c before -> status_context c <> context) ->
     status_context check = context ->
     check_of_context context res =
       Some (default yellow (githubToRenovateStatusMapping (status_state check)))) /\
  ((forall c, In c res -> status_context c <> context) ->
   check_of_context context res = None) /\
  (forall state, check_of_context context res = Some state ->
     exists check, In check res /\ status_context check = context).
Proof.
  split; [intros []; reflexivity|]. split; [|split].
  - intros before check rest -> Hb Hc. induction before as [|b before IH].
    + cbn. now rewrite Hc, String.eqb_refl.
    + cbn [app check_of_context].
      destruct (String.eqb_spec (status_context b) context) as [Heq|_].
      * exfalso. exact (Hb b (or_introl eq_refl) Heq).
      * apply IH. intros c Hin. apply Hb. now right.
  - induction res as [|c res IH]; intros Hno; [reflexivity|].
    cbn [check_of_context].
    destruct (String.eqb_spec (status_context c) context) as [Heq|_].
    + exfalso. exact (Hno c (or_introl eq_refl) Heq).
    + apply IH. intros c' Hin. apply Hno. now right.
  - induction res as [|c res IH]; intros state Hs; [discriminate|].
    cbn [check_of_context] in Hs.
    destruct (String.eqb_spec (status_context c) context) as [Heq|_].
    + exists c. split; [now left|exact Heq].
    + destruct (IH state Hs) as (check & Hin & Hc). exists check. split; [now right|exact Hc].
Qed.

(** X20. [getBranchStatusCheck] sends one request for the statuses of
    the branch commit, with the cache allowed.  A 404 is raised as a
    changed repository, any other failure as it is; the session is not
    touched. *)
Theorem getBranchStatusCheck_outcome (x x' : WorldX E) branchName context result :
  getBranchStatusCheck branchName context x = (result, x') ->
  let q := GetCommitStatuses (repository (config (base x)))
             (getBranchCommit branchName) true in
  journalX x' = (journalX x ++ [q])%list /\
  journal (base x') = journal (base x) /\
  config (base x') = config (base x) /\
  (forall err, result = Throw err ->
     exists e rem', httpX q (remote (base x)) = (inl e, rem') /\
       err = if statusCode_is e 404 then new_Error REPOSITORY_CHANGED else e) /\
  (forall status, result = Ok status ->
     exists res rem', httpX q (remote (base x)) = (inr res, rem') /\
       status = check_of_context context res).
Proof.
  intros Hrun q. rewrite getBranchStatusCheck_run in Hrun. cbv zeta in Hrun. fold q in Hrun.
  destruct (httpX q (remote (base x))) as [[e|res] rem'];
    injection Hrun as <- <-; repeat split; try reflexivity.
  - intros err [= <-]. now exists e, rem'.
  - intros status [=].
  - intros err [=].
  - intros status [= <-]. now exists res, rem'.
Qed.

End Status_check_properties.

Section Set_status_properties.

Context `{E : Env} {X : EnvX E}.

Lemma BranchStatus_eqb_eq (a b : BranchStatus) : BranchStatus_eqb a b = true <-> a = b.
Proof. destruct a, b; cbn; split; congruence. Qed.

Lemma existing_status_eq (state : BranchStatus) (existing : option BranchStatus) :
  from_option (BranchStatus_eqb state) false existing = true <-> existing = Some state.
Proof.
  destruct existing as [s|]; cbn; [|split; discriminate].
  rewrite BranchStatus_eqb_eq. split; congruence.
Qed.

Lemma lift_getStatus (x : WorldX E) branchName useCache :
  let r := GetCommitStatus (repository (config (base x))) (escapeHash branchName) useCache in
  lift (getStatus branchName useCache) x =
    match http r (remote (base x)) with
    | (inl e, rem') => (Throw e, with_base x (after (base x) r rem'))
    | (inr a, rem') => (Ok a, with_base x (after (base x) r rem'))
    end.
Proof.
  intros r. unfold lift, getStatus, mbind, M_bind, get_config, request. fold r.
  destruct (http r (remote (base x))) as [[e|a] rem']; reflexivity.
Qed.

(** The part of [setBranchStatus] that follows the comparison with the
    existing status. *)
Lemma setBranchStatus_write (x1 : WorldX E) branchName context description state
    targetUrl :
  let c := config (base x1) in
  let post := PostCommitStatus (repository c) (getBranchCommit branchName)
                (renovateToGitHubStateMapping state) description context
                (if Js.truthy_opt targetUrl then targetUrl else None) in
  let refresh := GetCommitStatus (repository c) (escapeHash branchName) false in
  let recheck := GetCommitStatuses (repository c) (getBranchCommit branchName) false in
  let written := post_and_refresh post refresh recheck x1 in
  try_catchX
    (let branchCommit := getBranchCommit branchName in
     c ← lift get_config;
     requestX
       (PostCommitStatus (repository c) branchCommit
          (renovateToGitHubStateMapping state) description context
          (if Js.truthy_opt targetUrl then targetUrl else None)) ;;
     lift (getStatus branchName false) ;;
     getStatusCheck branchName false ;;
     mret tt)
    (fun _ => throwX (new_Error REPOSITORY_CHANGED)) x1 =
  (if written.1 then Ok tt else Throw (new_Error REPOSITORY_CHANGED), written.2).
Proof.
  intros c post refresh recheck written. subst written. unfold post_and_refresh.
  cbv zeta. unfold try_catchX.
  unfold mbind at 1, MX_bind at 1. rewrite lift_get_config. fold c post.
  unfold mbind at 1, MX_bind at 1. unfold requestX at 1.
  destruct (httpX post (remote (base x1))) as [[e|a] rem1]; [reflexivity|].
  unfold mbind at 1, MX_bind at 1. rewrite lift_getStatus. cbv zeta.
  cbn [base config remote]. fold c refresh.
  destruct (http refresh rem1) as [[e|st] rem2]; [reflexivity|].
  unfold mbind at 1, MX_bind at 1. rewrite getStatusCheck_run.
  unfold requestX, afterX, with_base, after.
  cbn [base config remote journal now journalX repoForceRebase pushProtection].
  fold c recheck.
  destruct (httpX recheck rem2) as [[e|res] rem3]; reflexivity.
Qed.

Lemma post_and_refresh_facts (post : ReqX) (refresh : Req) (recheck : ReqX)
    (x : WorldX E) :
  let written := post_and_refresh post refresh recheck x in
  config (base written.2) = config (base x) /\
  (written.1 = true ->
   journalX written.2 = (journalX x ++ [post; recheck])%list /\
   journal (base written.2) = (journal (base x) ++ [refresh])%list) /\
  (journalX written.2 = (journalX x ++ [post])%list \/
   journalX written.2 = (journalX x ++ [post; recheck])%list).
Proof.
  unfold post_and_refresh. cbv zeta.
  destruct (httpX post (remote (base x))) as [[e|a] rem1];
    [cbn; split; [reflexivity|]; split; [discriminate|now left]|].
  destruct (http refresh rem1) as [[e|st] rem2];
    [cbn; split; [reflexivity|]; split; [discriminate|now left]|].
  destruct (httpX recheck rem2) as [[e|res] rem3]; cbn;
    rewrite <- app_assoc; (split; [reflexivity|]); (split; [|now right]).
  - discriminate.
  - intros _. split; reflexivity.
Qed.

(** X21. [setBranchStatus] in fork mode does nothing at all.  Otherwise
    it looks the status of the context up first: a failure of that
    look-up is raised as [getBranchStatusCheck] raises it, and when the
    status is already the wanted one nothing is written.  In every other
    case a status is posted, with the state translated for the remote,
    and the combined status and the status checks are fetched again
    with the cache bypassed.  When the remote refuses the post, or the
    first or the second of the two reads, the call stops there and
    raises a changed repository, whatever the failure was; when the
    remote accepts all three the call succeeds.  The session is never
    touched. *)
Theorem setBranchStatus_outcome (x x' : WorldX E) branchName context description
    state targetUrl result :
  setBranchStatus branchName context description state targetUrl x = (result, x') ->
  let c := config (base x) in
  let post := PostCommitStatus (repository c) (getBranchCommit branchName)
                (renovateToGitHubStateMapping state) description context
                (if Js.truthy_opt targetUrl then targetUrl else None) in
  let refresh := GetCommitStatus (repository c) (escapeHash branchName) false in
  let recheck := GetCommitStatuses (repository c) (getBranchCommit branchName) false in
  config (base x') = c /\
  (Js.truthy_opt (parentRepo c) = true -> result = Ok tt /\ x' = x) /\
  (Js.truthy_opt (parentRepo c) = false ->
   forall looked x1, getBranchStatusCheck branchName context x = (looked, x1) ->
     (forall err, looked = Throw err -> result = Throw err /\ x' = x1) /\
     (looked = Ok (Some state) -> result = Ok tt /\ x' = x1) /\
     (forall existing, looked = Ok existing -> existing <> Some state ->
        (result = Ok tt \/ result = Throw (new_Error REPOSITORY_CHANGED)) /\
        (result = Ok tt ->
         journalX x' = (journalX x1 ++ [post; recheck])%list /\
         journal (base x') = (journal (base x1) ++ [refresh])%list) /\
        (journalX x' = (journalX x1 ++ [post])%list \/
         journalX x' = (journalX x1 ++ [post; recheck])%list) /\
        (forall e rem1, httpX post (remote (base x1)) = (inl e, rem1) ->
           result = Throw (new_Error REPOSITORY_CHANGED) /\
           x' = afterX x1 post rem1) /\
        (forall a rem1, httpX post (remote (base x1)) = (inr a, rem1) ->
           let x2 := afterX x1 post rem1 in
           (forall e rem2, http refresh rem1 = (inl e, rem2) ->
              result = Throw (new_Error REPOSITORY_CHANGED) /\
              x' = with_base x2 (after (base x2) refresh rem2)) /\
           (forall st rem2, http refresh rem1 = (inr st, rem2) ->
              let x3 := with_base x2 (after (base x2) refresh rem2) in
              (forall e rem3, httpX recheck rem2 = (inl e, rem3) ->
                 result = Throw (new_Error REPOSITORY_CHANGED) /\
                 x' = afterX x3 recheck rem3) /\
              (forall res rem3, httpX recheck rem2 = (inr res, rem3) ->
                 result = Ok tt /\ x' = afterX x3 recheck rem3))))).
Proof.
  intros Hrun c post refresh recheck. unfold setBranchStatus in Hrun.
  unfold mbind at 1, MX_bind at 1 in Hrun. rewrite lift_get_config in Hrun. fold c in Hrun.
  destruct (Js.truthy_opt (parentRepo c)) eqn:Hfork.
  { injection Hrun as <- <-. split; [reflexivity|]. split; [now split|discriminate]. }
  unfold mbind at 1, MX_bind at 1 in Hrun.
  pose proof (getBranchStatusCheck_run x branchName context) as Hcheck. cbv zeta in Hcheck.
  assert (Hframe : forall looked x1,
            getBranchStatusCheck branchName context x = (looked, x1) ->
            config (base x1) = c).
  { intros looked x1 H1. rewrite Hcheck in H1.
    destruct (httpX _ (remote (base x))) as [[e|res] rem']; injection H1 as <- <-; reflexivity. }
  destruct (getBranchStatusCheck branchName context x) as [[existing|err] x1] eqn:Hlook.
  - pose proof (Hframe _ _ eq_refl) as Hc1.
    destruct (from_option (BranchStatus_eqb state) false existing) eqn:Heq.
    + injection Hrun as <- <-. apply existing_status_eq in Heq. subst existing.
      split; [exact Hc1|]. split; [discriminate|]. intros _ looked x2 [= <- <-].
      split; [discriminate|]. split; [now split|]. intros existing [= <-] Hne. congruence.
    + pose proof (setBranchStatus_write x1 branchName context description state
                    targetUrl) as Hw.
      cbv zeta in Hw. rewrite Hc1 in Hw. fold post refresh recheck in Hw.
      pose proof (eq_trans (eq_sym Hw) Hrun) as Hrun'. clear Hw Hrun.
      destruct (post_and_refresh_facts post refresh recheck x1) as (Hc' & Hok & Hj).
      set (written := post_and_refresh post refresh recheck x1) in *.
      injection Hrun' as Hres Hx'.
      split; [rewrite <- Hx', Hc'; exact Hc1|]. split; [discriminate|].
      intros _ looked x2 [= <- <-].
      split; [discriminate|]. split.
      { intros [= ->]. exfalso.
        assert (from_option (BranchStatus_eqb state) false (Some state) = true)
          by now apply existing_status_eq.
        congruence. }
      intros existing' [= <-] Hne.
      split; [destruct written.1; [left|right]; now rewrite <- Hres|].
      split.
      { intros Hr. rewrite <- Hx'. apply Hok.
        destruct written.1; [reflexivity|]. rewrite Hr in Hres. discriminate. }
      split; [rewrite <- Hx'; exact Hj|].
      subst written. unfold post_and_refresh in Hres, Hx'. cbv zeta in Hres, Hx'.
      split.
      * intros e rem1 Hq. rewrite Hq in Hres, Hx'. cbn [fst snd] in Hres, Hx'.
        now split.
      * intros a rem1 Hq x2'. rewrite Hq in Hres, Hx'. split.
        -- intros e rem2 Hq2. fold x2' in Hres, Hx'. rewrite Hq2 in Hres, Hx'.
           cbn [fst snd] in Hres, Hx'. now split.
        -- intros st rem2 Hq2 x3. fold x2' in Hres, Hx'. rewrite Hq2 in Hres, Hx'.
           fold x3 in Hres, Hx'. split.
           ++ intros e rem3 Hq3. rewrite Hq3 in Hres, Hx'. cbn [fst snd] in Hres, Hx'.
              now split.
           ++ intros res rem3 Hq3. rewrite Hq3 in Hres, Hx'. cbn [fst snd] in Hres, Hx'.
              now split.
  - injection Hrun as <- <-. split; [exact (Hframe _ _ eq_refl)|].
    split; [discriminate|]. intros _ looked x2 [= <- <-].
    split; [intros e [= <-]; now split|]. split; [discriminate|]. intros existing [=].
Qed.

End Set_status_properties.

Lemma getBranchStatusCheck_outcome_witness :
  exists x',
    More_examples.check_stability (SimX.worldX Examples.checks_only)
    = (Ok (Some yellow), x') /\
    journalX x' = [GetCommitStatuses (Some "acme/app") (Some "abc123") true].
Proof.
  assert (Hrun : exists x',
             More_examples.check_stability (SimX.worldX Examples.checks_only)
             = (Ok (Some yellow), x')).
  { vm_compute. eexists. reflexivity. }
  destruct Hrun as (x' & Hrun). exists x'. split; [exact Hrun|].
  exact (proj1 (getBranchStatusCheck_outcome (X := More_examples.rest) _ _ _ _ _ Hrun)).
Defined.

Lemma setBranchStatus_outcome_witness :
  (exists x',
     More_examples.set_stability yellow (SimX.worldX Examples.checks_only) = (Ok tt, x') /\
     journalX x' = [GetCommitStatuses (Some "acme/app") (Some "abc123") true]) /\
  (exists x',
     More_examples.set_stability green (SimX.worldX Examples.checks_only) = (Ok tt, x') /\
     journalX x' =
       [GetCommitStatuses (Some "acme/app") (Some "abc123") true;
        PostCommitStatus (Some "acme/app") (Some "abc123") "success"
          "Updates have met stability days requirement" "renovate/stability-days" None;
        GetCommitStatuses (Some "acme/app") (Some "abc123") false]).
Proof.
  assert (Hlook : exists x1,
            More_examples.check_stability (SimX.worldX Examples.checks_only)
            = (Ok (Some yellow), x1) /\
            journalX x1 = [GetCommitStatuses (Some "acme/app") (Some "abc123") true]).
  { vm_compute. eexists. split; reflexivity. }
  destruct Hlook as (x1 & Hlook & Hj1).
  split.
  - assert (Hrun : exists x',
               More_examples.set_stability yellow (SimX.worldX Examples.checks_only)
               = (Ok tt, x')).
    { vm_compute. eexists. reflexivity. }
    destruct Hrun as (x' & Hrun). exists x'. split; [exact Hrun|].
    destruct (setBranchStatus_outcome (X := More_examples.rest)
                (SimX.worldX Examples.checks_only) x' "renovate/a"
                "renovate/stability-days" "Updates have met stability days requirement"
                yellow None (Ok tt) Hrun)
      as (_ & _ & H).
    destruct (H eq_refl _ _ Hlook) as (_ & Hsame & _).
    destruct (Hsame eq_refl) as [_ ->]. exact Hj1.
  - assert (Hrun : exists x',
               More_examples.set_stability green (SimX.worldX Examples.checks_only)
               = (Ok tt, x')).
    { vm_compute. eexists. reflexivity. }
    destruct Hrun as (x' & Hrun). exists x'. split; [exact Hrun|].
    destruct (setBranchStatus_outcome (X := More_examples.rest)
                (SimX.worldX Examples.checks_only) x' "renovate/a"
                "renovate/stability-days" "Updates have met stability days requirement"
                green None (Ok tt) Hrun)
      as (_ & _ & H).
    destruct (H eq_refl _ _ Hlook) as (_ & _ & Hwrite).
    destruct (Hwrite _ eq_refl ltac:(discriminate)) as (_ & Hok & _).
    destruct (Hok eq_refl) as [-> _]. rewrite Hj1. reflexivity.
Defined.

(** ** Branch protection *)

Section Protection_properties.

Context `{E : Env} {X : EnvX E}.

Lemma getRepoForceRebase_cached (x : WorldX E) b :
  repoForceRebase x = Some b -> getRepoForceRebase x = (Ok (Some b), x).
Proof.
  intros Hb. unfold getRepoForceRebase.
  unfold mbind at 1, MX_bind at 1, get_repoForceRebase at 1. rewrite Hb.
  unfold mbind, MX_bind, mret, MX_ret, get_repoForceRebase. now rewrite Hb.
Qed.

Lemma getRepoForceRebase_fresh (x : WorldX E) :
  repoForceRebase x = None ->
  let c := config (base x) in
  let q := GetBranchProtection (repository c) (escapeHash <$> defaultBranch c) in
  getRepoForceRebase x =
    if Js.truthy_opt (parentRepo c) then (Ok (Some false), assumed_false x)
    else
      match httpX q (remote (base x)) with
      | (inr bp, rem') =>
          (Ok (Some (strict_checks bp)), protection_recorded x q rem' bp)
      | (inl err, rem') =>
          (if no_protection_visible err then Ok (Some false) else Throw err,
           afterX (assumed_false x) q rem')
      end.
Proof.
  intros Hn c q. unfold getRepoForceRebase.
  unfold mbind at 1, MX_bind at 1, get_repoForceRebase at 1. rewrite Hn.
  unfold mbind at 1, MX_bind at 1. unfold try_catchX.
  unfold mbind at 1, MX_bind at 1, set_repoForceRebase at 1.
  unfold mbind at 1, MX_bind at 1. rewrite lift_get_config. cbn [base]. fold c.
  unfold mbind at 1, MX_bind at 1. unfold getBranchProtection.
  unfold mbind at 1, MX_bind at 1. rewrite lift_get_config. cbn [base]. fold c.
  destruct (Js.truthy_opt (parentRepo c)).
  { unfold mret at 1, MX_ret at 1. cbn. reflexivity. }
  fold q. unfold requestX at 1. cbn [base remote].
  destruct (httpX q (remote (base x))) as [[err|bp] rem'].
  - unfold no_protection_visible.
    destruct (statusCode_is err 404); [reflexivity|].
    cbn [orb].
    destruct (String.eqb (message err) PLATFORM_INTEGRATION_UNAUTHORIZED
              || statusCode_is err 403); reflexivity.
  - unfold protection_recorded, strict_checks. fold c.
    destruct bp as [rpr [[|]|] rs]; destruct rpr, rs; reflexivity.
Qed.

(** X22. [getRepoForceRebase] decides once.  A flag that is set is
    returned without asking; after any call, also one that raised, the
    flag is set, so that the next call asks nothing and gives the flag.
    What it raises is neither a 404, nor a 403, nor the failure of an
    unauthorized integration, and after it raised the flag is false.
    It never takes back that reviews are required. *)
Theorem getRepoForceRebase_decides_once (x x' : WorldX E) result :
  getRepoForceRebase x = (result, x') ->
  (forall b, repoForceRebase x = Some b -> result = Ok (Some b) /\ x' = x) /\
  (exists b, repoForceRebase x' = Some b /\
     (forall v, result = Ok v -> v = Some b) /\
     getRepoForceRebase x' = (Ok (Some b), x')) /\
  (forall err, result = Throw err ->
     no_protection_visible err = false /\ repoForceRebase x' = Some false) /\
  (prReviewsRequired (config (base x)) = true ->
   prReviewsRequired (config (base x')) = true).
Proof.
  intros Hrun. destruct (repoForceRebase x) as [b|] eqn:Hflag.
  - rewrite (getRepoForceRebase_cached x b Hflag) in Hrun. injection Hrun as <- <-.
    split; [intros b' [= <-]; now split|]. split.
    + exists b. split; [exact Hflag|]. split; [now intros v [= <-]|].
      now apply getRepoForceRebase_cached.
    + split; [discriminate|auto].
  - split; [discriminate|].
    rewrite (getRepoForceRebase_fresh x Hflag) in Hrun. cbv zeta in Hrun.
    destruct (Js.truthy_opt (parentRepo (config (base x)))).
    { injection Hrun as <- <-. split; [|split; [discriminate|auto]].
      exists false. split; [reflexivity|]. split; [now intros v [= <-]|].
      now apply getRepoForceRebase_cached. }
    destruct (httpX _ (remote (base x))) as [[err|bp] rem'];
      injection Hrun as <- <-.
    + split; [|split].
      * exists false. split; [reflexivity|]. split.
        { destruct (no_protection_visible err); [now intros v [= <-]|discriminate]. }
        now apply getRepoForceRebase_cached.
      * intros err'. destruct (no_protection_visible err) eqn:Hv; [discriminate|].
        intros [= <-]. now split.
      * auto.
    + split; [|split; [discriminate|]].
      * exists (strict_checks bp). split; [reflexivity|]. split; [now intros v [= <-]|].
        now apply getRepoForceRebase_cached.
      * cbn. destruct (required_pull_request_reviews bp); auto.
Qed.

(** X23. What [getRepoForceRebase] learns when the flag is not set.  In
    fork mode it asks nothing and the answer is false.  Otherwise it
    asks for the protection of the default branch: the answer is the
    [strict] flag of the required status checks, false when there are
    none; required reviews switch the review gate of [mergePr] on; a
    404, a 403 or an unauthorized integration count as no protection. *)
Theorem getRepoForceRebase_protection (x : WorldX E) :
  repoForceRebase x = None ->
  let c := config (base x) in
  let q := GetBranchProtection (repository c) (escapeHash <$> defaultBranch c) in
  (Js.truthy_opt (parentRepo c) = true ->
   getRepoForceRebase x = (Ok (Some false), assumed_false x)) /\
  (Js.truthy_opt (parentRepo c) = false ->
   (forall bp rem', httpX q (remote (base x)) = (inr bp, rem') ->
      getRepoForceRebase x =
        (Ok (Some (strict_checks bp)), protection_recorded x q rem' bp) /\
      prReviewsRequired (config (base (protection_recorded x q rem' bp))) =
        required_pull_request_reviews bp || prReviewsRequired c) /\
   (forall err rem', httpX q (remote (base x)) = (inl err, rem') ->
      (statusCode_is err 404 = true \/ statusCode_is err 403 = true \/
       message err = PLATFORM_INTEGRATION_UNAUTHORIZED ->
       getRepoForceRebase x = (Ok (Some false), afterX (assumed_false x) q rem')) /\
      (no_protection_visible err = false ->
       getRepoForceRebase x = (Throw err, afterX (assumed_false x) q rem')))).
Proof.
  intros Hflag c q. pose proof (getRepoForceRebase_fresh x Hflag) as Hrun.
  cbv zeta in Hrun. fold c q in Hrun. split.
  - intros Hfork. now rewrite Hfork in Hrun.
  - intros Hfork. rewrite Hfork in Hrun. split.
    + intros bp rem' Hq. rewrite Hq in Hrun. split; [exact Hrun|].
      unfold protection_recorded. cbn. fold c.
      destruct (required_pull_request_reviews bp); reflexivity.
    + intros err rem' Hq. rewrite Hq in Hrun. split.
      * intros Hv. replace (no_protection_visible err) with true in Hrun; [exact Hrun|].
        symmetry. unfold no_protection_visible.
        destruct Hv as [-> | [-> | ->]]; [reflexivity| |].
        { now rewrite orb_true_r. }
        { now rewrite String.eqb_refl, orb_true_r. }
      * intros Hv. now rewrite Hv in Hrun.
Qed.

End Protection_properties.

Section Protection_and_merge.

Context `{E : Env} {X : EnvX E}.

(** X24. The branch protection reaches [mergePr] through the session:
    once [getRepoForceRebase] has found that the default branch requires
    reviews, a merge of a pull request that no review approves is
    refused, and the only request sent after the protection was read is
    the one for the reviews. *)
Theorem protection_gates_merge (x : WorldX E) branchName prNo bp rem1 reviews rem2 :
  repoForceRebase x = None ->
  let c := config (base x) in
  let q := GetBranchProtection (repository c) (escapeHash <$> defaultBranch c) in
  let r := GetPullReviews (parentOrRepository c) prNo in
  Js.truthy_opt (parentRepo c) = false ->
  httpX q (remote (base x)) = (inr bp, rem1) ->
  required_pull_request_reviews bp = true ->
  http r rem1 = (inr reviews, rem2) ->
  (forall state, In state reviews -> state <> "APPROVED") ->
  exists x2,
    (getRepoForceRebase ;; lift (mergePr branchName prNo)) x = (Ok false, x2) /\
    journalX x2 = (journalX x ++ [q])%list /\
    journal (base x2) = (journal (base x) ++ [r])%list /\
    remote (base x2) = rem2 /\
    repoForceRebase x2 = Some (strict_checks bp).
Proof.
  intros Hflag c q r Hfork Hq Hrev Hr Hno.
  pose proof (getRepoForceRebase_fresh x Hflag) as Hrun. cbv zeta in Hrun.
  fold c q in Hrun. rewrite Hfork, Hq in Hrun.
  set (x1 := protection_recorded x q rem1 bp) in *.
  assert (Hx1 : config (base x1) = set_prReviewsRequired true c).
  { unfold x1, protection_recorded. cbn. now rewrite Hrev. }
  pose proof (mergePr_unapproved (base x1) branchName prNo reviews rem2) as Hm.
  cbv zeta in Hm. rewrite Hx1 in Hm.
  change (parentOrRepository (set_prReviewsRequired true c))
    with (parentOrRepository c) in Hm.
  fold r in Hm. specialize (Hm eq_refl Hr Hno).
  exists (with_base x1 (after (base x1) r rem2)). split.
  - unfold mbind, MX_bind. rewrite Hrun. unfold lift. now rewrite Hm.
  - unfold x1, protection_recorded. cbn. repeat split.
Qed.

End Protection_and_merge.

Lemma getRepoForceRebase_decides_once_witness :
  exists x',
    More_examples.force_rebase More_examples.unprotected_yet = (Ok (Some true), x') /\
    More_examples.force_rebase x' = (Ok (Some true), x').
Proof.
  assert (Hrun : exists x',
             More_examples.force_rebase More_examples.unprotected_yet
             = (Ok (Some true), x')).
  { vm_compute. eexists. reflexivity. }
  destruct Hrun as (x' & Hrun). exists x'. split; [exact Hrun|].
  destruct (getRepoForceRebase_decides_once (X := More_examples.rest)
              More_examples.unprotected_yet x' (Ok (Some true)) Hrun)
    as (_ & (b & _ & Hb & Hagain) & _).
  pose proof (Hb _ eq_refl) as Hv. injection Hv as <-. exact Hagain.
Defined.

Lemma getRepoForceRebase_protection_witness :
  exists x',
    More_examples.force_rebase More_examples.unprotected_yet = (Ok (Some true), x') /\
    prReviewsRequired (config (base x')) = true.
Proof.
  destruct (getRepoForceRebase_protection (X := More_examples.rest)
              More_examples.unprotected_yet eq_refl) as [_ H].
  destruct (H eq_refl) as [Hok _].
  destruct (Hok (mkBranchProtection true (Some true) false) _ eq_refl) as [Hrun Hrev].
  eexists. split; [exact Hrun|exact Hrev].
Defined.

Lemma protection_gates_merge_witness :
  exists x2,
    More_examples.force_rebase_then_merge More_examples.unprotected_yet = (Ok false, x2) /\
    journal (base x2) = [GetPullReviews (Some "acme/app") 7].
Proof.
  destruct (protection_gates_merge (X := More_examples.rest)
              More_examples.unprotected_yet (Some "renovate/a") 7
              (mkBranchProtection true (Some true) false) _ ["CHANGES_REQUESTED"] _
              eq_refl eq_refl eq_refl eq_refl eq_refl)
    as (x2 & Hrun & _ & Hj & _).
  { intros state [<-|[]]. discriminate. }
  exists x2. split; [exact Hrun|exact Hj].
Defined.

(** ** Issue look-up, reviewers and comment removal *)

Section Issue_lookup_properties.

Context `{E : Env} {X : EnvX E}.

Lemma getIssueList_enabled (w w1 : World E) (il : list Issue) :
  getIssueList w = (Ok il, w1) -> il <> [] -> issues_disabled (config w1) = false.
Proof.
  rewrite getIssueList_run. intros Hrun Hne.
  destruct (issues_disabled (config w)) eqn:Hd; [injection Hrun as <- _; congruence|].
  destruct (issueList (config w)) as [l|]; [injection Hrun as _ <-; exact Hd|].
  cbv zeta in Hrun. destruct (http _ (remote w)) as [[e|raw] rem']; [discriminate|].
  injection Hrun as _ <-. exact Hd.
Qed.

(** X25. [findIssue] looks for the first open issue of the list that
    bears exactly the title.  Without one the answer is null and nothing
    more is asked; with one, the body of that issue is fetched, the
    cache allowed, and the answer carries its number and body; a
    failure of that request is answered with null, not raised. *)
Theorem findIssue_outcome (x : WorldX E) (title : string) (il : list Issue)
    (w1 : World E) :
  getIssueList (base x) = (Ok il, w1) ->
  let matching :=
    List.filter
      (fun i => String.eqb (issue_state i) "open" && String.eqb (issue_title i) title)
      il in
  let x1 := with_base x w1 in
  (matching = [] -> findIssue title x = (Ok None, x1)) /\
  (forall issue rest, matching = issue :: rest ->
     let q := GetIssueBody (parentOrRepository (config w1)) (issue_number issue) true in
     (forall body rem', httpX q (remote w1) = (inr body, rem') ->
        findIssue title x =
          (Ok (Some (mkIssueWithBody (issue_number issue) body)), afterX x1 q rem')) /\
     (forall err rem', httpX q (remote w1) = (inl err, rem') ->
        findIssue title x = (Ok None, afterX x1 q rem'))).
Proof.
  intros Hl matching x1.
  assert (Hfind : findIssue title x =
                  match matching with
                  | [] => mret None
                  | issue :: _ => getIssue (issue_number issue) true
                  end x1).
  { unfold findIssue. unfold mbind at 1, MX_bind at 1. unfold lift. now rewrite Hl. }
  split.
  - intros Hm. now rewrite Hfind, Hm.
  - intros issue rest Hm q.
    assert (Hen : issues_disabled (config w1) = false).
    { apply (getIssueList_enabled _ _ _ Hl). intros ->. discriminate. }
    assert (Hget : findIssue title x =
                   match httpX q (remote w1) with
                   | (inr body, rem') =>
                       (Ok (Some (mkIssueWithBody (issue_number issue) body)),
                        afterX x1 q rem')
                   | (inl _, rem') => (Ok None, afterX x1 q rem')
                   end).
    { rewrite Hfind, Hm. unfold getIssue.
      unfold mbind at 1, MX_bind at 1. rewrite lift_get_config.
      change (config (base x1)) with (config w1). rewrite Hen. fold q.
      unfold try_catchX, mbind, MX_bind, requestX.
      change (remote (base x1)) with (remote w1).
      destruct (httpX q (remote w1)) as [[e|body] rem']; reflexivity. }
    split.
    + intros body rem' Hq. now rewrite Hget, Hq.
    + intros err rem' Hq. now rewrite Hget, Hq.
Qed.

End Issue_lookup_properties.

Section Reviewer_properties.

Context `{E : Env} {X : EnvX E}.

Lemma prefix_split (p s : string) :
  String.prefix p s = true -> exists r, s = p +:+ r.
Proof.
  revert s. induction p as [|a p IH]; intros s; [exists s; reflexivity|].
  destruct s as [|b s]; [discriminate|]. cbn [String.prefix].
  destruct (ascii_dec a b) as [<-|_]; [|discriminate].
  intros (r & ->)%IH. exists r. reflexivity.
Qed.

Lemma prefix_append (p r : string) : String.prefix p (p +:+ r) = true.
Proof.
  induction p as [|a p IH]; [destruct r; reflexivity|].
  change (String.prefix (String a p) (String a (p +:+ r)) = true).
  cbn [String.prefix]. destruct (ascii_dec a a); [exact IH|congruence].
Qed.

(** X26. [addReviewers] never raises and sends one request.  The
    reviewers are split in two: those not marked as a team are sent as
    they are, in their order; those marked [team:] are sent without the
    mark; nobody is sent twice or left out. *)
Theorem addReviewers_split (x : WorldX E) (prNo : Z) (reviewers : list string) :
  exists users teams rem',
    addReviewers prNo reviewers x =
      (Ok tt,
       afterX x (PostRequestedReviewers (parentOrRepository (config (base x))) prNo
                   users teams) rem') /\
    (forall e, In e users <-> In e reviewers /\ Js.startsWith e "team:" = false) /\
    (forall t, In t teams <-> In ("team:" +:+ t) reviewers) /\
    (length users + length teams = length reviewers)%nat.
Proof.
  set (users := List.filter (fun e => negb (Js.startsWith e "team:")) reviewers).
  set (marked := List.filter (fun e => Js.startsWith e "team:") reviewers).
  set (q := PostRequestedReviewers (parentOrRepository (config (base x))) prNo users
              (List.map remove_team_prefix marked)).
  destruct (httpX q (remote (base x))) as [o rem'] eqn:Hq.
  exists users, (List.map remove_team_prefix marked), rem'. split; [|split; [|split]].
  - unfold addReviewers. cbv zeta. unfold mbind, MX_bind. rewrite lift_get_config.
    fold users marked q. unfold try_catchX, requestX. rewrite Hq.
    destruct o as [e|[]]; reflexivity.
  - intros e. unfold users. rewrite filter_In, negb_true_iff. reflexivity.
  - intros t. rewrite in_map_iff. split.
    + intros (e & <- & [Hin Hp]%filter_In).
      destruct (prefix_split _ _ Hp) as (r & ->). exact Hin.
    + intros Hin. exists ("team:" +:+ t). split; [reflexivity|].
      apply filter_In. split; [exact Hin|]. apply (prefix_append "team:" t).
  - rewrite length_map. unfold users, marked. clear.
    induction reviewers as [|e l IH]; [reflexivity|]. cbn [List.filter].
    destruct (Js.startsWith e "team:"); cbn [negb length]; lia.
Qed.

End Reviewer_properties.

Section Comment_removal_properties.

Context `{E : Env} {X : EnvX E}.

Lemma find_at_first_match {A : Type} (p : A -> bool) (before rest : list A) (c : A) :
  p c = true -> (forall y, In y before -> p y = false) ->
  List.find p (before ++ c :: rest) = Some c.
Proof.
  intros Hc Hb. induction before as [|b before IH]; cbn [app List.find].
  - now rewrite Hc.
  - rewrite (Hb b (or_introl eq_refl)). apply IH. intros y Hy. apply Hb. now right.
Qed.

Lemma find_without_match {A : Type} (p : A -> bool) (l : list A) :
  (forall y, In y l -> p y = false) -> List.find p l = None.
Proof.
  intros Hl. induction l as [|a l IH]; [reflexivity|]. cbn [List.find].
  rewrite (Hl a (or_introl eq_refl)). apply IH. intros y Hy. apply Hl. now right.
Qed.

Lemma ensureCommentRemoval_run (x : WorldX E) issueNo topic content comments w1 :
  getComments issueNo (base x) = (Ok (Some comments), w1) ->
  let p := fun comment =>
    if Js.truthy_opt topic
    then Js.startsWith (comment_body comment) (topic_header (default "" topic))
    else Js.strict_eq_opt (Some (trim (comment_body comment))) content in
  let x1 := with_base x w1 in
  ensureCommentRemoval issueNo topic content x =
    if Js.truthy_opt topic || Js.truthy_opt content then
      match List.find p comments with
      | Some c =>
          if comment_id c =? 0 then (Ok tt, x1)
          else
            let q := DeleteIssueComment (parentOrRepository (config w1)) (comment_id c) in
            (Ok tt, afterX x1 q (httpX q (remote w1)).2)
      | None => (Ok tt, x1)
      end
    else (Ok tt, x1).
Proof.
  intros Hc p x1. unfold ensureCommentRemoval.
  unfold mbind at 1, MX_bind at 1. unfold lift at 1. rewrite Hc. fold x1.
  cbv zeta. unfold mbind at 1, MX_bind at 1. subst p.
  destruct (Js.truthy_opt topic) eqn:Ht; [|destruct (Js.truthy_opt content) eqn:Hco];
    cbn [orb find_id]; unfold mret at 1, MX_ret at 1.
  1,2: destruct (List.find _ comments) as [c|]; cbn [fmap option_fmap option_map truthy_id];
       [|reflexivity];
       destruct (comment_id c =? 0); cbn [negb]; [reflexivity|];
       unfold try_catchX, deleteComment, mbind, MX_bind; rewrite lift_get_config;
       change (config (base x1)) with (config w1); cbn [from_option id];
       unfold requestX; change (remote (base x1)) with (remote w1);
       destruct (httpX _ (remote w1)) as [[e|[]] rem']; reflexivity.
  reflexivity.
Qed.

(** X27. Once the comments are read, [ensureCommentRemoval] never
    raises.  With a topic it looks for the first comment that begins
    with the header of the topic, the content being ignored; with a
    content only, for the first comment whose trimmed body is the
    content; with neither it does nothing.  It deletes that first
    comment, and no other, unless its id is 0; whether the remote
    accepts the deletion makes no difference to the answer. *)
Theorem ensureCommentRemoval_outcome (x : WorldX E) issueNo topic content
    comments w1 :
  getComments issueNo (base x) = (Ok (Some comments), w1) ->
  let p := fun comment =>
    if Js.truthy_opt topic
    then Js.startsWith (comment_body comment) (topic_header (default "" topic))
    else Js.strict_eq_opt (Some (trim (comment_body comment))) content in
  let x1 := with_base x w1 in
  let delete := DeleteIssueComment (parentOrRepository (config w1)) in
  exists x',
    ensureCommentRemoval issueNo topic content x = (Ok tt, x') /\
    config (base x') = config w1 /\
    journal (base x') = journal w1 /\
    (Js.truthy_opt topic || Js.truthy_opt content = false -> x' = x1) /\
    (Js.truthy_opt topic || Js.truthy_opt content = true ->
     (forall before c rest,
        comments = (before ++ c :: rest)%list ->
        p c = true -> (forall y, In y before -> p y = false) ->
        if comment_id c =? 0 then x' = x1
        else journalX x' = (journalX x ++ [delete (comment_id c)])%list) /\
     ((forall y, In y comments -> p y = false) -> x' = x1)).
Proof.
  intros Hc p x1 delete.
  pose proof (ensureCommentRemoval_run x issueNo topic content comments w1 Hc) as Hrun.
  cbv zeta in Hrun. fold p x1 in Hrun.
  destruct (Js.truthy_opt topic || Js.truthy_opt content) eqn:Hany.
  - destruct (List.find p comments) as [c0|] eqn:Hfind.
    + destruct (comment_id c0 =? 0) eqn:Hid.
      * exists x1. split; [exact Hrun|]. repeat split; try discriminate.
        -- intros before c rest -> Hpc Hb.
           rewrite (find_at_first_match p before rest c Hpc Hb) in Hfind.
           injection Hfind as ->. now rewrite Hid.
      * eexists. split; [exact Hrun|]. repeat split; try discriminate.
        -- intros before c rest -> Hpc Hb.
           rewrite (find_at_first_match p before rest c Hpc Hb) in Hfind.
           injection Hfind as ->. rewrite Hid. reflexivity.
        -- intros Hno. rewrite (find_without_match p comments Hno) in Hfind. discriminate.
    + exists x1. split; [exact Hrun|]. repeat split; try discriminate.
      intros before c rest -> Hpc Hb.
      rewrite (find_at_first_match p before rest c Hpc Hb) in Hfind. discriminate.
  - exists x1. split; [exact Hrun|]. repeat split; discriminate.
Qed.

End Comment_removal_properties.

Lemma findIssue_outcome_witness :
  exists x',
    More_examples.find_dashboard (SimX.worldX More_examples.dashboards)
    = (Ok (Some (mkIssueWithBody 2 "second")), x').
Proof.
  assert (Hl : exists il w1,
             getIssueList More_examples.dashboards = (Ok il, w1) /\
             il = [mkIssue 1 "closed" "Dependency Dashboard";
                   mkIssue 2 "open" "Dependency Dashboard";
                   mkIssue 3 "open" "Unrelated";
                   mkIssue 4 "open" "Dependency Dashboard"] /\
             remote w1 = remote More_examples.dashboards /\
             parentOrRepository (config w1) = Some "acme/app").
  { vm_compute. eexists _, _. repeat split. }
  destruct Hl as (il & w1 & Hl & Hil & Hrem & Hrepo).
  destruct (findIssue_outcome (X := More_examples.rest)
              (SimX.worldX More_examples.dashboards) "Dependency Dashboard" il w1 Hl)
    as [_ H].
  rewrite Hil in H.
  destruct (H (mkIssue 2 "open" "Dependency Dashboard")
              [mkIssue 4 "open" "Dependency Dashboard"] eq_refl) as [Hok _].
  rewrite Hrem, Hrepo in Hok.
  eexists. exact (Hok "second" _ eq_refl).
Defined.

Lemma ensureCommentRemoval_outcome_witness :
  exists x',
    More_examples.remove_notice (SimX.worldX More_examples.notices) = (Ok tt, x') /\
    journalX x' = [DeleteIssueComment (Some "acme/app") 12].
Proof.
  assert (Hc : exists w1,
             getComments 5 More_examples.notices
             = (Ok (Some [mkComment 11 "unrelated";
                          mkComment 12 (topic_header "Notice" +:+ "first");
                          mkComment 13 (topic_header "Notice" +:+ "second")]), w1) /\
             parentOrRepository (config w1) = Some "acme/app").
  { vm_compute. eexists. split; reflexivity. }
  destruct Hc as (w1 & Hc & Hrepo).
  destruct (ensureCommentRemoval_outcome (X := More_examples.rest)
              (SimX.worldX More_examples.notices) 5 (Some "Notice") (Some "second")
              _ w1 Hc) as (x' & Hrun & _ & _ & _ & H).
  exists x'. split; [exact Hrun|].
  destruct (H eq_refl) as [Hfirst _].
  specialize (Hfirst [mkComment 11 "unrelated"]
                (mkComment 12 (topic_header "Notice" +:+ "first"))
                [mkComment 13 (topic_header "Notice" +:+ "second")] eq_refl eq_refl).
  cbn [comment_id Z.eqb] in Hfirst. rewrite Hrepo in Hfirst. apply Hfirst.
  intros y [<-|[]]. reflexivity.
Defined.
